(** * eddylicious.readers.hdf5_readers

    A shallow embedding of [read_points_from_hdf5] and
    [read_velocity_from_hdf5] together with the part of numpy and h5py
    they rely on, and the properties of the two readers.

    Conventions of the model:
    - a Python [float] is an IEEE 754 binary64 value, taken from the
      Standard Library's [SpecFloat] (precision 53, emax 1024);
    - a 2-d [ndarray] of float64 is a column count with a list of rows;
    - the file system maps a path to the content of an HDF5 file; the
      readers run in a monad that threads the file system and may raise;
      the state reached before an exception is kept, as in Python;
    - a Python variable holding an array is either an h5py [Dataset] handle
      (reads and writes go to the file) or an in-memory [ndarray]. *)

From Stdlib Require Import ZArith Lia Bool.
From Stdlib Require Import Floats.SpecFloat.
From stdpp Require Import gmap strings list.

Local Open Scope Z_scope.

(** ** Python floats *)

Module F64.

Definition prec : Z := 53.
Definition emax : Z := 1024.

Definition float : Type := spec_float.

Definition mul : float -> float -> float := SFmul prec emax.
Definition add : float -> float -> float := SFadd prec emax.

(** [float('nan')] *)
Definition nan : float := S754_nan.
(** [1.0], the entries of [np.ones] *)
Definition one : float := S754_finite false 4503599627370496 (-52).
(** [0.5] *)
Definition half : float := S754_finite false 4503599627370496 (-53).
(** [0.0] *)
Definition zero : float := S754_zero false.

(** [np.isnan] on a scalar *)
Definition isnan (x : float) : bool :=
  match x with
  | S754_nan => true
  | _ => false
  end.

(** The values a binary64 variable can hold. *)
Definition is_binary64 (x : float) : bool := valid_binary prec emax x.

(** Small integers as floats, for concrete runs. *)
Definition of_pos (p : positive) : float := binary_round prec emax false p 0.

End F64.

Abbreviation float := F64.float.

(** ** numpy: two-dimensional float64 arrays *)

Record ndarray : Type := mk_ndarray {
  ncols : nat;
  rows : list (list float)
}.

Definition nrows (a : ndarray) : nat := length (rows a).

(** [a.shape] *)
Definition shape (a : ndarray) : nat * nat := (nrows a, ncols a).

(** Every row of an array has [ncols] entries. *)
Definition wf_ndarray (a : ndarray) : Prop :=
  Forall (fun r => length r = ncols a) (rows a).

(** ** Exceptions *)

Inductive exn : Type :=
| OSError        (* h5py.File on a path that does not exist, mode 'r' *)
| KeyError       (* a group or a dataset that the file does not have *)
| IndexError     (* an integer index out of range *)
| ValueError.    (* np.append of arrays whose row lengths differ *)

Definition result (A : Type) : Type := exn + A.

(** ** Python indexing *)

(** An integer index [i] into a dimension of length [n]: negative indices
    count from the end, anything outside [-n, n) raises. *)
Definition py_index (n : nat) (i : Z) : option nat :=
  let j := if i <? 0 then i + Z.of_nat n else i in
  if (0 <=? j) && (j <? Z.of_nat n) then Some (Z.to_nat j) else None.

(** A slice bound [k] in a dimension of length [n], as [slice.indices]
    computes it: negative bounds count from the end, and the result is
    clipped to [0, n]. *)
Definition py_slice_bound (n : nat) (k : Z) : nat :=
  Z.to_nat (if k <? 0 then Z.max 0 (k + Z.of_nat n) else Z.min k (Z.of_nat n)).

(** [a[i, :]] *)
Definition getrow (a : ndarray) (i : Z) : result (list float) :=
  match py_index (nrows a) i with
  | Some j =>
      match rows a !! j with
      | Some r => inr r
      | None => inl IndexError
      end
  | None => inl IndexError
  end.

(** [a[i, :] = r] for a row [r] *)
Definition setrow (a : ndarray) (i : Z) (r : list float) : result ndarray :=
  match py_index (nrows a) i with
  | Some j => inr (mk_ndarray (ncols a) (<[j := r]> (rows a)))
  | None => inl IndexError
  end.

(** [a[i, :] = v] for a scalar [v] *)
Definition setrow_scalar (a : ndarray) (i : Z) (v : float) : result ndarray :=
  setrow a i (replicate (ncols a) v).

(** [a[:k, :]] *)
Definition rows_upto (a : ndarray) (k : Z) : ndarray :=
  mk_ndarray (ncols a) (take (py_slice_bound (nrows a) k) (rows a)).

(** [a[k:, :]] *)
Definition rows_from (a : ndarray) (k : Z) : ndarray :=
  mk_ndarray (ncols a) (drop (py_slice_bound (nrows a) k) (rows a)).

(** [v * np.ones((1, n))] *)
Definition scaled_ones (v : float) (n : nat) : ndarray :=
  mk_ndarray n [F64.mul v <$> replicate n F64.one].

(** [np.array([r])] *)
Definition array_of_row (r : list float) : ndarray :=
  mk_ndarray (length r) [r].

(** [np.append(a, b, axis=0)] on two in-memory arrays *)
Definition append_rows (a b : ndarray) : result ndarray :=
  if decide (ncols a = ncols b)
  then inr (mk_ndarray (ncols a) (rows a ++ rows b))
  else inl ValueError.

(** [0.5*(r1 + r2)] on two rows *)
Definition interp_rows (r1 r2 : list float) : list float :=
  zip_with (fun x y => F64.mul F64.half (F64.add x y)) r1 r2.

(** ** h5py: files, groups and datasets *)

(** Group [points]: two 2-d datasets. *)
Record points_group : Type := mk_points_group {
  g_pointsY : option ndarray;
  g_pointsZ : option ndarray
}.

(** Group [velocity]: three 3-d datasets, a list of 2-d slabs indexed by
    time. *)
Record velocity_group : Type := mk_velocity_group {
  g_uX : option (list ndarray);
  g_uY : option (list ndarray);
  g_uZ : option (list ndarray)
}.

Record h5file : Type := mk_h5file {
  f_points : option points_group;
  f_velocity : option velocity_group
}.

(** What [h5py.File(path, 'a')] creates when the path does not exist. *)
Definition empty_h5file : h5file := mk_h5file None None.

Abbreviation filesystem := (gmap string h5file).

(** ** The monad of the readers *)

Definition M (A : Type) : Type := filesystem -> result A * filesystem.

Definition ret {A} (x : A) : M A := fun fs => (inr x, fs).

Definition raise {A} (e : exn) : M A := fun fs => (inl e, fs).

Definition bind {A B} (m : M A) (k : A -> M B) : M B :=
  fun fs =>
    match m fs with
    | (inr x, fs') => k x fs'
    | (inl e, fs') => (inl e, fs')
    end.

Definition lift {A} (r : result A) : M A :=
  match r with
  | inr x => ret x
  | inl e => raise e
  end.

Declare Scope reader_scope.
Delimit Scope reader_scope with reader.
Notation "'let*' x ':=' m 'in' k" := (bind m (fun x => k))
  (at level 10, x pattern, m at level 200, k at level 200) : reader_scope.
Local Open Scope reader_scope.

Inductive file_mode : Type := mode_r | mode_a.

(** [h5py.File(path, mode)]: mode 'r' raises on a missing path, mode 'a'
    creates an empty file there. The handle is the path. *)
Definition h5py_File (path : string) (mode : file_mode) : M string :=
  fun fs =>
    match fs !! path with
    | Some _ => (inr path, fs)
    | None =>
        match mode with
        | mode_r => (inl OSError, fs)
        | mode_a => (inr path, <[path := empty_h5file]> fs)
        end
    end.

Inductive points_name : Type := PointsY | PointsZ.
Inductive velocity_name : Type := UX | UY | UZ.

Definition points_field (d : points_name) (g : points_group) : option ndarray :=
  match d with
  | PointsY => g_pointsY g
  | PointsZ => g_pointsZ g
  end.

Definition velocity_field (d : velocity_name) (g : velocity_group)
  : option (list ndarray) :=
  match d with
  | UX => g_uX g
  | UY => g_uY g
  | UZ => g_uZ g
  end.

(** The content of dataset [d] of group [points] of the file at [path]. *)
Definition stored_points (fs : filesystem) (path : string) (d : points_name)
  : option ndarray :=
  f ← fs !! path; g ← f_points f; points_field d g.

Definition stored_velocity (fs : filesystem) (path : string) (d : velocity_name)
  : option (list ndarray) :=
  f ← fs !! path; g ← f_velocity f; velocity_field d g.

(** A Python value that the points reader binds to [pointsY] or
    [pointsZ]. *)
Inductive array_ref : Type :=
| Dataset (path : string) (d : points_name)
| Ndarray (a : ndarray).

(** [dbFile["points"][d]]: a handle, nothing is read yet. *)
Definition points_getitem (dbFile : string) (d : points_name) : M array_ref :=
  fun fs =>
    match stored_points fs dbFile d with
    | Some _ => (inr (Dataset dbFile d), fs)
    | None => (inl KeyError, fs)
    end.

(** [dbFile["velocity"][d][timeIndex, :, :]]: a fresh in-memory array. *)
Definition velocity_getitem (dbFile : string) (d : velocity_name) (timeIndex : Z)
  : M ndarray :=
  fun fs =>
    match stored_velocity fs dbFile d with
    | Some slabs =>
        match py_index (length slabs) timeIndex with
        | Some t =>
            match slabs !! t with
            | Some a => (inr a, fs)
            | None => (inl IndexError, fs)
            end
        | None => (inl IndexError, fs)
        end
    | None => (inl KeyError, fs)
    end.

(** Reading the whole of what a variable refers to. *)
Definition as_array (r : array_ref) : M ndarray :=
  match r with
  | Ndarray a => ret a
  | Dataset path d =>
      fun fs =>
        match stored_points fs path d with
        | Some a => (inr a, fs)
        | None => (inl KeyError, fs)
        end
  end.

(** Replacing the content of a dataset on disk. *)
Definition write_points (path : string) (d : points_name) (a : ndarray) : M unit :=
  fun fs =>
    match fs !! path with
    | Some f =>
        match f_points f with
        | Some g =>
            let g' := match d with
                      | PointsY => mk_points_group (Some a) (g_pointsZ g)
                      | PointsZ => mk_points_group (g_pointsY g) (Some a)
                      end in
            (inr tt, <[path := mk_h5file (Some g') (f_velocity f)]> fs)
        | None => (inl KeyError, fs)
        end
    | None => (inl KeyError, fs)
    end.

(** [r.shape] *)
Definition ref_shape (r : array_ref) : M (nat * nat) :=
  let* a := as_array r in ret (shape a).

(** [np.append(r1, r2, axis=0)]: both arguments are converted to arrays,
    the result is a new array. *)
Definition np_append (r1 r2 : array_ref) : M array_ref :=
  let* a := as_array r1 in
  let* b := as_array r2 in
  let* c := lift (append_rows a b) in
  ret (Ndarray c).

(** [r[i, :]] *)
Definition ref_getrow (r : array_ref) (i : Z) : M (list float) :=
  let* a := as_array r in lift (getrow a i).

(** [r[:k, :]]: a new array when [r] is a dataset, a view otherwise. *)
Definition ref_rows_upto (r : array_ref) (k : Z) : M array_ref :=
  let* a := as_array r in ret (Ndarray (rows_upto a k)).

(** [r[k:, :]] *)
Definition ref_rows_from (r : array_ref) (k : Z) : M array_ref :=
  let* a := as_array r in ret (Ndarray (rows_from a k)).

(** [r[i, :] = v]: on a dataset the row is written to the file. *)
Definition ref_setrow_scalar (r : array_ref) (i : Z) (v : float) : M array_ref :=
  match r with
  | Ndarray a => let* a' := lift (setrow_scalar a i v) in ret (Ndarray a')
  | Dataset path d =>
      let* a := as_array r in
      let* a' := lift (setrow_scalar a i v) in
      let* _ := write_points path d a' in
      ret r
  end.

(** What a returned value shows when it is read in file system [fs]. *)
Definition contents (fs : filesystem) (r : array_ref) : option ndarray :=
  match r with
  | Ndarray a => Some a
  | Dataset path d => stored_points fs path d
  end.

(** ** read_points_from_hdf5 *)

Section ReadPoints.

Variable readPath : string.
Variables addValBot addValTop : float.
Variables excludeBot excludeTop : Z.
Variables exchangeValBot exchangeValTop : float.

(** [if not np.isnan(addValBot): ...]: a row of [addValBot] below
    [pointsY], a copy of row 0 of [pointsZ] below [pointsZ]. *)
Definition add_bot (nPointsZ : nat) (pts : array_ref * array_ref)
  : M (array_ref * array_ref) :=
  let '(pointsY, pointsZ) := pts in
  if negb (F64.isnan addValBot) then
    let* pointsY := np_append (Ndarray (scaled_ones addValBot nPointsZ)) pointsY in
    let* z0 := ref_getrow pointsZ 0 in
    let* pointsZ := np_append (Ndarray (array_of_row z0)) pointsZ in
    ret (pointsY, pointsZ)
  else ret (pointsY, pointsZ).

(** [if not np.isnan(addValTop): ...]: a row of [addValTop] above
    [pointsY], a copy of row 0 of [pointsZ] above [pointsZ]. *)
Definition add_top (nPointsZ : nat) (pts : array_ref * array_ref)
  : M (array_ref * array_ref) :=
  let '(pointsY, pointsZ) := pts in
  if negb (F64.isnan addValTop) then
    let* pointsY := np_append pointsY (Ndarray (scaled_ones addValTop nPointsZ)) in
    let* z0 := ref_getrow pointsZ 0 in
    let* pointsZ := np_append pointsZ (Ndarray (array_of_row z0)) in
    ret (pointsY, pointsZ)
  else ret (pointsY, pointsZ).

(** [if excludeTop: ...] *)
Definition cap_top (nPointsY : nat) (pts : array_ref * array_ref)
  : M (array_ref * array_ref) :=
  let '(pointsY, pointsZ) := pts in
  if negb (excludeTop =? 0) then
    let* pointsY := ref_rows_upto pointsY (Z.of_nat nPointsY - excludeTop) in
    let* pointsZ := ref_rows_upto pointsZ (Z.of_nat nPointsY - excludeTop) in
    ret (pointsY, pointsZ)
  else ret (pointsY, pointsZ).

(** [if excludeBot: ...] *)
Definition cap_bot (pts : array_ref * array_ref) : M (array_ref * array_ref) :=
  let '(pointsY, pointsZ) := pts in
  if negb (excludeBot =? 0) then
    let* pointsY := ref_rows_from pointsY excludeBot in
    let* pointsZ := ref_rows_from pointsZ excludeBot in
    ret (pointsY, pointsZ)
  else ret (pointsY, pointsZ).

(** [if not np.isnan(exchangeValBot): pointsY[0, :] = exchangeValBot] *)
Definition exchange_bot (pts : array_ref * array_ref) : M (array_ref * array_ref) :=
  let '(pointsY, pointsZ) := pts in
  if negb (F64.isnan exchangeValBot) then
    let* pointsY := ref_setrow_scalar pointsY 0 exchangeValBot in
    ret (pointsY, pointsZ)
  else ret (pointsY, pointsZ).

(** [if not np.isnan(exchangeValTop): pointsY[-1, :] = exchangeValTop] *)
Definition exchange_top (pts : array_ref * array_ref) : M (array_ref * array_ref) :=
  let '(pointsY, pointsZ) := pts in
  if negb (F64.isnan exchangeValTop) then
    let* pointsY := ref_setrow_scalar pointsY (-1) exchangeValTop in
    ret (pointsY, pointsZ)
  else ret (pointsY, pointsZ).

Definition read_points_from_hdf5 : M (array_ref * array_ref) :=
  let* dbFile := h5py_File readPath mode_a in
  let* pointsY := points_getitem dbFile PointsY in
  let* pointsZ := points_getitem dbFile PointsZ in
  let* shp := ref_shape pointsY in
  let nPointsZ := snd shp in
  (* Add points at y = 0 and y = max(y) *)
  let* pts := add_bot nPointsZ (pointsY, pointsZ) in
  let* pts := add_top nPointsZ pts in
  (* Cap the points *)
  let* shp := ref_shape (fst pts) in
  let nPointsY := fst shp in
  let* pts := cap_top nPointsY pts in
  let* pts := cap_bot pts in
  let* pts := exchange_bot pts in
  let* pts := exchange_top pts in
  ret pts.

End ReadPoints.

(** ** read_velocity_from_hdf5 *)

(** [u[dst, :] = 0.5*(u[i, :] + u[j, :])]: both rows are read, then the
    destination row is overwritten in place. *)
Definition interpolate (u : ndarray) (dst i j : Z) : result ndarray :=
  match getrow u i with
  | inr ri =>
      match getrow u j with
      | inr rj => setrow u dst (interp_rows ri rj)
      | inl e => inl e
      end
  | inl e => inl e
  end.

Section ReadVelocity.

Variable readPath : string.
Variables addValBot addValTop : float.
Variables excludeBot excludeTop : Z.
Variables interpValBot interpValTop : bool.

Definition velocity : Type := ndarray * ndarray * ndarray.

(** [if not np.isnan(addValBot): ...] *)
Definition add_bot_u (nPointsZ : nat) (u : velocity) : M velocity :=
  let '(uX, uY, uZ) := u in
  if negb (F64.isnan addValBot) then
    let* uX := lift (append_rows (scaled_ones addValBot nPointsZ) uX) in
    let* uY := lift (append_rows (scaled_ones addValBot nPointsZ) uY) in
    let* uZ := lift (append_rows (scaled_ones addValBot nPointsZ) uZ) in
    ret (uX, uY, uZ)
  else ret (uX, uY, uZ).

(** [if not np.isnan(addValTop): ...] *)
Definition add_top_u (nPointsZ : nat) (u : velocity) : M velocity :=
  let '(uX, uY, uZ) := u in
  if negb (F64.isnan addValTop) then
    let* uX := lift (append_rows uX (scaled_ones addValTop nPointsZ)) in
    let* uY := lift (append_rows uY (scaled_ones addValTop nPointsZ)) in
    let* uZ := lift (append_rows uZ (scaled_ones addValTop nPointsZ)) in
    ret (uX, uY, uZ)
  else ret (uX, uY, uZ).

(** [if interpValTop and excludeTop: ...] *)
Definition interp_top (topmostPoint : Z) (u : velocity) : M velocity :=
  let '(uX, uY, uZ) := u in
  if interpValTop && negb (excludeTop =? 0) then
    let* uX := lift (interpolate uX (topmostPoint - 1) (topmostPoint - 1) topmostPoint) in
    let* uY := lift (interpolate uY (topmostPoint - 1) (topmostPoint - 1) topmostPoint) in
    let* uZ := lift (interpolate uZ (topmostPoint - 1) (topmostPoint - 1) topmostPoint) in
    ret (uX, uY, uZ)
  else ret (uX, uY, uZ).

(** [if interpValBot and excludeBot: ...] *)
Definition interp_bot (u : velocity) : M velocity :=
  let '(uX, uY, uZ) := u in
  if interpValBot && negb (excludeBot =? 0) then
    let* uX := lift (interpolate uX excludeBot (excludeBot - 1) excludeBot) in
    let* uY := lift (interpolate uY excludeBot (excludeBot - 1) excludeBot) in
    let* uZ := lift (interpolate uZ excludeBot (excludeBot - 1) excludeBot) in
    ret (uX, uY, uZ)
  else ret (uX, uY, uZ).

(** [if excludeTop: ...] *)
Definition cap_top_u (topmostPoint : Z) (u : velocity) : velocity :=
  let '(uX, uY, uZ) := u in
  if negb (excludeTop =? 0)
  then (rows_upto uX topmostPoint, rows_upto uY topmostPoint,
        rows_upto uZ topmostPoint)
  else (uX, uY, uZ).

(** [if excludeBot: ...] *)
Definition cap_bot_u (u : velocity) : velocity :=
  let '(uX, uY, uZ) := u in
  if negb (excludeBot =? 0)
  then (rows_from uX excludeBot, rows_from uY excludeBot,
        rows_from uZ excludeBot)
  else (uX, uY, uZ).

(** The closure returned by the factory. *)
Definition read (timeIndex : Z) : M velocity :=
  let* dbFile := h5py_File readPath mode_r in
  let* uX := velocity_getitem dbFile UX timeIndex in
  let* uY := velocity_getitem dbFile UY timeIndex in
  let* uZ := velocity_getitem dbFile UZ timeIndex in
  let nPointsZ := snd (shape uX) in
  let* u := add_bot_u nPointsZ (uX, uY, uZ) in
  let* u := add_top_u nPointsZ u in
  let nPointsY := fst (shape (fst (fst u))) in
  let topmostPoint := Z.of_nat nPointsY - excludeTop in
  (* Interpolate for the last point in the wall-normal direction *)
  let* u := interp_top topmostPoint u in
  (* Interpolate for the first point in the wall-normal direction *)
  let* u := interp_bot u in
  (* Cap the points *)
  let u := cap_top_u topmostPoint u in
  let u := cap_bot_u u in
  ret u.

End ReadVelocity.

(** A callable with its [reader] attribute. *)
Record reader_closure : Type := mk_reader_closure {
  reader : string;
  call : Z -> M velocity
}.

Definition read_velocity_from_hdf5 (readPath : string)
    (addValBot addValTop : float) (excludeBot excludeTop : Z)
    (interpValBot interpValTop : bool) : reader_closure :=
  mk_reader_closure "hdf5"
    (read readPath addValBot addValTop excludeBot excludeTop
          interpValBot interpValTop).

(** ** Keyword arguments

    Both readers take their options by keyword, each with a default:
    [float('nan')] for the values, [0] for the counts, [False] for the
    flags. [None] stands for an argument that the caller omits. *)

Definition read_points_from_hdf5_kw (readPath : string)
    (addValBot addValTop : option float) (excludeBot excludeTop : option Z)
    (exchangeValBot exchangeValTop : option float)
  : M (array_ref * array_ref) :=
  read_points_from_hdf5 readPath
    (default F64.nan addValBot) (default F64.nan addValTop)
    (default 0 excludeBot) (default 0 excludeTop)
    (default F64.nan exchangeValBot) (default F64.nan exchangeValTop).

Definition read_velocity_from_hdf5_kw (readPath : string)
    (addValBot addValTop : option float) (excludeBot excludeTop : option Z)
    (interpValBot interpValTop : option bool) : reader_closure :=
  read_velocity_from_hdf5 readPath
    (default F64.nan addValBot) (default F64.nan addValTop)
    (default 0 excludeBot) (default 0 excludeTop)
    (default false interpValBot) (default false interpValTop).

(** * Notions used in the statements *)

(** ** Computations that leave the file system alone *)

Definition readonly {A} (m : M A) : Prop := forall fs, snd (m fs) = fs.

(** ** The points reader on array contents

    What each block of [read_points_from_hdf5] does to the contents of
    [pointsY] and [pointsZ], wherever they live. The blocks of the reader
    are related to these functions below, and the properties of the reader
    are then read off the functions. *)

Definition rbind {A B} (r : result A) (k : A -> result B) : result B :=
  match r with
  | inr x => k x
  | inl e => inl e
  end.

Abbreviation arrays := (ndarray * ndarray)%type.

Section PointsOnArrays.

Variables addValBot addValTop : float.
Variables excludeBot excludeTop : Z.
Variables exchangeValBot exchangeValTop : float.

Definition add_bot_arr (nPointsZ : nat) (p : arrays) : result arrays :=
  if negb (F64.isnan addValBot) then
    rbind (append_rows (scaled_ones addValBot nPointsZ) (fst p)) (fun Y' =>
    rbind (getrow (snd p) 0) (fun z0 =>
    rbind (append_rows (array_of_row z0) (snd p)) (fun Z' =>
    inr (Y', Z'))))
  else inr p.

Definition add_top_arr (nPointsZ : nat) (p : arrays) : result arrays :=
  if negb (F64.isnan addValTop) then
    rbind (append_rows (fst p) (scaled_ones addValTop nPointsZ)) (fun Y' =>
    rbind (getrow (snd p) 0) (fun z0 =>
    rbind (append_rows (snd p) (array_of_row z0)) (fun Z' =>
    inr (Y', Z'))))
  else inr p.

Definition cap_top_arr (nPointsY : nat) (p : arrays) : arrays :=
  if negb (excludeTop =? 0)
  then (rows_upto (fst p) (Z.of_nat nPointsY - excludeTop),
        rows_upto (snd p) (Z.of_nat nPointsY - excludeTop))
  else p.

Definition cap_bot_arr (p : arrays) : arrays :=
  if negb (excludeBot =? 0)
  then (rows_from (fst p) excludeBot, rows_from (snd p) excludeBot)
  else p.

Definition exchange_bot_arr (p : arrays) : result arrays :=
  if negb (F64.isnan exchangeValBot)
  then rbind (setrow_scalar (fst p) 0 exchangeValBot) (fun Y' => inr (Y', snd p))
  else inr p.

Definition exchange_top_arr (p : arrays) : result arrays :=
  if negb (F64.isnan exchangeValTop)
  then rbind (setrow_scalar (fst p) (-1) exchangeValTop) (fun Y' => inr (Y', snd p))
  else inr p.

(** The arrays after padding and capping. *)
Definition padded_arr (p : arrays) : result arrays :=
  rbind (add_bot_arr (ncols (fst p)) p) (fun p1 =>
  add_top_arr (ncols (fst p)) p1).

Definition capped_arr (p : arrays) : result arrays :=
  rbind (padded_arr p) (fun p2 =>
  inr (cap_bot_arr (cap_top_arr (nrows (fst p2)) p2))).

Definition points_arr (p : arrays) : result arrays :=
  rbind (capped_arr p) (fun p4 =>
  rbind (exchange_bot_arr p4) (fun p5 =>
  exchange_top_arr p5)).

End PointsOnArrays.

(** [pointsY] is the dataset of that name or an array in memory, and so is
    [pointsZ]: the two variables never refer to the same dataset. *)
Definition refs_ok (pts : array_ref * array_ref) : Prop :=
  match fst pts with Dataset _ PointsZ => False | _ => True end /\
  match snd pts with Dataset _ PointsY => False | _ => True end.

(** In file system [fs] the two variables show the arrays [p]. *)
Definition views (fs : filesystem) (pts : array_ref * array_ref) (p : arrays)
  : Prop :=
  contents fs (fst pts) = Some (fst p) /\
  contents fs (snd pts) = Some (snd p) /\
  refs_ok pts.

(** A computation of the reader, run in [fs], and its description on
    arrays agree: both raise the same exception, or both return and the
    results are related in the final file system. *)
Definition sim {A B} (R : filesystem -> A -> B -> Prop)
    (m : M A) (r : result B) (fs : filesystem) : Prop :=
  match m fs, r with
  | (inr x, fs'), inr y => R fs' x y
  | (inl e, _), inl e' => e = e'
  | _, _ => False
  end.

(** The rows that an add value contributes: none for [nan]. *)
Definition boundary (v : float) (r : list float) : list (list float) :=
  if F64.isnan v then [] else [r].

Definition pad_count (addValBot addValTop : float) : nat :=
  length (boundary addValBot []) + length (boundary addValTop []).

(** The two variables show arrays of one shape. *)
Definition same_shape (fs : filesystem) (pts : array_ref * array_ref) : Prop :=
  exists p, views fs pts p /\ shape (fst p) = shape (snd p).

(** ** The velocity closure on one component

    The closure treats [uX], [uY] and [uZ] alike; these are its blocks on
    a single array. *)

(** The 2-d array that [dbFile["velocity"][d][timeIndex, :, :]] loads. *)
Definition slab (fs : filesystem) (path : string) (d : velocity_name) (t : Z)
  : option ndarray :=
  slabs ← stored_velocity fs path d;
  j ← py_index (length slabs) t;
  slabs !! j.

Definition add_bot_c (addValBot : float) (nPointsZ : nat) (u : ndarray)
  : result ndarray :=
  if negb (F64.isnan addValBot)
  then append_rows (scaled_ones addValBot nPointsZ) u
  else inr u.

Definition add_top_c (addValTop : float) (nPointsZ : nat) (u : ndarray)
  : result ndarray :=
  if negb (F64.isnan addValTop)
  then append_rows u (scaled_ones addValTop nPointsZ)
  else inr u.

Definition interp_top_c (interpValTop : bool) (excludeTop topmostPoint : Z)
    (u : ndarray) : result ndarray :=
  if interpValTop && negb (excludeTop =? 0)
  then interpolate u (topmostPoint - 1) (topmostPoint - 1) topmostPoint
  else inr u.

Definition interp_bot_c (interpValBot : bool) (excludeBot : Z) (u : ndarray)
  : result ndarray :=
  if interpValBot && negb (excludeBot =? 0)
  then interpolate u excludeBot (excludeBot - 1) excludeBot
  else inr u.

Definition cap_top_c (excludeTop topmostPoint : Z) (u : ndarray) : ndarray :=
  if negb (excludeTop =? 0) then rows_upto u topmostPoint else u.

Definition cap_bot_c (excludeBot : Z) (u : ndarray) : ndarray :=
  if negb (excludeBot =? 0) then rows_from u excludeBot else u.

(** One component after the two padding blocks. *)
Definition padded_c (addValBot addValTop : float) (nPointsZ : nat) (u : ndarray)
  : result ndarray :=
  rbind (add_bot_c addValBot nPointsZ u) (add_top_c addValTop nPointsZ).

(** One padded component through interpolation and capping, where
    [nPointsY] is the row count of the padded [uX]. *)
Definition finished_c (excludeBot excludeTop : Z) (interpValBot interpValTop : bool)
    (nPointsY : nat) (u : ndarray) : result ndarray :=
  let topmostPoint := Z.of_nat nPointsY - excludeTop in
  rbind (interp_top_c interpValTop excludeTop topmostPoint u) (fun u1 =>
  rbind (interp_bot_c interpValBot excludeBot u1) (fun u2 =>
  inr (cap_bot_c excludeBot (cap_top_c excludeTop topmostPoint u2)))).

(** A block applied to the three components in the order x, y, z. *)
Definition on_components (f : ndarray -> result ndarray) (u : velocity)
  : result velocity :=
  let '(uX, uY, uZ) := u in
  rbind (f uX) (fun x => rbind (f uY) (fun y => rbind (f uZ) (fun z =>
  inr (x, y, z)))).

(** Row [top - 1] of the returned component [r] is the mean of rows
    [top - 1] and [top] of [a], and it is the last row of [r]. *)
Definition top_interpolated (a r : ndarray) (top : Z) : Prop :=
  exists r1 r2, getrow a (top - 1) = inr r1 /\ getrow a top = inr r2 /\
                last (rows r) = Some (interp_rows r1 r2).

(** Row 0 of the returned component [r] is the mean of rows
    [excludeBot - 1] and [excludeBot] of [a]. *)
Definition bot_interpolated (a r : ndarray) (excludeBot : Z) : Prop :=
  exists r1 r2, getrow a (excludeBot - 1) = inr r1 /\
                getrow a excludeBot = inr r2 /\
                head (rows r) = Some (interp_rows r1 r2).

(** Row [k] of [a], for [k] in range. *)
Definition row_at (a : ndarray) (k : Z) : list float :=
  default [] (rows a !! Z.to_nat k).

(** ** A concrete store

    A file with a 3 x 2 grid of points and two time steps of a velocity
    field on 5 x 1 points, used to run the readers. *)

Definition fl (p : positive) : float := F64.of_pos p.

Definition ex_pointsY : ndarray :=
  mk_ndarray 2 [[fl 1; fl 1]; [fl 2; fl 2]; [fl 3; fl 3]].

Definition ex_pointsZ : ndarray :=
  mk_ndarray 2 [[fl 10; fl 20]; [fl 11; fl 21]; [fl 12; fl 22]].

Definition ex_u (k : positive) : list ndarray :=
  [ mk_ndarray 1 [[fl k]; [fl (2 * k)]; [fl (4 * k)]; [fl (8 * k)]; [fl (16 * k)]];
    mk_ndarray 1 [[fl 1]; [fl 1]; [fl 1]; [fl 1]; [fl 1]] ].

Definition ex_file : h5file :=
  mk_h5file (Some (mk_points_group (Some ex_pointsY) (Some ex_pointsZ)))
            (Some (mk_velocity_group (Some (ex_u 1)) (Some (ex_u 3))
                                     (Some (ex_u 5)))).

Definition ex_fs : filesystem := {[ "db.hdf5"%string := ex_file ]}.

(** A file whose datasets have no rows. *)
Definition ex_empty_file : h5file :=
  mk_h5file (Some (mk_points_group (Some (mk_ndarray 2 [])) (Some (mk_ndarray 2 []))))
            None.

Definition ex_empty_fs : filesystem := {[ "db.hdf5"%string := ex_empty_file ]}.

(** ** Notions for the further properties of the readers *)

(** Both variables are arrays in memory. *)
Definition in_memory (pts : array_ref * array_ref) : Prop :=
  exists a b, pts = (Ndarray a, Ndarray b).

(** The file system after [pointsY] of the file at [p] is replaced. *)
Definition with_pointsY (fs : filesystem) (p : string) (a : ndarray)
  : filesystem :=
  match fs !! p with
  | Some f =>
      match f_points f with
      | Some g =>
          <[p := mk_h5file (Some (mk_points_group (Some a) (g_pointsZ g)))
                           (f_velocity f)]> fs
      | None => fs
      end
  | None => fs
  end.

(** The rows of [pointsY] after the two exchange blocks. *)
Definition exchange_rows (xB xT : float) (a : ndarray) : list (list float) :=
  let rows1 := if F64.isnan xB then rows a
               else <[0%nat := replicate (ncols a) xB]> (rows a) in
  if F64.isnan xT then rows1
  else <[(nrows a - 1)%nat := replicate (ncols a) xT]> rows1.

(** The rows [l] between the boundary rows of the add values that are
    set. *)
Definition padded_rows (vB vT : float) (rB rT : list float)
    (l : list (list float)) : list (list float) :=
  boundary vB rB ++ l ++ boundary vT rT.

(** A store whose [uY] has two columns where [uX] and [uZ] have one. *)
Definition ex_mismatch_fs : filesystem :=
  {[ "db.hdf5"%string :=
       mk_h5file None
         (Some (mk_velocity_group
                  (Some [mk_ndarray 1 [[fl 1]; [fl 2]]])
                  (Some [mk_ndarray 2 [[fl 1; fl 1]; [fl 2; fl 2]]])
                  (Some [mk_ndarray 1 [[fl 1]; [fl 2]]]))) ]}.

(** The rows [r] are the rows of [a] from row [excludeBot] on, except
    possibly row 0 of [r] (when [first_new]) and its last row (when
    [last_new]). *)
Definition kept_rows (first_new last_new : bool) (excludeBot : Z)
    (a r : list (list float)) : Prop :=
  forall i : nat,
    (i < length r)%nat ->
    (i = 0%nat -> first_new = false) ->
    (i = (length r - 1)%nat -> last_new = false) ->
    r !! i = a !! (Z.to_nat excludeBot + i)%nat.

(** A returned component [r] against the stored slab [u]. *)
Definition component_kept (addValBot addValTop : float) (excludeBot excludeTop : Z)
    (interpValBot interpValTop : bool) (u r : ndarray) : Prop :=
  ncols r = ncols u /\
  Z.of_nat (nrows r)
  = Z.of_nat (nrows u + pad_count addValBot addValTop) - excludeTop - excludeBot /\
  kept_rows (interpValBot && negb (excludeBot =? 0))
    (interpValTop && negb (excludeTop =? 0)) excludeBot
    (padded_rows addValBot addValTop (replicate (ncols u) addValBot)
       (replicate (ncols u) addValTop) (rows u))
    (rows r).

(** * Properties *)

(** ** Floats: multiplying by [1.0] *)

Lemma mul_one_finite (s : bool) (m : positive) (e : Z) :
  bounded F64.prec F64.emax m e = true ->
  F64.mul (S754_finite s m e) F64.one = S754_finite s m e.
Proof.
  intros Hb. unfold bounded, canonical_mantissa in Hb.
  apply andb_prop in Hb as [Hc He]. apply Z.eqb_eq in Hc.
  unfold F64.mul, F64.one, SFmul.
  rewrite xorb_false_r, Pos.mul_comm.
  set (m' := (4503599627370496 * m)%positive).
  assert (Hm : m' = Pos.iter xO m 52) by reflexivity.
  assert (Hd : Zdigits2 (Zpos m') = Zpos (digits2_pos m) + 52).
  { rewrite Hm. cbn [Zdigits2 digits2_pos Pos.iter]. lia. }
  unfold binary_round_aux, shr_fexp. rewrite Hd.
  replace (Z.pos (digits2_pos m) + 52 + (e + -52))
    with (Z.pos (digits2_pos m) + e) by lia.
  rewrite Hc.
  replace (e - (e + -52)) with 52 by lia.
  unfold shr_record_of_loc, shr. rewrite Hm.
  cbn [SpecFloat.iter_pos shr_1 orb Pos.iter].
  cbn [shr_m loc_of_shr_record round_nearest_even Zdigits2].
  replace (e + -52 + 52) with e by lia.
  rewrite Hc, Z.sub_diag. cbn [shr_m].
  rewrite He. reflexivity.
Qed.

(** [v * 1.0] is [v] for every binary64 value [v]. *)
Lemma mul_one (v : float) :
  F64.is_binary64 v = true -> F64.mul v F64.one = v.
Proof.
  destruct v as [s | s | | s m e]; intros Hv.
  - cbn. now rewrite xorb_false_r.
  - cbn. now rewrite xorb_false_r.
  - reflexivity.
  - now apply mul_one_finite.
Qed.

(** [v * np.ones((1, n))] is one row of [n] copies of [v]. *)
Lemma scaled_ones_rows (v : float) (n : nat) :
  F64.is_binary64 v = true ->
  rows (scaled_ones v n) = [replicate n v].
Proof.
  intros Hv. unfold scaled_ones. cbn [rows]. f_equal.
  rewrite fmap_replicate. now rewrite mul_one.
Qed.

(** ** Python indexing *)

Lemma py_index_nonneg (n : nat) (i : Z) :
  0 <= i < Z.of_nat n -> py_index n i = Some (Z.to_nat i).
Proof.
  intros H. unfold py_index.
  destruct (Z.ltb_spec i 0); [lia |].
  destruct (Z.leb_spec 0 i); [| lia].
  destruct (Z.ltb_spec i (Z.of_nat n)); [reflexivity | lia].
Qed.

Lemma py_index_minus_one (n : nat) :
  (0 < n)%nat -> py_index n (-1) = Some (n - 1)%nat.
Proof.
  intros H. unfold py_index. cbn [Z.ltb Z.compare].
  destruct (Z.leb_spec 0 (-1 + Z.of_nat n)); [| lia].
  destruct (Z.ltb_spec (-1 + Z.of_nat n) (Z.of_nat n)); [| lia].
  cbn [andb]. f_equal. lia.
Qed.

Lemma py_index_zero (n j : nat) : py_index n 0 = Some j -> j = 0%nat.
Proof.
  unfold py_index. destruct (Z.ltb_spec 0 0); [lia |].
  destruct ((0 <=? 0) && (0 <? Z.of_nat n)); [| discriminate].
  now intros [= <-].
Qed.

Lemma py_index_lt (n : nat) (i : Z) (j : nat) :
  py_index n i = Some j -> (j < n)%nat.
Proof.
  unfold py_index.
  destruct (_ && _) eqn:E; [| discriminate].
  intros [= <-]. apply andb_prop in E as [E1 E2].
  apply Z.leb_le in E1. apply Z.ltb_lt in E2. lia.
Qed.

Lemma py_index_empty (i : Z) : py_index 0 i = None.
Proof.
  destruct (py_index 0 i) as [j |] eqn:E; [| reflexivity].
  apply py_index_lt in E. lia.
Qed.

Lemma py_slice_bound_nonneg (n : nat) (k : Z) :
  0 <= k <= Z.of_nat n -> py_slice_bound n k = Z.to_nat k.
Proof.
  intros H. unfold py_slice_bound.
  destruct (Z.ltb_spec k 0); [lia |]. f_equal. lia.
Qed.

Lemma py_slice_bound_le (n : nat) (k : Z) : (py_slice_bound n k <= n)%nat.
Proof. unfold py_slice_bound. destruct (Z.ltb_spec k 0); lia. Qed.

(** ** Arrays: shapes under the array operations *)

Lemma nrows_rows_upto (a : ndarray) (k : Z) :
  nrows (rows_upto a k) = py_slice_bound (nrows a) k.
Proof.
  unfold rows_upto, nrows. cbn [rows]. rewrite length_take.
  pose proof (py_slice_bound_le (length (rows a)) k). lia.
Qed.

Lemma nrows_rows_from (a : ndarray) (k : Z) :
  nrows (rows_from a k) = (nrows a - py_slice_bound (nrows a) k)%nat.
Proof. unfold rows_from, nrows. cbn [rows]. now rewrite length_drop. Qed.

Lemma setrow_inv (a a' : ndarray) (i : Z) (r : list float) :
  setrow a i r = inr a' ->
  exists j, py_index (nrows a) i = Some j /\ (j < nrows a)%nat /\
            ncols a' = ncols a /\ rows a' = <[j := r]> (rows a).
Proof.
  unfold setrow. destruct (py_index (nrows a) i) as [j |] eqn:E; [| discriminate].
  intros [= <-]. exists j. split; [reflexivity |].
  split; [now apply py_index_lt in E | split; reflexivity].
Qed.

Lemma setrow_shape (a a' : ndarray) (i : Z) (r : list float) :
  setrow a i r = inr a' -> shape a' = shape a.
Proof.
  intros H. apply setrow_inv in H as (j & _ & _ & Hc & Hr).
  unfold shape, nrows. now rewrite Hc, Hr, length_insert.
Qed.

Lemma append_rows_inv (a b c : ndarray) :
  append_rows a b = inr c ->
  ncols a = ncols b /\ ncols c = ncols a /\ rows c = rows a ++ rows b.
Proof.
  unfold append_rows. destruct (decide (ncols a = ncols b)); [| discriminate].
  intros [= <-]. auto.
Qed.

Lemma getrow_inv (a : ndarray) (i : Z) (r : list float) :
  getrow a i = inr r ->
  exists j, py_index (nrows a) i = Some j /\ rows a !! j = Some r.
Proof.
  unfold getrow. destruct (py_index (nrows a) i) as [j |]; [| discriminate].
  destruct (rows a !! j) as [r' |] eqn:E; [| discriminate].
  intros [= <-]. eauto.
Qed.

Lemma getrow_nonneg (a : ndarray) (i : Z) (r : list float) :
  0 <= i -> rows a !! Z.to_nat i = Some r -> getrow a i = inr r.
Proof.
  intros Hi Hr. unfold getrow.
  rewrite py_index_nonneg, Hr; [reflexivity |].
  apply lookup_lt_Some in Hr. unfold nrows. lia.
Qed.

(** ** Computations that leave the file system alone *)

Lemma readonly_ret {A} (x : A) : readonly (ret x).
Proof. intros fs. reflexivity. Qed.

Lemma readonly_raise {A} (e : exn) : readonly (@raise A e).
Proof. intros fs. reflexivity. Qed.

Lemma readonly_lift {A} (r : result A) : readonly (lift r).
Proof. destruct r; [apply readonly_raise | apply readonly_ret]. Qed.

Lemma readonly_bind {A B} (m : M A) (k : A -> M B) :
  readonly m -> (forall x, readonly (k x)) -> readonly (bind m k).
Proof.
  intros Hm Hk fs. unfold bind. specialize (Hm fs).
  destruct (m fs) as [[e | x] fs1]; cbn in Hm; subst fs1; [reflexivity |].
  apply Hk.
Qed.

Lemma readonly_open_r (path : string) : readonly (h5py_File path mode_r).
Proof. intros fs. unfold h5py_File. now destruct (fs !! path). Qed.

Lemma readonly_velocity_getitem (f : string) (d : velocity_name) (t : Z) :
  readonly (velocity_getitem f d t).
Proof.
  intros fs. unfold velocity_getitem.
  destruct (stored_velocity fs f d) as [slabs |]; [| reflexivity].
  destruct (py_index (length slabs) t) as [j |]; [| reflexivity].
  now destruct (slabs !! j).
Qed.

Lemma readonly_points_getitem (f : string) (d : points_name) :
  readonly (points_getitem f d).
Proof. intros fs. unfold points_getitem. now destruct (stored_points fs f d). Qed.

Lemma readonly_as_array (r : array_ref) : readonly (as_array r).
Proof.
  destruct r as [path d | a]; [| apply readonly_ret].
  intros fs. cbn. now destruct (stored_points fs path d).
Qed.

Create HintDb readonly.
#[local] Hint Resolve readonly_ret readonly_raise readonly_lift
  readonly_open_r readonly_velocity_getitem readonly_points_getitem
  readonly_as_array : readonly.

Ltac readonly_steps :=
  repeat first
    [ progress auto with readonly
    | apply readonly_bind; [| intros ?]
    | match goal with
      | |- readonly (if ?b then _ else _) => destruct b
      | |- readonly (match ?x with (_, _) => _ end) => destruct x
      end ].

Lemma readonly_ref_shape (r : array_ref) : readonly (ref_shape r).
Proof. unfold ref_shape. readonly_steps. Qed.

Lemma readonly_np_append (r1 r2 : array_ref) : readonly (np_append r1 r2).
Proof. unfold np_append. readonly_steps. Qed.

Lemma readonly_ref_getrow (r : array_ref) (i : Z) : readonly (ref_getrow r i).
Proof. unfold ref_getrow. readonly_steps. Qed.

Lemma readonly_ref_rows_upto (r : array_ref) (k : Z) : readonly (ref_rows_upto r k).
Proof. unfold ref_rows_upto. readonly_steps. Qed.

Lemma readonly_ref_rows_from (r : array_ref) (k : Z) : readonly (ref_rows_from r k).
Proof. unfold ref_rows_from. readonly_steps. Qed.

#[local] Hint Resolve readonly_ref_shape readonly_np_append readonly_ref_getrow
  readonly_ref_rows_upto readonly_ref_rows_from : readonly.

Lemma readonly_add_bot v n pts : readonly (add_bot v n pts).
Proof. unfold add_bot. readonly_steps. Qed.

Lemma readonly_add_top v n pts : readonly (add_top v n pts).
Proof. unfold add_top. readonly_steps. Qed.

Lemma readonly_cap_top e n pts : readonly (cap_top e n pts).
Proof. unfold cap_top. readonly_steps. Qed.

Lemma readonly_cap_bot e pts : readonly (cap_bot e pts).
Proof. unfold cap_bot. readonly_steps. Qed.

Lemma readonly_exchange_bot_nan pts : readonly (exchange_bot F64.nan pts).
Proof. destruct pts. apply readonly_ret. Qed.

Lemma readonly_exchange_top_nan pts : readonly (exchange_top F64.nan pts).
Proof. destruct pts. apply readonly_ret. Qed.

#[local] Hint Resolve readonly_add_bot readonly_add_top readonly_cap_top
  readonly_cap_bot readonly_exchange_bot_nan readonly_exchange_top_nan : readonly.

(** Every call of the velocity closure leaves the file system as it
    found it, whatever the configuration and whether or not it raises. *)
Lemma readonly_read p aB aT eB eT iB iT t :
  readonly (read p aB aT eB eT iB iT t).
Proof.
  unfold read, add_bot_u, add_top_u, interp_top, interp_bot.
  readonly_steps.
Qed.

Lemma isnan_eq (v : float) : F64.isnan v = true -> v = F64.nan.
Proof. destruct v; try discriminate. reflexivity. Qed.

(** With no exchange value the points reader only reads, once the file
    exists. *)
Lemma read_points_readonly fs p f aB aT eB eT :
  fs !! p = Some f ->
  snd (read_points_from_hdf5 p aB aT eB eT F64.nan F64.nan fs) = fs.
Proof.
  intros Hf. unfold read_points_from_hdf5.
  unfold bind at 1. unfold h5py_File. rewrite Hf.
  match goal with |- snd (?m fs) = fs => assert (H : readonly m) end;
    [| apply H].
  readonly_steps.
Qed.

(** ** The blocks of the points reader and their effect on arrays *)

Lemma sim_bind {A B A' B'} (R : filesystem -> A -> B -> Prop)
    (R' : filesystem -> A' -> B' -> Prop)
    (m : M A) (r : result B) (k : A -> M A') (k' : B -> result B') fs :
  sim R m r fs ->
  (forall fs1 x y, R fs1 x y -> sim R' (k x) (k' y) fs1) ->
  sim R' (bind m k) (rbind r k') fs.
Proof.
  unfold sim at 1. intros Hm Hk. unfold sim at 1. unfold bind, rbind.
  destruct (m fs) as [[e | x] fs1], r as [e' | y]; try contradiction.
  - exact Hm.
  - now apply Hk.
Qed.

Lemma sim_ret {A B} (R : filesystem -> A -> B -> Prop) x y fs :
  R fs x y -> sim R (ret x) (inr y) fs.
Proof. intros H. exact H. Qed.

(** Reading through a variable yields what it shows. *)
Lemma sim_as_array fs r a :
  contents fs r = Some a -> as_array r fs = (inr a, fs).
Proof.
  destruct r as [path d | b]; cbn; [| now intros [= ->]].
  now intros ->.
Qed.

Lemma sim_lift_read {A B} (R : filesystem -> A -> B -> Prop)
    fs (r : array_ref) (a : ndarray) (k : ndarray -> M A) (x : result B) :
  contents fs r = Some a ->
  sim R (k a) x fs ->
  sim R (bind (as_array r) k) x fs.
Proof.
  intros Hr Hk. unfold sim, bind. now rewrite (sim_as_array _ _ _ Hr).
Qed.

Lemma sim_lift {A B C} (R : filesystem -> A -> B -> Prop)
    fs (r : result C) (k : C -> M A) (k' : C -> result B) :
  (forall c, r = inr c -> sim R (k c) (k' c) fs) ->
  sim R (bind (lift r) k) (rbind r k') fs.
Proof.
  intros Hk. destruct r as [e | c]; [reflexivity |]. now apply Hk.
Qed.

Lemma views_ndarray fs aY aZ : views fs (Ndarray aY, Ndarray aZ) (aY, aZ).
Proof. repeat split. Qed.

Lemma np_append_run fs r1 r2 a b :
  contents fs r1 = Some a -> contents fs r2 = Some b ->
  np_append r1 r2 fs =
  (match append_rows a b with inr c => inr (Ndarray c) | inl e => inl e end, fs).
Proof.
  intros H1 H2. unfold np_append, bind.
  rewrite (sim_as_array _ _ _ H1), (sim_as_array _ _ _ H2).
  now destruct (append_rows a b).
Qed.

Lemma ref_getrow_run fs r a i :
  contents fs r = Some a -> ref_getrow r i fs = (getrow a i, fs).
Proof.
  intros H. unfold ref_getrow, bind. rewrite (sim_as_array _ _ _ H).
  now destruct (getrow a i).
Qed.

Lemma ref_rows_upto_run fs r a k :
  contents fs r = Some a ->
  ref_rows_upto r k fs = (inr (Ndarray (rows_upto a k)), fs).
Proof.
  intros H. unfold ref_rows_upto, bind. now rewrite (sim_as_array _ _ _ H).
Qed.

Lemma ref_rows_from_run fs r a k :
  contents fs r = Some a ->
  ref_rows_from r k fs = (inr (Ndarray (rows_from a k)), fs).
Proof.
  intros H. unfold ref_rows_from, bind. now rewrite (sim_as_array _ _ _ H).
Qed.

Lemma ref_shape_run fs r a :
  contents fs r = Some a -> ref_shape r fs = (inr (shape a), fs).
Proof.
  intros H. unfold ref_shape, bind. now rewrite (sim_as_array _ _ _ H).
Qed.

Section PointsSim.

Variables addValBot addValTop : float.
Variables excludeBot excludeTop : Z.
Variables exchangeValBot exchangeValTop : float.

Lemma add_bot_sim fs n pts p :
  views fs pts p ->
  sim views (add_bot addValBot n pts) (add_bot_arr addValBot n p) fs.
Proof.
  destruct pts as [rY rZ], p as [aY aZ]. intros (HY & HZ & Hok).
  cbn [fst snd] in HY, HZ. unfold add_bot, add_bot_arr.
  destruct (negb (F64.isnan addValBot)); [| now apply sim_ret].
  cbn [fst snd]. unfold sim, bind.
  rewrite (np_append_run fs (Ndarray (scaled_ones addValBot n)) rY _ aY eq_refl HY).
  destruct (append_rows (scaled_ones addValBot n) aY) as [e | Y'];
    [reflexivity |].
  rewrite (ref_getrow_run fs _ aZ 0 HZ).
  destruct (getrow aZ 0) as [e | z0]; [reflexivity |].
  rewrite (np_append_run fs (Ndarray (array_of_row z0)) rZ _ aZ eq_refl HZ).
  cbn [rbind].
  destruct (append_rows (array_of_row z0) aZ) as [e | Z']; [reflexivity |].
  apply views_ndarray.
Qed.

Lemma add_top_sim fs n pts p :
  views fs pts p ->
  sim views (add_top addValTop n pts) (add_top_arr addValTop n p) fs.
Proof.
  destruct pts as [rY rZ], p as [aY aZ]. intros (HY & HZ & Hok).
  cbn [fst snd] in HY, HZ. unfold add_top, add_top_arr.
  destruct (negb (F64.isnan addValTop)); [| now apply sim_ret].
  cbn [fst snd]. unfold sim, bind.
  rewrite (np_append_run fs rY (Ndarray (scaled_ones addValTop n)) aY _ HY eq_refl).
  destruct (append_rows aY (scaled_ones addValTop n)) as [e | Y'];
    [reflexivity |].
  rewrite (ref_getrow_run fs _ aZ 0 HZ).
  destruct (getrow aZ 0) as [e | z0]; [reflexivity |].
  rewrite (np_append_run fs rZ (Ndarray (array_of_row z0)) aZ _ HZ eq_refl).
  cbn [rbind].
  destruct (append_rows aZ (array_of_row z0)) as [e | Z']; [reflexivity |].
  apply views_ndarray.
Qed.

Lemma cap_top_sim fs n pts p :
  views fs pts p ->
  sim views (cap_top excludeTop n pts) (inr (cap_top_arr excludeTop n p)) fs.
Proof.
  destruct pts as [rY rZ], p as [aY aZ]. intros (HY & HZ & Hok).
  cbn [fst snd] in HY, HZ. unfold cap_top, cap_top_arr.
  destruct (negb (excludeTop =? 0)); [| now apply sim_ret].
  cbn [fst snd]. unfold sim, bind.
  rewrite (ref_rows_upto_run fs _ aY _ HY), (ref_rows_upto_run fs _ aZ _ HZ).
  apply views_ndarray.
Qed.

Lemma cap_bot_sim fs pts p :
  views fs pts p ->
  sim views (cap_bot excludeBot pts) (inr (cap_bot_arr excludeBot p)) fs.
Proof.
  destruct pts as [rY rZ], p as [aY aZ]. intros (HY & HZ & Hok).
  cbn [fst snd] in HY, HZ. unfold cap_bot, cap_bot_arr.
  destruct (negb (excludeBot =? 0)); [| now apply sim_ret].
  cbn [fst snd]. unfold sim, bind.
  rewrite (ref_rows_from_run fs _ aY _ HY), (ref_rows_from_run fs _ aZ _ HZ).
  apply views_ndarray.
Qed.

Lemma stored_points_inv fs p d a :
  stored_points fs p d = Some a ->
  exists f g, fs !! p = Some f /\ f_points f = Some g /\
              points_field d g = Some a.
Proof.
  unfold stored_points.
  destruct (fs !! p) as [f |]; simpl; [| discriminate].
  destruct (f_points f) as [g |] eqn:Eg; simpl; [| discriminate].
  intros H. exists f, g. auto.
Qed.

(** Writing [pointsY] of the file at [p] replaces that dataset and
    no [pointsZ] dataset. *)
Lemma write_pointsY_run fs p a a' :
  stored_points fs p PointsY = Some a ->
  exists fs', write_points p PointsY a' fs = (inr tt, fs') /\
              stored_points fs' p PointsY = Some a' /\
              forall q, stored_points fs' q PointsZ = stored_points fs q PointsZ.
Proof.
  intros H. apply stored_points_inv in H as (f & g & Hf & Hg & _).
  unfold write_points. rewrite Hf, Hg. eexists. split; [reflexivity |].
  split.
  - unfold stored_points. now rewrite lookup_insert_eq.
  - intros q. unfold stored_points. destruct (decide (p = q)) as [<- |].
    + rewrite lookup_insert_eq, Hf. cbn. now rewrite Hg.
    + now rewrite lookup_insert_ne.
Qed.

Lemma ref_setrow_scalar_sim fs rY rZ aY aZ i v :
  views fs (rY, rZ) (aY, aZ) ->
  sim views (let* pointsY := ref_setrow_scalar rY i v in ret (pointsY, rZ))
    (rbind (setrow_scalar aY i v) (fun Y' => inr (Y', aZ))) fs.
Proof.
  intros (HY & HZ & Hok1 & Hok2). cbn [fst snd] in *.
  destruct rY as [p [] | a]; try contradiction.
  - unfold sim, bind, ref_setrow_scalar, bind.
    rewrite (sim_as_array _ _ _ HY).
    destruct (setrow_scalar aY i v) as [e | a']; [reflexivity |].
    cbn [lift ret rbind].
    destruct (write_pointsY_run fs p aY a' HY) as (fs' & -> & HY' & HZ').
    cbn [ret]. repeat split; cbn [fst snd]; [exact HY' | | exact Hok2].
    destruct rZ as [q [] | b]; try contradiction; cbn in *; [| exact HZ].
    now rewrite HZ'.
  - cbn in HY. injection HY as ->.
    unfold sim, bind, ref_setrow_scalar, bind.
    destruct (setrow_scalar aY i v) as [e | a']; [reflexivity |].
    cbn [lift ret rbind]. repeat split; cbn [fst snd]; [exact HZ | exact Hok2].
Qed.

Lemma exchange_bot_sim fs pts p :
  views fs pts p ->
  sim views (exchange_bot exchangeValBot pts)
    (exchange_bot_arr exchangeValBot p) fs.
Proof.
  destruct pts as [rY rZ], p as [aY aZ]. intros Hv.
  unfold exchange_bot, exchange_bot_arr.
  destruct (negb (F64.isnan exchangeValBot)); [| now apply sim_ret].
  now apply ref_setrow_scalar_sim.
Qed.

Lemma exchange_top_sim fs pts p :
  views fs pts p ->
  sim views (exchange_top exchangeValTop pts)
    (exchange_top_arr exchangeValTop p) fs.
Proof.
  destruct pts as [rY rZ], p as [aY aZ]. intros Hv.
  unfold exchange_top, exchange_top_arr.
  destruct (negb (F64.isnan exchangeValTop)); [| now apply sim_ret].
  now apply ref_setrow_scalar_sim.
Qed.

Lemma sim_ref_shape {A B} (R : filesystem -> A -> B -> Prop)
    fs r a (k : nat * nat -> M A) (x : result B) :
  contents fs r = Some a ->
  sim R (k (shape a)) x fs ->
  sim R (let* shp := ref_shape r in k shp) x fs.
Proof.
  intros Hr Hk. unfold sim, bind. now rewrite (ref_shape_run _ _ _ Hr).
Qed.

Lemma sim_run {A B C} (R : filesystem -> A -> B -> Prop)
    fs (m : M C) (c : C) (k : C -> M A) (x : result B) :
  m fs = (inr c, fs) ->
  sim R (k c) x fs ->
  sim R (let* y := m in k y) x fs.
Proof. intros Hm Hk. unfold sim, bind. now rewrite Hm. Qed.

(** The whole reader, on a file that has both datasets, does to their
    contents what [points_arr] says. *)
Lemma read_points_sim fs readPath aY aZ :
  stored_points fs readPath PointsY = Some aY ->
  stored_points fs readPath PointsZ = Some aZ ->
  sim views
    (read_points_from_hdf5 readPath addValBot addValTop excludeBot
       excludeTop exchangeValBot exchangeValTop)
    (points_arr addValBot addValTop excludeBot excludeTop
       exchangeValBot exchangeValTop (aY, aZ)) fs.
Proof.
  intros HY HZ.
  destruct (stored_points_inv _ _ _ _ HY) as (f & g & Hf & _).
  unfold read_points_from_hdf5.
  apply (sim_run _ fs _ readPath); [unfold h5py_File; now rewrite Hf |].
  apply (sim_run _ fs _ (Dataset readPath PointsY));
    [unfold points_getitem; now rewrite HY |].
  apply (sim_run _ fs _ (Dataset readPath PointsZ));
    [unfold points_getitem; now rewrite HZ |].
  apply (sim_ref_shape _ _ _ aY); [exact HY |].
  unfold points_arr, capped_arr, padded_arr. cbn [fst snd shape].
  set (n := ncols aY).
  assert (H0 : views fs (Dataset readPath PointsY, Dataset readPath PointsZ)
                 (aY, aZ)) by (repeat split; assumption).
  pose proof (add_bot_sim fs n _ _ H0) as H1.
  destruct (add_bot_arr addValBot n (aY, aZ)) as [e | p1] eqn:E1.
  { unfold sim in *. unfold bind at 1.
    destruct (add_bot addValBot n _ fs) as [[e' | x] fs1]; [exact H1 | contradiction]. }
  unfold sim in H1 |- *. unfold bind at 1.
  destruct (add_bot addValBot n _ fs) as [[e' | pts1] fs1]; [contradiction |].
  cbn [rbind].
  pose proof (add_top_sim fs1 n _ _ H1) as H2.
  destruct (add_top_arr addValTop n p1) as [e | p2] eqn:E2.
  { unfold sim in *. unfold bind at 1.
    destruct (add_top addValTop n _ fs1) as [[e' | x] fs2]; [exact H2 | contradiction]. }
  unfold sim in H2. unfold bind at 1.
  destruct (add_top addValTop n _ fs1) as [[e' | pts2] fs2]; [contradiction |].
  cbn [rbind].
  unfold bind at 1. rewrite (ref_shape_run fs2 _ (fst p2) (proj1 H2)).
  cbn [fst snd shape].
  pose proof (cap_top_sim fs2 (nrows (fst p2)) _ _ H2) as H3.
  unfold sim in H3. unfold bind at 1.
  destruct (cap_top excludeTop _ _ fs2) as [[e' | pts3] fs3]; [contradiction |].
  pose proof (cap_bot_sim fs3 _ _ H3) as H4.
  unfold sim in H4. unfold bind at 1.
  destruct (cap_bot excludeBot _ fs3) as [[e' | pts4] fs4]; [contradiction |].
  set (p4 := cap_bot_arr excludeBot _) in *.
  pose proof (exchange_bot_sim fs4 _ _ H4) as H5.
  unfold sim in H5. unfold bind at 1.
  destruct (exchange_bot exchangeValBot pts4 fs4) as [[e' | pts5] fs5],
    (exchange_bot_arr exchangeValBot p4) as [e | p5]; try contradiction;
    [exact H5 |].
  cbn [rbind].
  pose proof (exchange_top_sim fs5 _ _ H5) as H6.
  unfold sim in H6. unfold bind at 1.
  destruct (exchange_top exchangeValTop pts5 fs5) as [[e' | pts6] fs6],
    (exchange_top_arr exchangeValTop p5) as [e | p6]; try contradiction;
    [exact H6 |].
  exact H6.
Qed.

End PointsSim.

(** The reader returns exactly when its description on arrays does, and
    the returned variables then show the described arrays. *)
Lemma read_points_inr fs p aY aZ aB aT eB eT xB xT pts fs' :
  stored_points fs p PointsY = Some aY ->
  stored_points fs p PointsZ = Some aZ ->
  read_points_from_hdf5 p aB aT eB eT xB xT fs = (inr pts, fs') ->
  exists q, points_arr aB aT eB eT xB xT (aY, aZ) = inr q /\ views fs' pts q.
Proof.
  intros HY HZ Hrun.
  pose proof (read_points_sim aB aT eB eT xB xT fs p aY aZ HY HZ) as H.
  unfold sim in H. rewrite Hrun in H.
  destruct (points_arr aB aT eB eT xB xT (aY, aZ)) as [e | q]; [contradiction |].
  eauto.
Qed.

Lemma read_points_of_arr fs p aY aZ aB aT eB eT xB xT q :
  stored_points fs p PointsY = Some aY ->
  stored_points fs p PointsZ = Some aZ ->
  points_arr aB aT eB eT xB xT (aY, aZ) = inr q ->
  exists pts fs',
    read_points_from_hdf5 p aB aT eB eT xB xT fs = (inr pts, fs') /\
    views fs' pts q.
Proof.
  intros HY HZ Hq.
  pose proof (read_points_sim aB aT eB eT xB xT fs p aY aZ HY HZ) as H.
  unfold sim in H. rewrite Hq in H.
  destruct (read_points_from_hdf5 p aB aT eB eT xB xT fs) as [[e | pts] fs'];
    [contradiction | eauto].
Qed.

(** ** Padding on arrays *)

Lemma length_boundary v r r' : length (boundary v r) = length (boundary v r').
Proof. unfold boundary. now destruct (F64.isnan v). Qed.

Lemma add_bot_arr_inv aB n aY aZ Y1 Z1 :
  add_bot_arr aB n (aY, aZ) = inr (Y1, Z1) ->
  ncols Y1 = ncols aY /\ ncols Z1 = ncols aZ /\
  rows Y1 = boundary aB (F64.mul aB <$> replicate n F64.one) ++ rows aY /\
  rows Z1 = boundary aB (default [] (head (rows aZ))) ++ rows aZ /\
  (F64.isnan aB = false ->
   n = ncols aY /\ exists z0, head (rows aZ) = Some z0 /\ length z0 = ncols aZ).
Proof.
  unfold add_bot_arr, boundary. cbn [fst snd].
  destruct (F64.isnan aB); cbn [negb].
  { intros [= <- <-]. repeat split; try reflexivity; intros; discriminate. }
  destruct (append_rows (scaled_ones aB n) aY) as [e | Y'] eqn:EY;
    [discriminate |]. cbn [rbind].
  destruct (getrow aZ 0) as [e | z0] eqn:Ez; [discriminate |]. cbn [rbind].
  destruct (append_rows (array_of_row z0) aZ) as [e | Z'] eqn:EZ;
    [discriminate |]. cbn [rbind].
  intros [= <- <-].
  apply append_rows_inv in EY as (Hc1 & Hc2 & Hr).
  apply append_rows_inv in EZ as (Hd1 & Hd2 & Hs).
  apply getrow_inv in Ez as (j & Hj & Hz).
  apply py_index_zero in Hj as ->.
  assert (Hh : head (rows aZ) = Some z0) by (now rewrite head_lookup).
  cbn in Hc1, Hc2, Hd1, Hd2, Hr, Hs. rewrite Hh. simpl.
  repeat split; try congruence. eauto.
Qed.

Lemma add_top_arr_inv aT n aY aZ Y1 Z1 :
  add_top_arr aT n (aY, aZ) = inr (Y1, Z1) ->
  ncols Y1 = ncols aY /\ ncols Z1 = ncols aZ /\
  rows Y1 = rows aY ++ boundary aT (F64.mul aT <$> replicate n F64.one) /\
  rows Z1 = rows aZ ++ boundary aT (default [] (head (rows aZ))) /\
  (F64.isnan aT = false ->
   n = ncols aY /\ exists z0, head (rows aZ) = Some z0 /\ length z0 = ncols aZ).
Proof.
  unfold add_top_arr, boundary. cbn [fst snd].
  destruct (F64.isnan aT); cbn [negb].
  { intros [= <- <-]. rewrite !app_nil_r.
    repeat split; try reflexivity; intros; discriminate. }
  destruct (append_rows aY (scaled_ones aT n)) as [e | Y'] eqn:EY;
    [discriminate |]. cbn [rbind].
  destruct (getrow aZ 0) as [e | z0] eqn:Ez; [discriminate |]. cbn [rbind].
  destruct (append_rows aZ (array_of_row z0)) as [e | Z'] eqn:EZ;
    [discriminate |]. cbn [rbind].
  intros [= <- <-].
  apply append_rows_inv in EY as (Hc1 & Hc2 & Hr).
  apply append_rows_inv in EZ as (Hd1 & Hd2 & Hs).
  apply getrow_inv in Ez as (j & Hj & Hz).
  apply py_index_zero in Hj as ->.
  assert (Hh : head (rows aZ) = Some z0) by (now rewrite head_lookup).
  cbn in Hc1, Hc2, Hd1, Hd2, Hr, Hs. rewrite Hh. simpl.
  repeat split; try congruence. eauto.
Qed.

(** Padding keeps the column counts and adds [pad_count] rows to each
    array. *)
Lemma padded_arr_shape aB aT aY aZ Y2 Z2 :
  padded_arr aB aT (aY, aZ) = inr (Y2, Z2) ->
  ncols Y2 = ncols aY /\ ncols Z2 = ncols aZ /\
  nrows Y2 = (nrows aY + pad_count aB aT)%nat /\
  nrows Z2 = (nrows aZ + pad_count aB aT)%nat.
Proof.
  unfold padded_arr. cbn [fst].
  destruct (add_bot_arr aB (ncols aY) (aY, aZ)) as [e | [Y1 Z1]] eqn:E1;
    [discriminate |]. cbn [rbind]. intros E2.
  apply add_bot_arr_inv in E1 as (Hc1 & Hd1 & Hr1 & Hs1 & _).
  apply add_top_arr_inv in E2 as (Hc2 & Hd2 & Hr2 & Hs2 & _).
  apply (f_equal length) in Hr1, Hs1, Hr2, Hs2.
  rewrite !length_app in *.
  unfold nrows, pad_count, boundary in *.
  destruct (F64.isnan aB), (F64.isnan aT); cbn [length] in *;
    repeat split; try congruence; lia.
Qed.

(** ** Capping on arrays *)

(** [a[:n - excludeTop, :]] under [if excludeTop], for a count in range *)
Lemma rows_cap_top (a : ndarray) (eT : Z) :
  0 <= eT <= Z.of_nat (nrows a) ->
  rows (if negb (eT =? 0) then rows_upto a (Z.of_nat (nrows a) - eT) else a)
  = take (nrows a - Z.to_nat eT) (rows a).
Proof.
  intros H. destruct (Z.eqb_spec eT 0) as [-> | Hne]; cbn [negb].
  - rewrite Nat.sub_0_r. unfold nrows. now rewrite firstn_all.
  - unfold rows_upto. cbn [rows]. rewrite py_slice_bound_nonneg by lia.
    f_equal. lia.
Qed.

(** [a[excludeBot:, :]] under [if excludeBot], for a count in range *)
Lemma rows_cap_bot (a : ndarray) (eB : Z) :
  0 <= eB <= Z.of_nat (nrows a) ->
  rows (if negb (eB =? 0) then rows_from a eB else a)
  = drop (Z.to_nat eB) (rows a).
Proof.
  intros H. destruct (Z.eqb_spec eB 0) as [-> | Hne]; cbn [negb].
  - reflexivity.
  - unfold rows_from. cbn [rows]. now rewrite py_slice_bound_nonneg by lia.
Qed.

Lemma cap_top_arr_pair eT n aY aZ :
  cap_top_arr eT n (aY, aZ) =
  (if negb (eT =? 0) then rows_upto aY (Z.of_nat n - eT) else aY,
   if negb (eT =? 0) then rows_upto aZ (Z.of_nat n - eT) else aZ).
Proof. unfold cap_top_arr. now destruct (negb (eT =? 0)). Qed.

Lemma cap_bot_arr_pair eB aY aZ :
  cap_bot_arr eB (aY, aZ) =
  (if negb (eB =? 0) then rows_from aY eB else aY,
   if negb (eB =? 0) then rows_from aZ eB else aZ).
Proof. unfold cap_bot_arr. now destruct (negb (eB =? 0)). Qed.

Lemma ncols_if_upto (b : bool) a k : ncols (if b then rows_upto a k else a) = ncols a.
Proof. now destruct b. Qed.

Lemma ncols_if_from (b : bool) a k : ncols (if b then rows_from a k else a) = ncols a.
Proof. now destruct b. Qed.

(** Both caps together keep rows [excludeBot .. n - excludeTop) of an
    array of [n] rows. *)
Lemma rows_capped (a : ndarray) (eB eT : Z) :
  0 <= eT -> 0 <= eB -> eT + eB <= Z.of_nat (nrows a) ->
  let a1 := if negb (eT =? 0) then rows_upto a (Z.of_nat (nrows a) - eT) else a in
  let a2 := if negb (eB =? 0) then rows_from a1 eB else a1 in
  ncols a2 = ncols a /\
  rows a2 = drop (Z.to_nat eB) (take (nrows a - Z.to_nat eT) (rows a)) /\
  Z.of_nat (nrows a2) = Z.of_nat (nrows a) - eT - eB.
Proof.
  intros HT HB Hsum a1 a2.
  assert (H1 : rows a1 = take (nrows a - Z.to_nat eT) (rows a))
    by (apply rows_cap_top; lia).
  assert (Hn1 : nrows a1 = (nrows a - Z.to_nat eT)%nat).
  { unfold nrows at 1. rewrite H1, length_take. unfold nrows. lia. }
  assert (H2 : rows a2 = drop (Z.to_nat eB) (rows a1))
    by (apply rows_cap_bot; lia).
  split; [| split].
  - unfold a2, a1. now rewrite ncols_if_from, ncols_if_upto.
  - now rewrite H2, H1.
  - unfold nrows at 1. rewrite H2, length_drop. fold (nrows a1). lia.
Qed.

(** ** Exchanging on arrays *)

Lemma setrow_scalar_inv (a a' : ndarray) (i : Z) (v : float) :
  setrow_scalar a i v = inr a' ->
  exists j, py_index (nrows a) i = Some j /\ (j < nrows a)%nat /\
            ncols a' = ncols a /\
            rows a' = <[j := replicate (ncols a) v]> (rows a).
Proof. apply setrow_inv. Qed.

Lemma exchange_bot_arr_inv xB aY aZ Y1 Z1 :
  exchange_bot_arr xB (aY, aZ) = inr (Y1, Z1) ->
  Z1 = aZ /\ ncols Y1 = ncols aY /\
  rows Y1 = (if F64.isnan xB then rows aY
             else <[0%nat := replicate (ncols aY) xB]> (rows aY)) /\
  (F64.isnan xB = false -> (0 < nrows aY)%nat).
Proof.
  unfold exchange_bot_arr. cbn [fst snd].
  destruct (F64.isnan xB); cbn [negb].
  { intros [= <- <-]. repeat split; intros; discriminate. }
  destruct (setrow_scalar aY 0 xB) as [e | Y'] eqn:E; [discriminate |].
  cbn [rbind]. intros [= <- <-].
  apply setrow_scalar_inv in E as (j & Hj & Hlt & Hc & Hr).
  apply py_index_zero in Hj as ->.
  repeat split; try assumption. intros _. lia.
Qed.

Lemma exchange_top_arr_inv xT aY aZ Y1 Z1 :
  exchange_top_arr xT (aY, aZ) = inr (Y1, Z1) ->
  Z1 = aZ /\ ncols Y1 = ncols aY /\
  rows Y1 = (if F64.isnan xT then rows aY
             else <[(nrows aY - 1)%nat := replicate (ncols aY) xT]> (rows aY)) /\
  (F64.isnan xT = false -> (0 < nrows aY)%nat).
Proof.
  unfold exchange_top_arr. cbn [fst snd].
  destruct (F64.isnan xT); cbn [negb].
  { intros [= <- <-]. repeat split; intros; discriminate. }
  destruct (setrow_scalar aY (-1) xT) as [e | Y'] eqn:E; [discriminate |].
  cbn [rbind]. intros [= <- <-].
  apply setrow_scalar_inv in E as (j & Hj & Hlt & Hc & Hr).
  rewrite py_index_minus_one in Hj by lia. injection Hj as <-.
  repeat split; try assumption. intros _. lia.
Qed.

(** ** Shapes through the points reader *)

Lemma shape_eq (a b : ndarray) :
  shape a = shape b <-> nrows a = nrows b /\ ncols a = ncols b.
Proof. unfold shape. split; [intros [= -> ->] | intros [-> ->]]; auto. Qed.

Lemma add_bot_arr_shape v n p p' :
  shape (fst p) = shape (snd p) ->
  add_bot_arr v n p = inr p' -> shape (fst p') = shape (snd p').
Proof.
  destruct p as [aY aZ], p' as [Y1 Z1]. cbn [fst snd].
  rewrite !shape_eq. intros [Hn Hc] H.
  apply add_bot_arr_inv in H as (Hc1 & Hd1 & Hr & Hs & _).
  unfold nrows in *. rewrite Hr, Hs, !length_app.
  rewrite (length_boundary v _ []), (length_boundary v (default _ _) []).
  split; congruence.
Qed.

Lemma add_top_arr_shape v n p p' :
  shape (fst p) = shape (snd p) ->
  add_top_arr v n p = inr p' -> shape (fst p') = shape (snd p').
Proof.
  destruct p as [aY aZ], p' as [Y1 Z1]. cbn [fst snd].
  rewrite !shape_eq. intros [Hn Hc] H.
  apply add_top_arr_inv in H as (Hc1 & Hd1 & Hr & Hs & _).
  unfold nrows in *. rewrite Hr, Hs, !length_app.
  rewrite (length_boundary v _ []), (length_boundary v (default _ _) []).
  split; congruence.
Qed.

Lemma cap_top_arr_shape e n p :
  shape (fst p) = shape (snd p) ->
  shape (fst (cap_top_arr e n p)) = shape (snd (cap_top_arr e n p)).
Proof.
  destruct p as [aY aZ]. cbn [fst snd]. rewrite cap_top_arr_pair.
  destruct (negb (e =? 0)); [| trivial]. cbn [fst snd].
  rewrite !shape_eq, !nrows_rows_upto. cbn [ncols rows_upto].
  now intros [-> ->].
Qed.

Lemma cap_bot_arr_shape e p :
  shape (fst p) = shape (snd p) ->
  shape (fst (cap_bot_arr e p)) = shape (snd (cap_bot_arr e p)).
Proof.
  destruct p as [aY aZ]. cbn [fst snd]. rewrite cap_bot_arr_pair.
  destruct (negb (e =? 0)); [| trivial]. cbn [fst snd].
  rewrite !shape_eq, !nrows_rows_from. cbn [ncols rows_from].
  now intros [-> ->].
Qed.

Lemma exchange_bot_arr_shape v p p' :
  exchange_bot_arr v p = inr p' ->
  shape (fst p') = shape (fst p) /\ snd p' = snd p.
Proof.
  destruct p as [aY aZ], p' as [Y1 Z1]. cbn [fst snd]. intros H.
  apply exchange_bot_arr_inv in H as (-> & Hc & Hr & _).
  split; [| reflexivity]. apply shape_eq. split; [| exact Hc].
  unfold nrows. rewrite Hr. destruct (F64.isnan v); [reflexivity |].
  apply length_insert.
Qed.

Lemma exchange_top_arr_shape v p p' :
  exchange_top_arr v p = inr p' ->
  shape (fst p') = shape (fst p) /\ snd p' = snd p.
Proof.
  destruct p as [aY aZ], p' as [Y1 Z1]. cbn [fst snd]. intros H.
  apply exchange_top_arr_inv in H as (-> & Hc & Hr & _).
  split; [| reflexivity]. apply shape_eq. split; [| exact Hc].
  unfold nrows. rewrite Hr. destruct (F64.isnan v); [reflexivity |].
  apply length_insert.
Qed.

(** A block that agrees with a shape-preserving function on arrays
    preserves [same_shape]. *)
Lemma block_same_shape (m : array_ref * array_ref -> M (array_ref * array_ref))
    (r : arrays -> result arrays) :
  (forall fs pts p, views fs pts p -> sim views (m pts) (r p) fs) ->
  (forall p p', shape (fst p) = shape (snd p) -> r p = inr p' ->
                shape (fst p') = shape (snd p')) ->
  forall fs pts pts' fs',
    same_shape fs pts -> m pts fs = (inr pts', fs') -> same_shape fs' pts'.
Proof.
  intros Hsim Hshape fs pts pts' fs' (p & Hv & Hs) Hrun.
  specialize (Hsim fs pts p Hv). unfold sim in Hsim. rewrite Hrun in Hsim.
  destruct (r p) as [e | p'] eqn:E; [contradiction |].
  exists p'. split; [exact Hsim |]. now apply (Hshape p).
Qed.

Lemma points_arr_shape aB aT eB eT xB xT p p' :
  shape (fst p) = shape (snd p) ->
  points_arr aB aT eB eT xB xT p = inr p' ->
  shape (fst p') = shape (snd p').
Proof.
  intros Hs. unfold points_arr, capped_arr, padded_arr.
  destruct (add_bot_arr aB (ncols (fst p)) p) as [e | p1] eqn:E1;
    [discriminate |]. cbn [rbind].
  destruct (add_top_arr aT (ncols (fst p)) p1) as [e | p2] eqn:E2;
    [discriminate |]. cbn [rbind].
  set (p4 := cap_bot_arr eB _).
  destruct (exchange_bot_arr xB p4) as [e | p5] eqn:E5; [discriminate |].
  cbn [rbind]. intros E6.
  apply add_bot_arr_shape in E1; [| exact Hs].
  apply add_top_arr_shape in E2; [| exact E1].
  assert (H4 : shape (fst p4) = shape (snd p4))
    by (apply cap_bot_arr_shape, cap_top_arr_shape, E2).
  apply exchange_bot_arr_shape in E5 as [H5 H5'].
  apply exchange_top_arr_shape in E6 as [H6 H6'].
  congruence.
Qed.

(** C7. Shape invariant of the points reader: each block of the reader
    (padding below and above, capping above and below, exchanging below and
    above) takes variables that show arrays of one shape to variables that
    show arrays of one shape, for every parameter value; and on every store
    whose [pointsY] and [pointsZ] have equal shape the arrays that the
    reader returns have equal shape, for every parameter combination. *)
Theorem points_shape_invariant :
  (forall v n fs pts pts' fs',
      same_shape fs pts -> add_bot v n pts fs = (inr pts', fs') ->
      same_shape fs' pts') /\
  (forall v n fs pts pts' fs',
      same_shape fs pts -> add_top v n pts fs = (inr pts', fs') ->
      same_shape fs' pts') /\
  (forall e n fs pts pts' fs',
      same_shape fs pts -> cap_top e n pts fs = (inr pts', fs') ->
      same_shape fs' pts') /\
  (forall e fs pts pts' fs',
      same_shape fs pts -> cap_bot e pts fs = (inr pts', fs') ->
      same_shape fs' pts') /\
  (forall v fs pts pts' fs',
      same_shape fs pts -> exchange_bot v pts fs = (inr pts', fs') ->
      same_shape fs' pts') /\
  (forall v fs pts pts' fs',
      same_shape fs pts -> exchange_top v pts fs = (inr pts', fs') ->
      same_shape fs' pts') /\
  (forall fs readPath aY aZ addValBot addValTop excludeBot excludeTop
          exchangeValBot exchangeValTop pts fs',
      stored_points fs readPath PointsY = Some aY ->
      stored_points fs readPath PointsZ = Some aZ ->
      shape aY = shape aZ ->
      read_points_from_hdf5 readPath addValBot addValTop excludeBot excludeTop
        exchangeValBot exchangeValTop fs = (inr pts, fs') ->
      same_shape fs' pts).
Proof.
  repeat apply conj.
  - intros v n. apply (block_same_shape _ (add_bot_arr v n)).
    + intros. now apply add_bot_sim.
    + apply add_bot_arr_shape.
  - intros v n. apply (block_same_shape _ (add_top_arr v n)).
    + intros. now apply add_top_sim.
    + apply add_top_arr_shape.
  - intros e n. apply (block_same_shape _ (fun p => inr (cap_top_arr e n p))).
    + intros. now apply cap_top_sim.
    + intros p p' Hs [= <-]. now apply cap_top_arr_shape.
  - intros e. apply (block_same_shape _ (fun p => inr (cap_bot_arr e p))).
    + intros. now apply cap_bot_sim.
    + intros p p' Hs [= <-]. now apply cap_bot_arr_shape.
  - intros v. apply (block_same_shape _ (exchange_bot_arr v)).
    + intros. now apply exchange_bot_sim.
    + intros p p' Hs H. apply exchange_bot_arr_shape in H as [H1 H2].
      congruence.
  - intros v. apply (block_same_shape _ (exchange_top_arr v)).
    + intros. now apply exchange_top_sim.
    + intros p p' Hs H. apply exchange_top_arr_shape in H as [H1 H2].
      congruence.
  - intros fs readPath aY aZ aB aT eB eT xB xT pts fs' HY HZ Hs Hrun.
    destruct (read_points_inr _ _ _ _ _ _ _ _ _ _ _ _ HY HZ Hrun)
      as (q & Hq & Hv).
    exists q. split; [exact Hv |].
    now apply (points_arr_shape aB aT eB eT xB xT (aY, aZ)).
Qed.

(** ** The blocks of the velocity closure *)

Lemma bind_lift {A B} (r : result A) (k : A -> M B) fs :
  bind (lift r) k fs = match r with inr x => k x fs | inl e => (inl e, fs) end.
Proof. now destruct r. Qed.

Lemma lift3_run (f : ndarray -> result ndarray) (uX uY uZ : ndarray) fs :
  (let* x := lift (f uX) in
   let* y := lift (f uY) in
   let* z := lift (f uZ) in
   ret (x, y, z)) fs
  = (on_components f (uX, uY, uZ), fs).
Proof.
  unfold on_components. rewrite bind_lift.
  destruct (f uX) as [e | x]; [reflexivity |]. cbn [rbind]. rewrite bind_lift.
  destruct (f uY) as [e | y]; [reflexivity |]. cbn [rbind]. rewrite bind_lift.
  now destruct (f uZ) as [e | z].
Qed.

Lemma on_components_id (u : velocity) : on_components inr u = inr u.
Proof. now destruct u as [[uX uY] uZ]. Qed.

Lemma add_bot_u_run v n u fs :
  add_bot_u v n u fs = (on_components (add_bot_c v n) u, fs).
Proof.
  destruct u as [[uX uY] uZ]. unfold add_bot_u, add_bot_c.
  destruct (negb (F64.isnan v)); [apply lift3_run | reflexivity].
Qed.

Lemma add_top_u_run v n u fs :
  add_top_u v n u fs = (on_components (add_top_c v n) u, fs).
Proof.
  destruct u as [[uX uY] uZ]. unfold add_top_u, add_top_c.
  destruct (negb (F64.isnan v));
    [apply (lift3_run (fun a => append_rows a _)) | reflexivity].
Qed.

Lemma interp_top_run iT eT top u fs :
  interp_top eT iT top u fs = (on_components (interp_top_c iT eT top) u, fs).
Proof.
  destruct u as [[uX uY] uZ]. unfold interp_top, interp_top_c.
  destruct (iT && negb (eT =? 0));
    [apply (lift3_run (fun a => interpolate a _ _ _)) | reflexivity].
Qed.

Lemma interp_bot_run iB eB u fs :
  interp_bot eB iB u fs = (on_components (interp_bot_c iB eB) u, fs).
Proof.
  destruct u as [[uX uY] uZ]. unfold interp_bot, interp_bot_c.
  destruct (iB && negb (eB =? 0));
    [apply (lift3_run (fun a => interpolate a _ _ _)) | reflexivity].
Qed.

Lemma cap_top_u_components eT top uX uY uZ :
  cap_top_u eT top (uX, uY, uZ)
  = (cap_top_c eT top uX, cap_top_c eT top uY, cap_top_c eT top uZ).
Proof. unfold cap_top_u, cap_top_c. now destruct (negb (eT =? 0)). Qed.

Lemma cap_bot_u_components eB uX uY uZ :
  cap_bot_u eB (uX, uY, uZ)
  = (cap_bot_c eB uX, cap_bot_c eB uY, cap_bot_c eB uZ).
Proof. unfold cap_bot_u, cap_bot_c. now destruct (negb (eB =? 0)). Qed.

Lemma on_components_inr f uX uY uZ x y z :
  on_components f (uX, uY, uZ) = inr (x, y, z) <->
  f uX = inr x /\ f uY = inr y /\ f uZ = inr z.
Proof.
  unfold on_components.
  destruct (f uX) as [e | x']; cbn [rbind]; [split; [discriminate | intros [? _]; discriminate] |].
  destruct (f uY) as [e | y']; cbn [rbind];
    [split; [discriminate | intros (_ & ? & _); discriminate] |].
  destruct (f uZ) as [e | z']; cbn [rbind];
    [split; [discriminate | intros (_ & _ & ?); discriminate] |].
  split; [intros [= -> -> ->]; auto | intros ([= ->] & [= ->] & [= ->]); auto].
Qed.

Lemma velocity_getitem_run fs p d t :
  velocity_getitem p d t fs =
  (match slab fs p d t with Some a => inr a
   | None => inl (if stored_velocity fs p d is Some _ then IndexError else KeyError) end,
   fs).
Proof.
  unfold velocity_getitem, slab.
  destruct (stored_velocity fs p d) as [slabs |]; [| reflexivity]. simpl.
  destruct (py_index (length slabs) t) as [j |]; [| reflexivity]. simpl.
  now destruct (slabs !! j).
Qed.

Lemma slab_file fs p d t a :
  slab fs p d t = Some a -> exists f, fs !! p = Some f.
Proof.
  unfold slab, stored_velocity. destruct (fs !! p) as [f |]; [eauto |].
  discriminate.
Qed.

(** A call of the closure returns exactly when the three slabs load and
    every component passes the padding and the interpolation; the
    components are then as [padded_c] and [finished_c] describe, and the
    file system is as before. *)
Lemma read_inr fs p aB aT eB eT iB iT t rX rY rZ fs' :
  read p aB aT eB eT iB iT t fs = (inr (rX, rY, rZ), fs') <->
  fs' = fs /\
  exists uX uY uZ aX aY aZ,
    slab fs p UX t = Some uX /\ slab fs p UY t = Some uY /\
    slab fs p UZ t = Some uZ /\
    padded_c aB aT (ncols uX) uX = inr aX /\
    padded_c aB aT (ncols uX) uY = inr aY /\
    padded_c aB aT (ncols uX) uZ = inr aZ /\
    finished_c eB eT iB iT (nrows aX) aX = inr rX /\
    finished_c eB eT iB iT (nrows aX) aY = inr rY /\
    finished_c eB eT iB iT (nrows aX) aZ = inr rZ.
Proof.
  unfold read. unfold bind at 1. unfold h5py_File.
  destruct (fs !! p) as [f |] eqn:Hf.
  2:{ split; [discriminate |]. intros (_ & uX & ? & ? & ? & ? & ? & H & _).
      apply slab_file in H as [f' Hf']. congruence. }
  unfold bind at 1. rewrite velocity_getitem_run.
  destruct (slab fs p UX t) as [uX |];
    [| split; [discriminate | intros (_ & ? & ? & ? & ? & ? & ? & [=] & _)]].
  unfold bind at 1. rewrite velocity_getitem_run.
  destruct (slab fs p UY t) as [uY |];
    [| split; [discriminate | intros (_ & ? & ? & ? & ? & ? & ? & _ & [=] & _)]].
  unfold bind at 1. rewrite velocity_getitem_run.
  destruct (slab fs p UZ t) as [uZ |];
    [| split; [discriminate | intros (_ & ? & ? & ? & ? & ? & ? & _ & _ & [=] & _)]].
  cbn [shape fst snd].
  unfold bind at 1. rewrite add_bot_u_run.
  unfold padded_c, finished_c.
  destruct (on_components (add_bot_c aB (ncols uX)) (uX, uY, uZ))
    as [e | [[bX bY] bZ]] eqn:E1.
  { split; [discriminate |].
    intros (_ & ? & ? & ? & aX & aY & aZ & [= <-] & [= <-] & [= <-] & HX & HY & HZ & _).
    destruct (add_bot_c aB (ncols uX) uX) as [? | x] eqn:EX; [discriminate |].
    destruct (add_bot_c aB (ncols uX) uY) as [? | y] eqn:EY; [discriminate |].
    destruct (add_bot_c aB (ncols uX) uZ) as [? | z] eqn:EZ; [discriminate |].
    assert (on_components (add_bot_c aB (ncols uX)) (uX, uY, uZ) = inr (x, y, z))
      by (now apply on_components_inr).
    congruence. }
  apply on_components_inr in E1 as (E1X & E1Y & E1Z).
  unfold bind at 1. rewrite add_top_u_run.
  destruct (on_components (add_top_c aT (ncols uX)) (bX, bY, bZ))
    as [e | [[aX aY] aZ]] eqn:E2.
  { split; [discriminate |].
    intros (_ & ? & ? & ? & aX & aY & aZ & [= <-] & [= <-] & [= <-] & HX & HY & HZ & _).
    rewrite E1X in HX. rewrite E1Y in HY. rewrite E1Z in HZ.
    cbn [rbind] in HX, HY, HZ.
    assert (on_components (add_top_c aT (ncols uX)) (bX, bY, bZ) = inr (aX, aY, aZ))
      by (now apply on_components_inr).
    congruence. }
  apply on_components_inr in E2 as (E2X & E2Y & E2Z).
  cbn [fst snd shape].
  unfold bind at 1. rewrite interp_top_run.
  set (top := Z.of_nat (nrows aX) - eT).
  destruct (on_components (interp_top_c iT eT top) (aX, aY, aZ))
    as [e | [[cX cY] cZ]] eqn:E3.
  { split; [discriminate |].
    intros (_ & ? & ? & ? & aX' & aY' & aZ' & [= <-] & [= <-] & [= <-] & HX & HY & HZ & FX & FY & FZ).
    rewrite E1X in HX. rewrite E1Y in HY. rewrite E1Z in HZ.
    cbn [rbind] in HX, HY, HZ.
    assert (aX' = aX) as -> by congruence.
    assert (aY' = aY) as -> by congruence.
    assert (aZ' = aZ) as -> by congruence.
    fold top in FX, FY, FZ.
    destruct (interp_top_c iT eT top aX) as [? | x] eqn:EX; [discriminate |].
    destruct (interp_top_c iT eT top aY) as [? | y] eqn:EY; [discriminate |].
    destruct (interp_top_c iT eT top aZ) as [? | z] eqn:EZ; [discriminate |].
    assert (on_components (interp_top_c iT eT top) (aX, aY, aZ) = inr (x, y, z))
      by (now apply on_components_inr).
    congruence. }
  apply on_components_inr in E3 as (E3X & E3Y & E3Z).
  unfold bind at 1. rewrite interp_bot_run.
  destruct (on_components (interp_bot_c iB eB) (cX, cY, cZ))
    as [e | [[dX dY] dZ]] eqn:E4.
  { split; [discriminate |].
    intros (_ & ? & ? & ? & aX' & aY' & aZ' & [= <-] & [= <-] & [= <-] & HX & HY & HZ & FX & FY & FZ).
    rewrite E1X in HX. rewrite E1Y in HY. rewrite E1Z in HZ.
    cbn [rbind] in HX, HY, HZ.
    assert (aX' = aX) as -> by congruence.
    assert (aY' = aY) as -> by congruence.
    assert (aZ' = aZ) as -> by congruence.
    fold top in FX, FY, FZ. rewrite E3X in FX. rewrite E3Y in FY.
    rewrite E3Z in FZ. cbn [rbind] in FX, FY, FZ.
    destruct (interp_bot_c iB eB cX) as [? | x] eqn:EX; [discriminate |].
    destruct (interp_bot_c iB eB cY) as [? | y] eqn:EY; [discriminate |].
    destruct (interp_bot_c iB eB cZ) as [? | z] eqn:EZ; [discriminate |].
    assert (on_components (interp_bot_c iB eB) (cX, cY, cZ) = inr (x, y, z))
      by (now apply on_components_inr).
    congruence. }
  apply on_components_inr in E4 as (E4X & E4Y & E4Z).
  rewrite cap_top_u_components, cap_bot_u_components. cbn [ret].
  split.
  - intros [= <- <- <- <-]. split; [reflexivity |].
    exists uX, uY, uZ, aX, aY, aZ. fold top.
    rewrite E1X, E1Y, E1Z. cbn [rbind].
    rewrite E2X, E2Y, E2Z, E3X, E3Y, E3Z. cbn [rbind].
    rewrite E4X, E4Y, E4Z. cbn [rbind]. repeat split; reflexivity.
  - intros (-> & ? & ? & ? & aX' & aY' & aZ' & [= <-] & [= <-] & [= <-] & HX & HY & HZ & FX & FY & FZ).
    rewrite E1X in HX. rewrite E1Y in HY. rewrite E1Z in HZ.
    cbn [rbind] in HX, HY, HZ.
    assert (aX' = aX) as -> by congruence.
    assert (aY' = aY) as -> by congruence.
    assert (aZ' = aZ) as -> by congruence.
    fold top in FX, FY, FZ.
    rewrite E3X in FX. rewrite E3Y in FY. rewrite E3Z in FZ.
    cbn [rbind] in FX, FY, FZ.
    rewrite E4X in FX. rewrite E4Y in FY. rewrite E4Z in FZ.
    cbn [rbind] in FX, FY, FZ.
    injection FX as <-. injection FY as <-. injection FZ as <-. reflexivity.
Qed.

(** ** One component of the velocity field *)

Lemma getrow_row_at (a : ndarray) (k : Z) :
  0 <= k < Z.of_nat (nrows a) ->
  getrow a k = inr (row_at a k) /\ rows a !! Z.to_nat k = Some (row_at a k).
Proof.
  intros H. unfold row_at.
  destruct (rows a !! Z.to_nat k) as [r |] eqn:E.
  - split; [| reflexivity]. apply getrow_nonneg; [lia | exact E].
  - apply lookup_ge_None in E. unfold nrows in H. lia.
Qed.

Lemma interpolate_in_range (u : ndarray) (dst i j : Z) :
  0 <= dst < Z.of_nat (nrows u) -> 0 <= i < Z.of_nat (nrows u) ->
  0 <= j < Z.of_nat (nrows u) ->
  interpolate u dst i j =
  inr (mk_ndarray (ncols u)
         (<[Z.to_nat dst := interp_rows (row_at u i) (row_at u j)]> (rows u))).
Proof.
  intros Hd Hi Hj. unfold interpolate.
  rewrite (proj1 (getrow_row_at u i Hi)), (proj1 (getrow_row_at u j Hj)).
  unfold setrow. now rewrite py_index_nonneg.
Qed.

Lemma add_bot_c_inv v n u b :
  add_bot_c v n u = inr b ->
  ncols b = ncols u /\
  rows b = boundary v (F64.mul v <$> replicate n F64.one) ++ rows u.
Proof.
  unfold add_bot_c, boundary. destruct (F64.isnan v); cbn [negb].
  - now intros [= <-].
  - intros H. apply append_rows_inv in H as (Hc0 & Hc & Hr).
    cbn in *. split; congruence.
Qed.

Lemma add_top_c_inv v n u b :
  add_top_c v n u = inr b ->
  ncols b = ncols u /\
  rows b = rows u ++ boundary v (F64.mul v <$> replicate n F64.one).
Proof.
  unfold add_top_c, boundary. destruct (F64.isnan v); cbn [negb].
  - intros [= <-]. now rewrite app_nil_r.
  - intros H. apply append_rows_inv in H as (Hc0 & Hc & Hr).
    cbn in *. split; congruence.
Qed.

Lemma padded_c_inv aB aT n u a :
  padded_c aB aT n u = inr a ->
  ncols a = ncols u /\
  rows a = boundary aB (F64.mul aB <$> replicate n F64.one) ++ rows u
           ++ boundary aT (F64.mul aT <$> replicate n F64.one).
Proof.
  unfold padded_c.
  destruct (add_bot_c aB n u) as [e | b] eqn:E; [discriminate |].
  cbn [rbind]. intros H.
  apply add_bot_c_inv in E as (Hc1 & Hr1).
  apply add_top_c_inv in H as (Hc2 & Hr2).
  split; [congruence |]. now rewrite Hr2, Hr1, <- app_assoc.
Qed.

Lemma padded_c_shape aB aT n u a :
  padded_c aB aT n u = inr a ->
  ncols a = ncols u /\ nrows a = (nrows u + pad_count aB aT)%nat.
Proof.
  intros H. apply padded_c_inv in H as (Hc & Hr). split; [exact Hc |].
  unfold nrows, pad_count. rewrite Hr, !length_app.
  rewrite (length_boundary aB _ []), (length_boundary aT _ []). lia.
Qed.

(** With counts in range a padded component always passes the
    interpolation and the capping; the rows of the outcome are given
    explicitly. *)
Lemma finished_c_in_range (eB eT : Z) (iB iT : bool) (a : ndarray) :
  0 <= eT -> 0 <= eB -> eT + eB < Z.of_nat (nrows a) ->
  let top := Z.of_nat (nrows a) - eT in
  let rows1 :=
    if iT && negb (eT =? 0)
    then <[Z.to_nat (top - 1) := interp_rows (row_at a (top - 1)) (row_at a top)]>
           (rows a)
    else rows a in
  let b1 := mk_ndarray (ncols a) rows1 in
  let rows2 :=
    if iB && negb (eB =? 0)
    then <[Z.to_nat eB := interp_rows (row_at b1 (eB - 1)) (row_at b1 eB)]> rows1
    else rows1 in
  exists r,
    finished_c eB eT iB iT (nrows a) a = inr r /\
    ncols r = ncols a /\
    rows r = drop (Z.to_nat eB) (take (nrows a - Z.to_nat eT) rows2) /\
    Z.of_nat (nrows r) = Z.of_nat (nrows a) - eT - eB.
Proof.
  intros HT HB Hsum top rows1 b1 rows2.
  assert (Hn1 : nrows b1 = nrows a).
  { unfold nrows, b1, rows1. cbn [rows].
    destruct (iT && negb (eT =? 0)); [apply length_insert | reflexivity]. }
  assert (E1 : interp_top_c iT eT top a = inr b1).
  { unfold interp_top_c, b1, rows1.
    destruct (iT && negb (eT =? 0)) eqn:Ec; [| now destruct a].
    apply andb_prop in Ec as [_ Ec]. apply negb_true_iff, Z.eqb_neq in Ec.
    apply interpolate_in_range; lia. }
  set (b2 := mk_ndarray (ncols a) rows2).
  assert (Hn2 : nrows b2 = nrows a).
  { unfold nrows at 1. unfold b2, rows2. cbn [rows].
    destruct (iB && negb (eB =? 0)); [rewrite length_insert |]; exact Hn1. }
  assert (E2 : interp_bot_c iB eB b1 = inr b2).
  { unfold interp_bot_c, b2, rows2.
    destruct (iB && negb (eB =? 0)) eqn:Ec; [| reflexivity].
    apply andb_prop in Ec as [_ Ec]. apply negb_true_iff, Z.eqb_neq in Ec.
    rewrite interpolate_in_range by (rewrite Hn1; lia). reflexivity. }
  unfold finished_c. fold top. rewrite E1. cbn [rbind]. rewrite E2.
  cbn [rbind]. eexists. split; [reflexivity |].
  unfold cap_bot_c, cap_top_c. unfold top. rewrite <- Hn2.
  destruct (rows_capped b2 eB eT HT HB) as (Hc & Hr & Hn); [rewrite Hn2; lia |].
  cbn zeta in Hc, Hr, Hn. rewrite Hc, Hr, Hn. rewrite Hn2.
  repeat split; reflexivity.
Qed.

Lemma capped_last (l : list (list float)) (b t : nat) :
  (b < t)%nat -> (t <= length l)%nat ->
  last (drop b (take t l)) = l !! (t - 1)%nat.
Proof.
  intros Hb Ht. rewrite last_lookup, length_drop, length_take, lookup_drop.
  rewrite lookup_take_lt by lia. f_equal. lia.
Qed.

Lemma capped_head (l : list (list float)) (b t : nat) :
  (b < t)%nat -> head (drop b (take t l)) = l !! b.
Proof.
  intros Hb. rewrite head_lookup, lookup_drop, Nat.add_0_r.
  now rewrite lookup_take_lt.
Qed.

(** The top interpolation reaches the result: the last row that is kept is
    the mean of the last kept row and the first dropped row of the padded
    component, unless the bottom interpolation overwrites that same row. *)
Lemma finished_c_top (eB eT : Z) (iB : bool) (a : ndarray) :
  0 < eT -> 0 <= eB -> eT + eB < Z.of_nat (nrows a) ->
  (iB = true -> 0 < eB -> eT + eB + 2 <= Z.of_nat (nrows a)) ->
  exists r, finished_c eB eT iB true (nrows a) a = inr r /\
            top_interpolated a r (Z.of_nat (nrows a) - eT).
Proof.
  intros HT HB Hsum Htwo.
  destruct (finished_c_in_range eB eT iB true a) as (r & Hr & _ & Hrows & _);
    [lia | lia | lia |].
  exists r. split; [exact Hr |].
  set (top := Z.of_nat (nrows a) - eT) in *.
  exists (row_at a (top - 1)), (row_at a top).
  split; [apply getrow_row_at; lia |]. split; [apply getrow_row_at; lia |].
  rewrite Hrows. clear Hrows Hr.
  destruct (Z.eqb_spec eT 0) as [-> | _]; [lia |]. cbn [andb negb].
  assert (Hlen : length (<[Z.to_nat (top - 1) :=
                           interp_rows (row_at a (top - 1)) (row_at a top)]>
                           (rows a)) = nrows a) by apply length_insert.
  rewrite capped_last;
    [| lia | destruct (iB && negb (eB =? 0)); rewrite ?length_insert; unfold nrows; lia].
  replace (nrows a - Z.to_nat eT - 1)%nat with (Z.to_nat (top - 1)) by lia.
  destruct (iB && negb (eB =? 0)) eqn:Ec.
  - apply andb_prop in Ec as [-> Ec]. apply negb_true_iff, Z.eqb_neq in Ec.
    rewrite list_lookup_insert_ne by lia.
    apply list_lookup_insert_eq. unfold nrows in *. lia.
  - apply list_lookup_insert_eq. unfold nrows in *. lia.
Qed.

(** The bottom interpolation reaches the result: the first row that is
    kept is the mean of the last dropped row and the first kept row of the
    padded component, unless the top interpolation has overwritten that
    row before. *)
Lemma finished_c_bot (eB eT : Z) (iT : bool) (a : ndarray) :
  0 <= eT -> 0 < eB -> eT + eB < Z.of_nat (nrows a) ->
  (iT = true -> 0 < eT -> eT + eB + 2 <= Z.of_nat (nrows a)) ->
  exists r, finished_c eB eT true iT (nrows a) a = inr r /\
            bot_interpolated a r eB.
Proof.
  intros HT HB Hsum Htwo.
  destruct (finished_c_in_range eB eT true iT a) as (r & Hr & _ & Hrows & _);
    [lia | lia | lia |].
  exists r. split; [exact Hr |].
  set (top := Z.of_nat (nrows a) - eT) in *.
  exists (row_at a (eB - 1)), (row_at a eB).
  split; [apply getrow_row_at; lia |]. split; [apply getrow_row_at; lia |].
  rewrite Hrows. clear Hrows Hr.
  destruct (Z.eqb_spec eB 0) as [-> | _]; [lia |]. cbn [andb negb].
  rewrite capped_head by lia.
  set (rows1 := if iT && negb (eT =? 0) then _ else _).
  assert (Hlen : length rows1 = nrows a).
  { unfold rows1. destruct (iT && negb (eT =? 0)); [apply length_insert | reflexivity]. }
  rewrite list_lookup_insert_eq by lia. f_equal.
  assert (Hsame : forall k, 0 <= k -> k = eB - 1 \/ k = eB ->
                            rows1 !! Z.to_nat k = rows a !! Z.to_nat k).
  { intros k Hk0 Hk. unfold rows1.
    destruct (iT && negb (eT =? 0)) eqn:Ec; [| reflexivity].
    apply andb_prop in Ec as [-> Ec]. apply negb_true_iff, Z.eqb_neq in Ec.
    apply list_lookup_insert_ne. lia. }
  unfold row_at. cbn [rows]. rewrite !Hsame by lia. reflexivity.
Qed.

(** ** Arrays: small facts *)

Lemma ndarray_eta (a : ndarray) (c : nat) (l : list (list float)) :
  ncols a = c -> rows a = l -> a = mk_ndarray c l.
Proof. destruct a. cbn. now intros -> ->. Qed.

Lemma row_at_0 (a : ndarray) : row_at a 0 = default [] (head (rows a)).
Proof. unfold row_at. now rewrite head_lookup. Qed.

Lemma append_rows_same (a b : ndarray) :
  ncols a = ncols b ->
  append_rows a b = inr (mk_ndarray (ncols a) (rows a ++ rows b)).
Proof.
  intros H. unfold append_rows. now destruct (decide (ncols a = ncols b)).
Qed.

Lemma first_row_length (a : ndarray) :
  wf_ndarray a -> (0 < nrows a)%nat -> length (row_at a 0) = ncols a.
Proof.
  unfold wf_ndarray, row_at, nrows. destruct (rows a) as [| r l]; cbn.
  - lia.
  - intros H _. now inversion H.
Qed.

Lemma ndarray_eta' (a : ndarray) : mk_ndarray (ncols a) (rows a) = a.
Proof. now destruct a. Qed.

(** ** When the readers return *)

Lemma add_bot_arr_returns v aY aZ :
  (F64.isnan v = false ->
   (0 < nrows aZ)%nat /\ length (row_at aZ 0) = ncols aZ) ->
  exists p1, add_bot_arr v (ncols aY) (aY, aZ) = inr p1.
Proof.
  intros H. unfold add_bot_arr. cbn [fst snd].
  destruct (F64.isnan v); cbn [negb]; [eauto |].
  destruct (H eq_refl) as [Hpos Hlen].
  rewrite append_rows_same by reflexivity. cbn [rbind].
  rewrite (proj1 (getrow_row_at aZ 0 ltac:(lia))). cbn [rbind].
  rewrite append_rows_same by exact Hlen. cbn [rbind]. eauto.
Qed.

Lemma add_top_arr_returns v aY aZ :
  (F64.isnan v = false ->
   (0 < nrows aZ)%nat /\ length (row_at aZ 0) = ncols aZ) ->
  exists p1, add_top_arr v (ncols aY) (aY, aZ) = inr p1.
Proof.
  intros H. unfold add_top_arr. cbn [fst snd].
  destruct (F64.isnan v); cbn [negb]; [eauto |].
  destruct (H eq_refl) as [Hpos Hlen].
  rewrite append_rows_same by reflexivity. cbn [rbind].
  rewrite (proj1 (getrow_row_at aZ 0 ltac:(lia))). cbn [rbind].
  rewrite append_rows_same by (symmetry; exact Hlen). cbn [rbind]. eauto.
Qed.

(** Padding returns on a rectangular, non-empty [pointsZ]. *)
Lemma padded_arr_returns aB aT aY aZ :
  wf_ndarray aZ -> (0 < nrows aZ)%nat ->
  exists p2, padded_arr aB aT (aY, aZ) = inr p2.
Proof.
  intros Hwf Hpos. unfold padded_arr. cbn [fst].
  pose proof (first_row_length aZ Hwf Hpos) as Hlen.
  destruct (add_bot_arr_returns aB aY aZ) as ([Y1 Z1] & E1); [auto |].
  rewrite E1. cbn [rbind].
  apply add_bot_arr_inv in E1 as (Hc & Hd & _ & Hs & _).
  rewrite <- Hc. apply add_top_arr_returns. intros _.
  rewrite <- row_at_0 in Hs.
  assert (Hrow : row_at Z1 0 = row_at aZ 0).
  { rewrite (row_at_0 Z1), Hs. unfold boundary.
    destruct (F64.isnan aB); simpl; [now rewrite <- row_at_0 | reflexivity]. }
  rewrite Hrow, Hd. split; [| exact Hlen].
  unfold nrows in *. rewrite Hs, length_app. lia.
Qed.

(** The points reader returns on a store with rectangular, non-empty
    arrays of equal row count, for counts in range. *)
Lemma read_points_returns fs readPath aY aZ addValBot addValTop excludeBot
    excludeTop exchangeValBot exchangeValTop :
  stored_points fs readPath PointsY = Some aY ->
  stored_points fs readPath PointsZ = Some aZ ->
  wf_ndarray aZ -> (0 < nrows aZ)%nat -> nrows aZ = nrows aY ->
  0 <= excludeTop -> 0 <= excludeBot ->
  excludeTop + excludeBot < Z.of_nat (nrows aY + pad_count addValBot addValTop) ->
  exists pts fs',
    read_points_from_hdf5 readPath addValBot addValTop excludeBot excludeTop
      exchangeValBot exchangeValTop fs = (inr pts, fs').
Proof.
  intros HY HZ Hwf Hpos Hn HT HB Hsum.
  assert (Harr : exists q, points_arr addValBot addValTop excludeBot excludeTop
                             exchangeValBot exchangeValTop (aY, aZ) = inr q).
  { unfold points_arr, capped_arr.
    destruct (padded_arr_returns addValBot addValTop aY aZ Hwf Hpos)
      as ([Y2 Z2] & E2). rewrite E2. cbn [rbind fst].
    apply padded_arr_shape in E2 as (_ & _ & HnY & _).
    rewrite cap_top_arr_pair, cap_bot_arr_pair.
    set (Y4 := if negb (excludeBot =? 0) then _ else _).
    set (Z4 := if negb (excludeBot =? 0) then _ else _).
    assert (H4 : Z.of_nat (nrows Y4)
                 = Z.of_nat (nrows Y2) - excludeTop - excludeBot)
      by (apply (rows_capped Y2 excludeBot excludeTop); lia).
    assert (E5 : exists Y5, exchange_bot_arr exchangeValBot (Y4, Z4) = inr (Y5, Z4)
                            /\ nrows Y5 = nrows Y4).
    { unfold exchange_bot_arr, setrow_scalar, setrow. cbn [fst snd].
      destruct (F64.isnan exchangeValBot); cbn [negb]; [eauto |].
      rewrite py_index_nonneg by lia. cbn [rbind]. eexists.
      split; [reflexivity |]. unfold nrows. cbn [rows]. apply length_insert. }
    destruct E5 as (Y5 & -> & H5). cbn [rbind].
    unfold exchange_top_arr, setrow_scalar, setrow. cbn [fst snd].
    destruct (F64.isnan exchangeValTop); cbn [negb]; [eauto |].
    rewrite py_index_minus_one by lia. cbn [rbind]. eauto. }
  destruct Harr as (q & Hq).
  destruct (read_points_of_arr fs readPath aY aZ _ _ _ _ _ _ q HY HZ Hq)
    as (pts & fs' & Hr & _). eauto.
Qed.

(** The velocity closure returns when the three slabs load with equal
    shapes, for counts in range. *)
Lemma read_returns fs readPath addValBot addValTop excludeBot excludeTop
    interpValBot interpValTop timeIndex uX uY uZ :
  slab fs readPath UX timeIndex = Some uX ->
  slab fs readPath UY timeIndex = Some uY ->
  slab fs readPath UZ timeIndex = Some uZ ->
  shape uY = shape uX -> shape uZ = shape uX ->
  0 <= excludeTop -> 0 <= excludeBot ->
  excludeTop + excludeBot < Z.of_nat (nrows uX + pad_count addValBot addValTop) ->
  exists rX rY rZ,
    read readPath addValBot addValTop excludeBot excludeTop interpValBot
      interpValTop timeIndex fs = (inr (rX, rY, rZ), fs).
Proof.
  intros HX HY HZ HsY HsZ HT HB Hsum.
  apply shape_eq in HsY as [HnY HcY]. apply shape_eq in HsZ as [HnZ HcZ].
  assert (Hpad : forall u, ncols u = ncols uX ->
                           exists a, padded_c addValBot addValTop (ncols uX) u = inr a).
  { intros u Hc. unfold padded_c, add_bot_c, add_top_c.
    destruct (F64.isnan addValBot); cbn [negb rbind].
    - destruct (F64.isnan addValTop); cbn [negb]; [eauto |].
      rewrite append_rows_same by exact Hc. eauto.
    - rewrite append_rows_same by (now rewrite Hc). cbn [rbind].
      destruct (F64.isnan addValTop); cbn [negb]; [eauto |].
      rewrite append_rows_same by reflexivity. eauto. }
  destruct (Hpad uX eq_refl) as (aX & PX).
  destruct (Hpad uY HcY) as (aY & PY).
  destruct (Hpad uZ HcZ) as (aZ & PZ).
  pose proof (padded_c_shape _ _ _ _ _ PX) as [_ NX].
  pose proof (padded_c_shape _ _ _ _ _ PY) as [_ NY].
  pose proof (padded_c_shape _ _ _ _ _ PZ) as [_ NZ].
  assert (EY : nrows aY = nrows aX) by lia.
  assert (EZ : nrows aZ = nrows aX) by lia.
  destruct (finished_c_in_range excludeBot excludeTop interpValBot interpValTop aX)
    as (rX & FX & _); [lia .. |].
  destruct (finished_c_in_range excludeBot excludeTop interpValBot interpValTop aY)
    as (rY & FY & _); [lia .. |].
  destruct (finished_c_in_range excludeBot excludeTop interpValBot interpValTop aZ)
    as (rZ & FZ & _); [lia .. |].
  rewrite EY in FY. rewrite EZ in FZ.
  exists rX, rY, rZ. apply read_inr. split; [reflexivity |].
  exists uX, uY, uZ, aX, aY, aZ. repeat split; assumption.
Qed.

(** * The claims *)

(** ** Velocity: interpolation and truncation *)

Lemma finished_c_zero (iB iT : bool) (n : nat) (a : ndarray) :
  finished_c 0 0 iB iT n a = inr a.
Proof.
  unfold finished_c, interp_top_c, interp_bot_c, cap_top_c, cap_bot_c.
  cbn [Z.eqb negb]. rewrite !andb_false_r. reflexivity.
Qed.

Lemma finished_c_spec (eB eT : Z) (iB iT : bool) (a : ndarray) :
  0 <= eT -> 0 <= eB -> eT + eB < Z.of_nat (nrows a) ->
  (iT = true -> iB = true -> 0 < eT -> 0 < eB ->
   eT + eB + 2 <= Z.of_nat (nrows a)) ->
  exists r,
    finished_c eB eT iB iT (nrows a) a = inr r /\
    Z.of_nat (nrows r) = Z.of_nat (nrows a) - eT - eB /\
    (iT = true -> 0 < eT -> top_interpolated a r (Z.of_nat (nrows a) - eT)) /\
    (iB = true -> 0 < eB -> bot_interpolated a r eB).
Proof.
  intros HT HB Hsum Htwo.
  destruct (finished_c_in_range eB eT iB iT a HT HB Hsum)
    as (r & Hr & _ & _ & Hn).
  exists r. split; [exact Hr |]. split; [exact Hn |]. split.
  - intros -> HT'.
    destruct (finished_c_top eB eT iB a HT' HB Hsum) as (r' & Hr' & Htop);
      [auto |]. congruence.
  - intros -> HB'.
    destruct (finished_c_bot eB eT iT a HT HB' Hsum) as (r' & Hr' & Hbot);
      [auto |]. congruence.
Qed.

(** C1 (amended). In a call [read(timeIndex)] let [a] be the arrays after
    padding, which are what the closure returns when nothing is excluded,
    let [n] be their row count and [t = n - excludeTop]. If the counts are
    in range ([0 <= excludeTop], [0 <= excludeBot],
    [excludeTop + excludeBot < n]) and, when both interpolations are active,
    at least two rows remain, then the call returns; with [interpValTop] and
    [excludeTop > 0] the last row of each returned component is
    [0.5*(a[t-1] + a[t])], and with [interpValBot] and [excludeBot > 0] the
    first row of each returned component is
    [0.5*(a[excludeBot-1] + a[excludeBot])]: the interpolation reads the
    rows that the truncation removes afterwards. *)
Theorem interpolation_before_truncation
    fs readPath addValBot addValTop excludeBot excludeTop
    interpValBot interpValTop timeIndex aX aY aZ :
  read readPath addValBot addValTop 0 0 interpValBot interpValTop timeIndex fs
    = (inr (aX, aY, aZ), fs) ->
  nrows aY = nrows aX -> nrows aZ = nrows aX ->
  0 <= excludeTop -> 0 <= excludeBot ->
  excludeTop + excludeBot < Z.of_nat (nrows aX) ->
  (interpValTop = true -> interpValBot = true ->
   0 < excludeTop -> 0 < excludeBot ->
   excludeTop + excludeBot + 2 <= Z.of_nat (nrows aX)) ->
  let t := Z.of_nat (nrows aX) - excludeTop in
  exists rX rY rZ,
    read readPath addValBot addValTop excludeBot excludeTop
         interpValBot interpValTop timeIndex fs = (inr (rX, rY, rZ), fs) /\
    (interpValTop = true -> 0 < excludeTop ->
     top_interpolated aX rX t /\ top_interpolated aY rY t /\
     top_interpolated aZ rZ t) /\
    (interpValBot = true -> 0 < excludeBot ->
     bot_interpolated aX rX excludeBot /\ bot_interpolated aY rY excludeBot /\
     bot_interpolated aZ rZ excludeBot).
Proof.
  intros Hpad HnY HnZ HT HB Hsum Htwo t.
  apply read_inr in Hpad
    as (_ & uX & uY & uZ & bX & bY & bZ & HX & HY & HZ & PX & PY & PZ & FX & FY & FZ).
  rewrite finished_c_zero in FX, FY, FZ.
  injection FX as ->. injection FY as ->. injection FZ as ->.
  destruct (finished_c_spec excludeBot excludeTop interpValBot interpValTop aX)
    as (rX & RX & _ & TX & BX); try assumption.
  destruct (finished_c_spec excludeBot excludeTop interpValBot interpValTop aY)
    as (rY & RY & _ & TY & BY); rewrite ?HnY; try assumption.
  destruct (finished_c_spec excludeBot excludeTop interpValBot interpValTop aZ)
    as (rZ & RZ & _ & TZ & BZ); rewrite ?HnZ; try assumption.
  rewrite HnY in RY, TY. rewrite HnZ in RZ, TZ.
  exists rX, rY, rZ. split; [| split].
  - apply read_inr. split; [reflexivity |].
    exists uX, uY, uZ, aX, aY, aZ. repeat split; assumption.
  - intros Hi Hpos. repeat split; auto.
  - intros Hi Hpos. repeat split; auto.
Qed.

(** The spec's example: five rows, [excludeTop = 1], [interpValTop]. *)
Lemma interpolation_before_truncation_witness :
  exists rX rY rZ,
    read "db.hdf5" F64.nan F64.nan 0 1 false true 0 ex_fs
      = (inr (rX, rY, rZ), ex_fs) /\
    (true = true -> 0 < 1 ->
     top_interpolated (mk_ndarray 1 [[fl 1]; [fl 2]; [fl 4]; [fl 8]; [fl 16]]) rX 4 /\
     top_interpolated (mk_ndarray 1 [[fl 3]; [fl 6]; [fl 12]; [fl 24]; [fl 48]]) rY 4 /\
     top_interpolated (mk_ndarray 1 [[fl 5]; [fl 10]; [fl 20]; [fl 40]; [fl 80]]) rZ 4) /\
    (false = true -> 0 < 0 ->
     bot_interpolated (mk_ndarray 1 [[fl 1]; [fl 2]; [fl 4]; [fl 8]; [fl 16]]) rX 0 /\
     bot_interpolated (mk_ndarray 1 [[fl 3]; [fl 6]; [fl 12]; [fl 24]; [fl 48]]) rY 0 /\
     bot_interpolated (mk_ndarray 1 [[fl 5]; [fl 10]; [fl 20]; [fl 40]; [fl 80]]) rZ 0).
Proof.
  apply (interpolation_before_truncation ex_fs "db.hdf5" F64.nan F64.nan 0 1
           false true 0
           (mk_ndarray 1 [[fl 1]; [fl 2]; [fl 4]; [fl 8]; [fl 16]])
           (mk_ndarray 1 [[fl 3]; [fl 6]; [fl 12]; [fl 24]; [fl 48]])
           (mk_ndarray 1 [[fl 5]; [fl 10]; [fl 20]; [fl 40]; [fl 80]])).
  - vm_compute. reflexivity.
  - reflexivity.
  - reflexivity.
  - lia.
  - lia.
  - vm_compute. reflexivity.
  - discriminate.
Defined.

(** C1 as stated fails when both interpolations meet in the one row that
    remains: of five rows [1; 2; 4; 8; 16] with [excludeTop = 3] and
    [excludeBot = 1], row 1 first becomes [0.5*(2 + 4) = 3] and then
    [0.5*(1 + 3) = 2]; the returned row is [2], neither [0.5*(a[1] + a[2])]
    nor [0.5*(a[0] + a[1])]. *)
Lemma interpolation_single_row_counterexample :
  let a := mk_ndarray 1 [[fl 1]; [fl 2]; [fl 4]; [fl 8]; [fl 16]] in
  exists aY aZ rX rY rZ,
    read "db.hdf5" F64.nan F64.nan 0 0 true true 0 ex_fs
      = (inr (a, aY, aZ), ex_fs) /\
    read "db.hdf5" F64.nan F64.nan 1 3 true true 0 ex_fs
      = (inr (rX, rY, rZ), ex_fs) /\
    rows rX = [[fl 2]] /\
    ~ top_interpolated a rX (5 - 3) /\
    ~ bot_interpolated a rX 1.
Proof.
  intros a. do 5 eexists.
  split; [vm_compute; reflexivity |].
  split; [vm_compute; reflexivity |].
  split; [vm_compute; reflexivity |].
  split.
  - intros (r1 & r2 & H1 & H2 & H3).
    vm_compute in H1, H2. injection H1 as <-. injection H2 as <-.
    vm_compute in H3. discriminate.
  - intros (r1 & r2 & H1 & H2 & H3).
    vm_compute in H1, H2. injection H1 as <-. injection H2 as <-.
    vm_compute in H3. discriminate.
Qed.

(** ** Row counts *)

Lemma capped_arr_inv aB aT eB eT aY aZ Y4 Z4 :
  capped_arr aB aT eB eT (aY, aZ) = inr (Y4, Z4) ->
  exists Y2 Z2,
    padded_arr aB aT (aY, aZ) = inr (Y2, Z2) /\
    Y4 = cap_bot_c eB (cap_top_c eT (Z.of_nat (nrows Y2) - eT) Y2) /\
    Z4 = cap_bot_c eB (cap_top_c eT (Z.of_nat (nrows Y2) - eT) Z2).
Proof.
  unfold capped_arr.
  destruct (padded_arr aB aT (aY, aZ)) as [e | [Y2 Z2]]; [discriminate |].
  cbn [rbind fst]. rewrite cap_top_arr_pair, cap_bot_arr_pair.
  intros [= <- <-]. exists Y2, Z2. repeat split.
Qed.

Lemma points_arr_inv aB aT eB eT xB xT p Y6 Z6 :
  points_arr aB aT eB eT xB xT p = inr (Y6, Z6) ->
  exists Y4 Y5,
    capped_arr aB aT eB eT p = inr (Y4, Z6) /\
    exchange_bot_arr xB (Y4, Z6) = inr (Y5, Z6) /\
    exchange_top_arr xT (Y5, Z6) = inr (Y6, Z6).
Proof.
  unfold points_arr.
  destruct (capped_arr aB aT eB eT p) as [e | [Y4 Z4]]; [discriminate |].
  cbn [rbind].
  destruct (exchange_bot_arr xB (Y4, Z4)) as [e | [Y5 Z5]] eqn:E5;
    [discriminate |]. cbn [rbind]. intros E6.
  pose proof (exchange_bot_arr_inv _ _ _ _ _ E5) as (-> & _).
  pose proof (exchange_top_arr_inv _ _ _ _ _ E6) as (-> & _).
  exists Y4, Y5. repeat split; assumption.
Qed.

Lemma nrows_capped (a : ndarray) (eB eT : Z) :
  0 <= eT -> 0 <= eB -> eT + eB <= Z.of_nat (nrows a) ->
  Z.of_nat (nrows (cap_bot_c eB (cap_top_c eT (Z.of_nat (nrows a) - eT) a)))
  = Z.of_nat (nrows a) - eT - eB.
Proof. intros HT HB Hsum. now apply (rows_capped a eB eT). Qed.

(** The points reader: row count of both returned arrays. *)
Lemma points_row_count fs readPath aY aZ addValBot addValTop excludeBot
    excludeTop exchangeValBot exchangeValTop pts fs' :
  stored_points fs readPath PointsY = Some aY ->
  stored_points fs readPath PointsZ = Some aZ ->
  nrows aZ = nrows aY ->
  0 <= excludeTop -> 0 <= excludeBot ->
  excludeTop + excludeBot < Z.of_nat (nrows aY + pad_count addValBot addValTop) ->
  read_points_from_hdf5 readPath addValBot addValTop excludeBot excludeTop
    exchangeValBot exchangeValTop fs = (inr pts, fs') ->
  exists pointsY pointsZ,
    contents fs' (fst pts) = Some pointsY /\
    contents fs' (snd pts) = Some pointsZ /\
    Z.of_nat (nrows pointsY)
    = Z.of_nat (nrows aY + pad_count addValBot addValTop)
      - excludeTop - excludeBot /\
    Z.of_nat (nrows pointsZ)
    = Z.of_nat (nrows aY + pad_count addValBot addValTop)
      - excludeTop - excludeBot.
Proof.
  intros HY HZ Hn HT HB Hsum Hrun.
  destruct (read_points_inr _ _ _ _ _ _ _ _ _ _ _ _ HY HZ Hrun)
    as ([Y6 Z6] & Hq & HvY & HvZ & _).
  exists Y6, Z6. split; [exact HvY |]. split; [exact HvZ |].
  apply points_arr_inv in Hq as (Y4 & Y5 & H4 & H5 & H6).
  apply capped_arr_inv in H4 as (Y2 & Z2 & H2 & -> & ->).
  apply padded_arr_shape in H2 as (_ & _ & HnY & HnZ).
  apply exchange_bot_arr_shape in H5 as [H5 _].
  apply exchange_top_arr_shape in H6 as [H6 _]. cbn [fst] in H5, H6.
  apply shape_eq in H5 as [H5 _]. apply shape_eq in H6 as [H6 _].
  rewrite H6, H5. rewrite <- HnY.
  split; [apply nrows_capped; lia |].
  assert (Hsame : nrows Z2 = nrows Y2) by lia.
  rewrite <- Hsame. apply nrows_capped; lia.
Qed.

(** The velocity closure: row count of the three returned arrays. *)
Lemma velocity_row_count fs readPath addValBot addValTop excludeBot excludeTop
    interpValBot interpValTop timeIndex uX uY uZ rX rY rZ fs' :
  slab fs readPath UX timeIndex = Some uX ->
  slab fs readPath UY timeIndex = Some uY ->
  slab fs readPath UZ timeIndex = Some uZ ->
  nrows uY = nrows uX -> nrows uZ = nrows uX ->
  0 <= excludeTop -> 0 <= excludeBot ->
  excludeTop + excludeBot < Z.of_nat (nrows uX + pad_count addValBot addValTop) ->
  read readPath addValBot addValTop excludeBot excludeTop interpValBot
    interpValTop timeIndex fs = (inr (rX, rY, rZ), fs') ->
  let n := Z.of_nat (nrows uX + pad_count addValBot addValTop) in
  Z.of_nat (nrows rX) = n - excludeTop - excludeBot /\
  Z.of_nat (nrows rY) = n - excludeTop - excludeBot /\
  Z.of_nat (nrows rZ) = n - excludeTop - excludeBot.
Proof.
  intros HX HY HZ HnY HnZ HT HB Hsum Hrun n.
  apply read_inr in Hrun
    as (_ & uX' & uY' & uZ' & aX & aY & aZ & HX' & HY' & HZ' & PX & PY & PZ & FX & FY & FZ).
  assert (uX' = uX) as -> by congruence.
  assert (uY' = uY) as -> by congruence.
  assert (uZ' = uZ) as -> by congruence.
  apply padded_c_shape in PX as [_ PX].
  apply padded_c_shape in PY as [_ PY].
  apply padded_c_shape in PZ as [_ PZ].
  assert (EY : nrows aY = nrows aX) by lia.
  assert (EZ : nrows aZ = nrows aX) by lia.
  destruct (finished_c_in_range excludeBot excludeTop interpValBot interpValTop aX)
    as (r & Hr & _ & _ & Hn); [lia .. |].
  rewrite FX in Hr. injection Hr as <-.
  destruct (finished_c_in_range excludeBot excludeTop interpValBot interpValTop aY)
    as (r & Hr & _ & _ & Hn'); [lia .. |].
  rewrite EY, FY in Hr. injection Hr as <-.
  destruct (finished_c_in_range excludeBot excludeTop interpValBot interpValTop aZ)
    as (r & Hr & _ & _ & Hn''); [lia .. |].
  rewrite EZ, FZ in Hr. injection Hr as <-.
  unfold n. lia.
Qed.

(** C2. With [excludeTop >= 0], [excludeBot >= 0] and
    [excludeTop + excludeBot < nPointsY], where [nPointsY] is the row count
    after padding (the stored row count plus one for each add value that is
    set), every array returned by the points reader and by the velocity
    closure has [nPointsY - excludeTop - excludeBot] rows. *)
Theorem returned_row_count :
  (forall fs readPath aY aZ addValBot addValTop excludeBot excludeTop
          exchangeValBot exchangeValTop pts fs',
      stored_points fs readPath PointsY = Some aY ->
      stored_points fs readPath PointsZ = Some aZ ->
      nrows aZ = nrows aY ->
      0 <= excludeTop -> 0 <= excludeBot ->
      excludeTop + excludeBot
      < Z.of_nat (nrows aY + pad_count addValBot addValTop) ->
      read_points_from_hdf5 readPath addValBot addValTop excludeBot excludeTop
        exchangeValBot exchangeValTop fs = (inr pts, fs') ->
      exists pointsY pointsZ,
        contents fs' (fst pts) = Some pointsY /\
        contents fs' (snd pts) = Some pointsZ /\
        Z.of_nat (nrows pointsY)
        = Z.of_nat (nrows aY + pad_count addValBot addValTop)
          - excludeTop - excludeBot /\
        Z.of_nat (nrows pointsZ)
        = Z.of_nat (nrows aY + pad_count addValBot addValTop)
          - excludeTop - excludeBot) /\
  (forall fs readPath addValBot addValTop excludeBot excludeTop
          interpValBot interpValTop timeIndex uX uY uZ rX rY rZ fs',
      slab fs readPath UX timeIndex = Some uX ->
      slab fs readPath UY timeIndex = Some uY ->
      slab fs readPath UZ timeIndex = Some uZ ->
      nrows uY = nrows uX -> nrows uZ = nrows uX ->
      0 <= excludeTop -> 0 <= excludeBot ->
      excludeTop + excludeBot
      < Z.of_nat (nrows uX + pad_count addValBot addValTop) ->
      read readPath addValBot addValTop excludeBot excludeTop interpValBot
        interpValTop timeIndex fs = (inr (rX, rY, rZ), fs') ->
      let n := Z.of_nat (nrows uX + pad_count addValBot addValTop) in
      Z.of_nat (nrows rX) = n - excludeTop - excludeBot /\
      Z.of_nat (nrows rY) = n - excludeTop - excludeBot /\
      Z.of_nat (nrows rZ) = n - excludeTop - excludeBot).
Proof.
  split.
  - intros. eapply points_row_count; eassumption.
  - intros. eapply velocity_row_count; eassumption.
Qed.

(** One row added below, one row excluded at each end, for both readers. *)
Lemma returned_row_count_witness :
  (exists pts fs',
      read_points_from_hdf5 "db.hdf5" (fl 7) F64.nan 1 1 F64.nan (fl 9) ex_fs
        = (inr pts, fs') /\
      exists pointsY pointsZ,
        contents fs' (fst pts) = Some pointsY /\
        contents fs' (snd pts) = Some pointsZ /\
        Z.of_nat (nrows pointsY)
        = Z.of_nat (nrows ex_pointsY + pad_count (fl 7) F64.nan) - 1 - 1 /\
        Z.of_nat (nrows pointsZ)
        = Z.of_nat (nrows ex_pointsY + pad_count (fl 7) F64.nan) - 1 - 1) /\
  (exists rX rY rZ fs',
      read "db.hdf5" (fl 7) F64.nan 1 1 true true 0 ex_fs
        = (inr (rX, rY, rZ), fs') /\
      Z.of_nat (nrows rX) = 6 - 1 - 1 /\
      Z.of_nat (nrows rY) = 6 - 1 - 1 /\
      Z.of_nat (nrows rZ) = 6 - 1 - 1).
Proof.
  split.
  - do 2 eexists. split; [vm_compute; reflexivity |].
    apply (proj1 returned_row_count ex_fs "db.hdf5" ex_pointsY ex_pointsZ
             (fl 7) F64.nan 1 1 F64.nan (fl 9)).
    + reflexivity.
    + reflexivity.
    + reflexivity.
    + lia.
    + lia.
    + vm_compute. reflexivity.
    + vm_compute. reflexivity.
  - do 4 eexists. split; [vm_compute; reflexivity |].
    eapply (proj2 returned_row_count ex_fs "db.hdf5" (fl 7) F64.nan 1 1
             true true 0
             (mk_ndarray 1 [[fl 1]; [fl 2]; [fl 4]; [fl 8]; [fl 16]])
             (mk_ndarray 1 [[fl 3]; [fl 6]; [fl 12]; [fl 24]; [fl 48]])
             (mk_ndarray 1 [[fl 5]; [fl 10]; [fl 20]; [fl 40]; [fl 80]])).
    + vm_compute. reflexivity.
    + vm_compute. reflexivity.
    + vm_compute. reflexivity.
    + reflexivity.
    + reflexivity.
    + lia.
    + lia.
    + vm_compute. reflexivity.
    + vm_compute. reflexivity.
Defined.

(** ** Determinism of the velocity closure *)

(** C9. The velocity closure is deterministic and stateless: a call leaves
    the file system as it found it, so a second call with the same
    [timeIndex], made after the first, meets the same store and returns the
    same outcome, the triple [uX, uY, uZ] included. *)
Theorem read_twice readPath addValBot addValTop excludeBot excludeTop
    interpValBot interpValTop timeIndex fs :
  let rd := call (read_velocity_from_hdf5 readPath addValBot addValTop
                    excludeBot excludeTop interpValBot interpValTop) in
  snd (rd timeIndex fs) = fs /\
  rd timeIndex (snd (rd timeIndex fs)) = rd timeIndex fs.
Proof.
  intros rd. unfold rd, read_velocity_from_hdf5, call.
  pose proof (readonly_read readPath addValBot addValTop excludeBot excludeTop
                interpValBot interpValTop timeIndex fs) as H.
  split; [exact H |]. now rewrite H.
Qed.

(** ** Padding in the points reader *)

Lemma scaled_row (v : float) (n : nat) :
  F64.is_binary64 v = true ->
  F64.mul v <$> replicate n F64.one = replicate n v.
Proof. intros Hv. rewrite fmap_replicate. now rewrite mul_one. Qed.

(** The arrays after the two padding blocks, row by row. *)
Lemma padded_arr_inv aB aT aY aZ Y2 Z2 :
  F64.is_binary64 aB = true -> F64.is_binary64 aT = true ->
  padded_arr aB aT (aY, aZ) = inr (Y2, Z2) ->
  Y2 = mk_ndarray (ncols aY)
         (boundary aB (replicate (ncols aY) aB) ++ rows aY
          ++ boundary aT (replicate (ncols aY) aT)) /\
  Z2 = mk_ndarray (ncols aZ)
         (boundary aB (row_at aZ 0) ++ rows aZ ++ boundary aT (row_at aZ 0)).
Proof.
  intros HvB HvT. unfold padded_arr. cbn [fst].
  destruct (add_bot_arr aB (ncols aY) (aY, aZ)) as [e | [Y1 Z1]] eqn:E1;
    [discriminate |]. cbn [rbind]. intros E2.
  apply add_bot_arr_inv in E1 as (Hc1 & Hd1 & Hr1 & Hs1 & _).
  apply add_top_arr_inv in E2 as (Hc2 & Hd2 & Hr2 & Hs2 & _).
  rewrite scaled_row in Hr1, Hr2 by assumption.
  rewrite <- row_at_0 in Hs1.
  assert (Hh : default [] (head (rows Z1)) = row_at aZ 0).
  { rewrite Hs1, row_at_0. unfold boundary.
    destruct (F64.isnan aB); [reflexivity |]. simpl.
    now rewrite <- row_at_0. }
  rewrite Hh in Hs2. split; apply ndarray_eta; try congruence.
  - now rewrite Hr2, Hr1, <- app_assoc.
  - now rewrite Hs2, Hs1, <- app_assoc.
Qed.

Lemma points_arr_padding_only aB aT p :
  points_arr aB aT 0 0 F64.nan F64.nan p = padded_arr aB aT p.
Proof.
  unfold points_arr, capped_arr.
  destruct (padded_arr aB aT p) as [e | p2]; reflexivity.
Qed.

(** C3. In the points reader the padding blocks do the following, for
    every pair of arrays that the variables show. When [addValBot] is set,
    [pointsY] gets a new first row filled with [addValBot] and [pointsZ] a
    new first row that is a copy of its current first row. When [addValTop]
    is set, [pointsY] gets a new last row filled with [addValTop] and
    [pointsZ] a new last row that is a copy of its current first row, not of
    its last row. With nothing excluded or exchanged the reader returns
    these padded arrays: pointsY with the add values around the stored rows,
    pointsZ with the stored first row on each padded side. *)
Theorem padding_rows :
  (forall v n fs pts aY aZ pts' fs',
      views fs pts (aY, aZ) ->
      F64.isnan v = false -> F64.is_binary64 v = true ->
      add_bot v n pts fs = (inr pts', fs') ->
      fs' = fs /\
      contents fs (fst pts')
      = Some (mk_ndarray (ncols aY) (replicate (ncols aY) v :: rows aY)) /\
      contents fs (snd pts')
      = Some (mk_ndarray (ncols aZ) (row_at aZ 0 :: rows aZ)) /\
      head (rows aZ) = Some (row_at aZ 0)) /\
  (forall v n fs pts aY aZ pts' fs',
      views fs pts (aY, aZ) ->
      F64.isnan v = false -> F64.is_binary64 v = true ->
      add_top v n pts fs = (inr pts', fs') ->
      fs' = fs /\
      contents fs (fst pts')
      = Some (mk_ndarray (ncols aY) (rows aY ++ [replicate (ncols aY) v])) /\
      contents fs (snd pts')
      = Some (mk_ndarray (ncols aZ) (rows aZ ++ [row_at aZ 0])) /\
      head (rows aZ) = Some (row_at aZ 0)) /\
  (forall fs readPath aY aZ addValBot addValTop pts fs',
      stored_points fs readPath PointsY = Some aY ->
      stored_points fs readPath PointsZ = Some aZ ->
      F64.is_binary64 addValBot = true -> F64.is_binary64 addValTop = true ->
      read_points_from_hdf5 readPath addValBot addValTop 0 0 F64.nan F64.nan fs
        = (inr pts, fs') ->
      fs' = fs /\
      contents fs (fst pts)
      = Some (mk_ndarray (ncols aY)
                (boundary addValBot (replicate (ncols aY) addValBot)
                 ++ rows aY
                 ++ boundary addValTop (replicate (ncols aY) addValTop))) /\
      contents fs (snd pts)
      = Some (mk_ndarray (ncols aZ)
                (boundary addValBot (row_at aZ 0) ++ rows aZ
                 ++ boundary addValTop (row_at aZ 0)))).
Proof.
  repeat apply conj.
  - intros v n fs pts aY aZ pts' fs' Hv Hnan Hbin Hrun.
    pose proof (readonly_add_bot v n pts fs) as Hfs.
    rewrite Hrun in Hfs. cbn in Hfs. subst fs'. split; [reflexivity |].
    pose proof (add_bot_sim v fs n pts (aY, aZ) Hv) as Hsim.
    unfold sim in Hsim. rewrite Hrun in Hsim.
    destruct (add_bot_arr v n (aY, aZ)) as [e | [Y1 Z1]] eqn:E;
      [contradiction |].
    destruct Hsim as (HY & HZ & _). cbn [fst snd] in HY, HZ.
    apply add_bot_arr_inv in E as (Hc & Hd & Hr & Hs & Hn).
    destruct (Hn Hnan) as (-> & z0 & Hz0 & _).
    rewrite scaled_row in Hr by assumption. rewrite <- row_at_0 in Hs.
    unfold boundary in Hr, Hs. rewrite Hnan in Hr, Hs.
    rewrite HY, HZ. rewrite row_at_0, Hz0. simpl.
    rewrite row_at_0, Hz0 in Hs. simpl in Hs.
    repeat split; f_equal; now apply ndarray_eta.
  - intros v n fs pts aY aZ pts' fs' Hv Hnan Hbin Hrun.
    pose proof (readonly_add_top v n pts fs) as Hfs.
    rewrite Hrun in Hfs. cbn in Hfs. subst fs'. split; [reflexivity |].
    pose proof (add_top_sim v fs n pts (aY, aZ) Hv) as Hsim.
    unfold sim in Hsim. rewrite Hrun in Hsim.
    destruct (add_top_arr v n (aY, aZ)) as [e | [Y1 Z1]] eqn:E;
      [contradiction |].
    destruct Hsim as (HY & HZ & _). cbn [fst snd] in HY, HZ.
    apply add_top_arr_inv in E as (Hc & Hd & Hr & Hs & Hn).
    destruct (Hn Hnan) as (-> & z0 & Hz0 & _).
    rewrite scaled_row in Hr by assumption. rewrite <- row_at_0 in Hs.
    unfold boundary in Hr, Hs. rewrite Hnan in Hr, Hs.
    rewrite HY, HZ. rewrite row_at_0, Hz0. simpl.
    rewrite row_at_0, Hz0 in Hs. simpl in Hs.
    repeat split; f_equal; now apply ndarray_eta.
  - intros fs readPath aY aZ aB aT pts fs' HY HZ HbB HbT Hrun.
    destruct (stored_points_inv _ _ _ _ HY) as (f & _ & Hf & _).
    pose proof (read_points_readonly fs readPath f aB aT 0 0 Hf) as Hfs.
    rewrite Hrun in Hfs. cbn in Hfs. subst fs'. split; [reflexivity |].
    destruct (read_points_inr _ _ _ _ _ _ _ _ _ _ _ _ HY HZ Hrun)
      as ([Y2 Z2] & Hq & HvY & HvZ & _).
    rewrite points_arr_padding_only in Hq.
    apply padded_arr_inv in Hq as [-> ->]; try assumption.
    split; assumption.
Qed.

(** The spec's example: a row of [7] below and above the 3 x 2 grid. *)
Lemma padding_rows_witness :
  (exists pts' fs',
      add_bot (fl 7) 2 (Dataset "db.hdf5" PointsY, Dataset "db.hdf5" PointsZ)
        ex_fs = (inr pts', fs') /\
      fs' = ex_fs /\
      contents ex_fs (fst pts')
      = Some (mk_ndarray 2 (replicate 2 (fl 7) :: rows ex_pointsY)) /\
      contents ex_fs (snd pts')
      = Some (mk_ndarray 2 (row_at ex_pointsZ 0 :: rows ex_pointsZ)) /\
      head (rows ex_pointsZ) = Some (row_at ex_pointsZ 0)) /\
  (exists pts' fs',
      add_top (fl 7) 2 (Dataset "db.hdf5" PointsY, Dataset "db.hdf5" PointsZ)
        ex_fs = (inr pts', fs') /\
      fs' = ex_fs /\
      contents ex_fs (fst pts')
      = Some (mk_ndarray 2 (rows ex_pointsY ++ [replicate 2 (fl 7)])) /\
      contents ex_fs (snd pts')
      = Some (mk_ndarray 2 (rows ex_pointsZ ++ [row_at ex_pointsZ 0])) /\
      head (rows ex_pointsZ) = Some (row_at ex_pointsZ 0)) /\
  (exists pts fs',
      read_points_from_hdf5 "db.hdf5" (fl 7) (fl 9) 0 0 F64.nan F64.nan ex_fs
        = (inr pts, fs') /\
      fs' = ex_fs /\
      contents ex_fs (fst pts)
      = Some (mk_ndarray 2
                ([fl 7; fl 7] :: rows ex_pointsY ++ [[fl 9; fl 9]])) /\
      contents ex_fs (snd pts)
      = Some (mk_ndarray 2
                ([fl 10; fl 20] :: rows ex_pointsZ ++ [[fl 10; fl 20]]))).
Proof.
  assert (Hv : views ex_fs (Dataset "db.hdf5" PointsY, Dataset "db.hdf5" PointsZ)
                 (ex_pointsY, ex_pointsZ)) by (repeat split; reflexivity).
  repeat apply conj.
  - do 2 eexists. split; [vm_compute; reflexivity |].
    eapply (proj1 padding_rows (fl 7) 2%nat ex_fs _ ex_pointsY ex_pointsZ).
    + exact Hv.
    + reflexivity.
    + reflexivity.
    + vm_compute. reflexivity.
  - do 2 eexists. split; [vm_compute; reflexivity |].
    eapply (proj1 (proj2 padding_rows) (fl 7) 2%nat ex_fs _ ex_pointsY ex_pointsZ).
    + exact Hv.
    + reflexivity.
    + reflexivity.
    + vm_compute. reflexivity.
  - do 2 eexists. split; [vm_compute; reflexivity |].
    eapply (proj2 (proj2 padding_rows) ex_fs "db.hdf5" ex_pointsY ex_pointsZ
              (fl 7) (fl 9)).
    + reflexivity.
    + reflexivity.
    + reflexivity.
    + reflexivity.
    + vm_compute. reflexivity.
Defined.

(** The shape invariant on the example store, through each block and
    through the whole reader. *)
Lemma points_shape_invariant_witness :
  same_shape ex_fs
    (Ndarray (mk_ndarray 2 ([fl 7; fl 7] :: rows ex_pointsY)),
     Ndarray (mk_ndarray 2 ([fl 10; fl 20] :: rows ex_pointsZ))) /\
  (exists pts fs',
      read_points_from_hdf5 "db.hdf5" (fl 7) (fl 9) 1 2 (fl 5) (fl 6) ex_fs
        = (inr pts, fs') /\
      same_shape fs' pts).
Proof.
  assert (Hs : same_shape ex_fs
                 (Dataset "db.hdf5" PointsY, Dataset "db.hdf5" PointsZ)).
  { exists (ex_pointsY, ex_pointsZ). repeat split; reflexivity. }
  split.
  - eapply (proj1 points_shape_invariant (fl 7) 2%nat ex_fs _ _ ex_fs Hs).
    vm_compute. reflexivity.
  - do 2 eexists. split; [vm_compute; reflexivity |].
    eapply (proj2 (proj2 (proj2 (proj2 (proj2 (proj2 points_shape_invariant)))))
              ex_fs "db.hdf5" ex_pointsY ex_pointsZ (fl 7) (fl 9) 1 2 (fl 5) (fl 6)).
    + reflexivity.
    + reflexivity.
    + reflexivity.
    + vm_compute. reflexivity.
Defined.

(** ** Padding and trimming the same row *)

(** On arrays: a row added below and one row excluded below. *)
Lemma round_trip_bot_arr v aY aZ :
  F64.isnan v = false -> wf_ndarray aZ -> (0 < nrows aZ)%nat ->
  points_arr v F64.nan 1 0 F64.nan F64.nan (aY, aZ) = inr (aY, aZ).
Proof.
  intros Hnan Hwf Hpos.
  unfold points_arr, capped_arr, padded_arr, add_bot_arr, add_top_arr.
  rewrite Hnan. cbn [negb fst snd F64.isnan F64.nan].
  rewrite append_rows_same by reflexivity. cbn [rbind].
  rewrite (proj1 (getrow_row_at aZ 0 ltac:(lia))). cbn [rbind].
  rewrite append_rows_same by (cbn; now apply first_row_length).
  cbn [rbind fst]. unfold cap_top_arr, cap_bot_arr, exchange_bot_arr,
    exchange_top_arr. cbn [Z.eqb negb fst snd F64.isnan F64.nan rbind].
  unfold rows_from, nrows. cbn [rows ncols scaled_ones array_of_row length app].
  rewrite !py_slice_bound_nonneg by lia. cbn [Z.to_nat Pos.to_nat Pos.iter_op
    Nat.add drop]. rewrite first_row_length by assumption.
  now rewrite !ndarray_eta'.
Qed.

(** On arrays: a row added above and one row excluded above. *)
Lemma round_trip_top_arr v aY aZ :
  F64.isnan v = false -> wf_ndarray aZ -> (0 < nrows aZ)%nat ->
  nrows aZ = nrows aY ->
  points_arr F64.nan v 0 1 F64.nan F64.nan (aY, aZ) = inr (aY, aZ).
Proof.
  intros Hnan Hwf Hpos Hn.
  unfold points_arr, capped_arr, padded_arr, add_bot_arr, add_top_arr.
  rewrite Hnan. cbn [negb fst snd F64.isnan F64.nan rbind].
  rewrite append_rows_same by reflexivity. cbn [rbind].
  rewrite (proj1 (getrow_row_at aZ 0 ltac:(lia))). cbn [rbind].
  rewrite append_rows_same by (cbn; now rewrite first_row_length).
  cbn [rbind fst]. unfold cap_top_arr, cap_bot_arr, exchange_bot_arr,
    exchange_top_arr. cbn [Z.eqb negb fst snd F64.isnan F64.nan rbind].
  unfold rows_upto, nrows. cbn [rows ncols scaled_ones array_of_row].
  rewrite !length_app. cbn [length].
  rewrite !py_slice_bound_nonneg by (unfold nrows in *; lia).
  replace (Z.to_nat (Z.of_nat (length (rows aY) + 1) - 1)) with (length (rows aY))
    by lia.
  rewrite take_app_length.
  unfold nrows in Hn. rewrite <- Hn, take_app_length.
  now rewrite !ndarray_eta'.
Qed.

(** C5 (amended). Round-trip law for the points reader, for every stored
    [pointsY] and [pointsZ] of equal row count with at least one row, and
    every value [v] that is not NaN: with [addValBot = v] and
    [excludeBot = 1] and nothing else set the reader returns the stored
    content of both arrays; with [addValTop = v] and [excludeTop = 1] it
    does so too; this is the content that a call with every option unset
    returns, so no row, at either boundary, is affected. The store is left
    as it was. *)
Theorem pad_then_trim fs readPath aY aZ v :
  stored_points fs readPath PointsY = Some aY ->
  stored_points fs readPath PointsZ = Some aZ ->
  wf_ndarray aZ -> (0 < nrows aZ)%nat -> nrows aZ = nrows aY ->
  F64.isnan v = false ->
  (exists pts,
      read_points_from_hdf5 readPath v F64.nan 1 0 F64.nan F64.nan fs
        = (inr pts, fs) /\
      contents fs (fst pts) = Some aY /\ contents fs (snd pts) = Some aZ) /\
  (exists pts,
      read_points_from_hdf5 readPath F64.nan v 0 1 F64.nan F64.nan fs
        = (inr pts, fs) /\
      contents fs (fst pts) = Some aY /\ contents fs (snd pts) = Some aZ) /\
  (exists pts,
      read_points_from_hdf5 readPath F64.nan F64.nan 0 0 F64.nan F64.nan fs
        = (inr pts, fs) /\
      contents fs (fst pts) = Some aY /\ contents fs (snd pts) = Some aZ).
Proof.
  intros HY HZ Hwf Hpos Hn Hnan.
  destruct (stored_points_inv _ _ _ _ HY) as (f & _ & Hf & _).
  assert (Hrun : forall aB aT eB eT,
             points_arr aB aT eB eT F64.nan F64.nan (aY, aZ) = inr (aY, aZ) ->
             exists pts,
               read_points_from_hdf5 readPath aB aT eB eT F64.nan F64.nan fs
                 = (inr pts, fs) /\
               contents fs (fst pts) = Some aY /\
               contents fs (snd pts) = Some aZ).
  { intros aB aT eB eT Harr.
    destruct (read_points_of_arr fs readPath aY aZ aB aT eB eT F64.nan F64.nan
                _ HY HZ Harr) as (pts & fs' & Hr & HvY & HvZ & _).
    pose proof (read_points_readonly fs readPath f aB aT eB eT Hf) as Hfs.
    rewrite Hr in Hfs. cbn in Hfs. subst fs'. eauto. }
  repeat apply conj; apply Hrun.
  - now apply round_trip_bot_arr.
  - now apply round_trip_top_arr.
  - reflexivity.
Qed.

Lemma ex_pointsZ_wf : wf_ndarray ex_pointsZ.
Proof. repeat constructor. Qed.

Lemma pad_then_trim_witness :
  (exists pts,
      read_points_from_hdf5 "db.hdf5" (fl 7) F64.nan 1 0 F64.nan F64.nan ex_fs
        = (inr pts, ex_fs) /\
      contents ex_fs (fst pts) = Some ex_pointsY /\
      contents ex_fs (snd pts) = Some ex_pointsZ) /\
  (exists pts,
      read_points_from_hdf5 "db.hdf5" F64.nan (fl 7) 0 1 F64.nan F64.nan ex_fs
        = (inr pts, ex_fs) /\
      contents ex_fs (fst pts) = Some ex_pointsY /\
      contents ex_fs (snd pts) = Some ex_pointsZ) /\
  (exists pts,
      read_points_from_hdf5 "db.hdf5" F64.nan F64.nan 0 0 F64.nan F64.nan ex_fs
        = (inr pts, ex_fs) /\
      contents ex_fs (fst pts) = Some ex_pointsY /\
      contents ex_fs (snd pts) = Some ex_pointsZ).
Proof.
  apply (pad_then_trim ex_fs "db.hdf5" ex_pointsY ex_pointsZ (fl 7)).
  - reflexivity.
  - reflexivity.
  - exact ex_pointsZ_wf.
  - vm_compute. lia.
  - reflexivity.
  - reflexivity.
Defined.

(** C5 as stated, for every stored array and every value, fails twice.
    On a store whose datasets have no rows, [addValBot = 7] with
    [excludeBot = 1] raises [IndexError] at [pointsZ[0, :]], while the call
    with every option unset returns. And with the value NaN nothing is
    added, so [excludeBot = 1] removes the first stored row. *)
Lemma pad_then_trim_counterexample :
  (fst (read_points_from_hdf5 "db.hdf5" (fl 7) F64.nan 1 0 F64.nan F64.nan
          ex_empty_fs) = inl IndexError /\
   fst (read_points_from_hdf5 "db.hdf5" F64.nan F64.nan 0 0 F64.nan F64.nan
          ex_empty_fs)
   = inr (Dataset "db.hdf5" PointsY, Dataset "db.hdf5" PointsZ)) /\
  (exists pts,
      read_points_from_hdf5 "db.hdf5" F64.nan F64.nan 1 0 F64.nan F64.nan ex_fs
        = (inr pts, ex_fs) /\
      contents ex_fs (fst pts)
      = Some (mk_ndarray 2 [[fl 2; fl 2]; [fl 3; fl 3]]) /\
      contents ex_fs (fst pts) <> Some ex_pointsY).
Proof.
  split; [split; vm_compute; reflexivity |].
  eexists. split; [vm_compute; reflexivity |].
  split; [vm_compute; reflexivity |].
  vm_compute. discriminate.
Qed.

(** ** Exchanging the boundary values *)

Lemma points_arr_no_exchange aB aT eB eT p :
  points_arr aB aT eB eT F64.nan F64.nan p = capped_arr aB aT eB eT p.
Proof.
  unfold points_arr. now destruct (capped_arr aB aT eB eT p).
Qed.

(** The rows of [pointsY] after the two exchange blocks. *)
Lemma exchanged_rows xB xT Y4 Y5 Y6 Z :
  exchange_bot_arr xB (Y4, Z) = inr (Y5, Z) ->
  exchange_top_arr xT (Y5, Z) = inr (Y6, Z) ->
  shape Y6 = shape Y4 /\
  (forall i : nat,
      (i = 0%nat -> F64.isnan xB = true) ->
      (i = (nrows Y4 - 1)%nat -> F64.isnan xT = true) ->
      rows Y6 !! i = rows Y4 !! i) /\
  (F64.isnan xT = false ->
   last (rows Y6) = Some (replicate (ncols Y4) xT)) /\
  (F64.isnan xB = false -> F64.isnan xT = true \/ (1 < nrows Y4)%nat ->
   head (rows Y6) = Some (replicate (ncols Y4) xB)).
Proof.
  intros E5 E6.
  pose proof (exchange_bot_arr_shape _ _ _ E5) as [S5 _].
  pose proof (exchange_top_arr_shape _ _ _ E6) as [S6 _].
  cbn [fst] in S5, S6.
  apply exchange_bot_arr_inv in E5 as (_ & C5 & R5 & P5).
  apply exchange_top_arr_inv in E6 as (_ & C6 & R6 & P6).
  assert (N5 : nrows Y5 = nrows Y4) by (now apply shape_eq in S5).
  assert (L5 : length (rows Y5) = nrows Y4) by exact N5.
  rewrite N5, C5 in R6.
  split; [congruence |]. split; [| split].
  - intros i HB HT. rewrite R6, R5.
    destruct (F64.isnan xT) eqn:ET, (F64.isnan xB) eqn:EB; try reflexivity.
    + apply list_lookup_insert_ne. intros <-. now specialize (HB eq_refl).
    + apply list_lookup_insert_ne. intros <-. now specialize (HT eq_refl).
    + rewrite list_lookup_insert_ne
        by (intros <-; now specialize (HT eq_refl)).
      apply list_lookup_insert_ne. intros <-. now specialize (HB eq_refl).
  - intros ET. specialize (P6 ET). rewrite ET in R6.
    rewrite last_lookup, R6, length_insert, L5.
    replace (pred (nrows Y4)) with (nrows Y4 - 1)%nat by lia.
    apply list_lookup_insert_eq. lia.
  - intros EB Hcase. specialize (P5 EB). rewrite EB in R5.
    rewrite head_lookup, R6.
    assert (H0 : rows Y5 !! 0%nat = Some (replicate (ncols Y4) xB)).
    { rewrite R5. apply list_lookup_insert_eq. unfold nrows in P5. lia. }
    destruct (F64.isnan xT) eqn:ET; [exact H0 |].
    destruct Hcase as [? | Hlt]; [discriminate |].
    rewrite list_lookup_insert_ne by lia. exact H0.
Qed.

(** C6. In every call of the points reader that returns, compare the
    result with that of the same call without exchange values. [pointsZ] is
    the same. [pointsY] has the same shape and the same rows, except row 0
    when [exchangeValBot] is set and the last row when [exchangeValTop] is
    set; the last row is then filled with [exchangeValTop], and row 0 is
    filled with [exchangeValBot] (unless it is also the last row and
    [exchangeValTop] is set). *)
Theorem exchange_frame fs readPath aY aZ addValBot addValTop excludeBot
    excludeTop exchangeValBot exchangeValTop pts fs' :
  stored_points fs readPath PointsY = Some aY ->
  stored_points fs readPath PointsZ = Some aZ ->
  read_points_from_hdf5 readPath addValBot addValTop excludeBot excludeTop
    exchangeValBot exchangeValTop fs = (inr pts, fs') ->
  exists pts0 pointsY0 pointsZ0 pointsY,
    read_points_from_hdf5 readPath addValBot addValTop excludeBot excludeTop
      F64.nan F64.nan fs = (inr pts0, fs) /\
    contents fs (fst pts0) = Some pointsY0 /\
    contents fs (snd pts0) = Some pointsZ0 /\
    contents fs' (fst pts) = Some pointsY /\
    contents fs' (snd pts) = Some pointsZ0 /\
    shape pointsY = shape pointsY0 /\
    (forall i : nat,
        (i = 0%nat -> F64.isnan exchangeValBot = true) ->
        (i = (nrows pointsY0 - 1)%nat -> F64.isnan exchangeValTop = true) ->
        rows pointsY !! i = rows pointsY0 !! i) /\
    (F64.isnan exchangeValTop = false ->
     last (rows pointsY) = Some (replicate (ncols pointsY0) exchangeValTop)) /\
    (F64.isnan exchangeValBot = false ->
     F64.isnan exchangeValTop = true \/ (1 < nrows pointsY0)%nat ->
     head (rows pointsY) = Some (replicate (ncols pointsY0) exchangeValBot)).
Proof.
  intros HY HZ Hrun.
  destruct (read_points_inr _ _ _ _ _ _ _ _ _ _ _ _ HY HZ Hrun)
    as ([Y6 Z6] & Hq & HvY & HvZ & _). cbn [fst snd] in HvY, HvZ.
  apply points_arr_inv in Hq as (Y4 & Y5 & H4 & H5 & H6).
  assert (H0 : points_arr addValBot addValTop excludeBot excludeTop
                 F64.nan F64.nan (aY, aZ) = inr (Y4, Z6))
    by (now rewrite points_arr_no_exchange).
  destruct (read_points_of_arr fs readPath aY aZ _ _ _ _ _ _ _ HY HZ H0)
    as (pts0 & fs0 & Hr0 & HvY0 & HvZ0 & _). cbn [fst snd] in HvY0, HvZ0.
  destruct (stored_points_inv _ _ _ _ HY) as (f & _ & Hf & _).
  pose proof (read_points_readonly fs readPath f addValBot addValTop
                excludeBot excludeTop Hf) as Hfs.
  rewrite Hr0 in Hfs. cbn in Hfs. subst fs0.
  exists pts0, Y4, Z6, Y6.
  destruct (exchanged_rows _ _ _ _ _ _ H5 H6) as (S & Fr & T & B).
  repeat split; assumption.
Qed.

(** Both values exchanged on the closed store: rows 0 and 2 are replaced,
    row 1 and pointsZ are not. *)
Lemma exchange_frame_witness :
  exists pts fs' pts0 pointsY0 pointsZ0 pointsY,
    read_points_from_hdf5 "db.hdf5" F64.nan F64.nan 0 0 (fl 5) (fl 6) ex_fs
      = (inr pts, fs') /\
    read_points_from_hdf5 "db.hdf5" F64.nan F64.nan 0 0 F64.nan F64.nan ex_fs
      = (inr pts0, ex_fs) /\
    contents ex_fs (fst pts0) = Some pointsY0 /\
    contents ex_fs (snd pts0) = Some pointsZ0 /\
    contents fs' (fst pts) = Some pointsY /\
    contents fs' (snd pts) = Some pointsZ0 /\
    shape pointsY = shape pointsY0 /\
    (forall i : nat,
        (i = 0%nat -> F64.isnan (fl 5) = true) ->
        (i = (nrows pointsY0 - 1)%nat -> F64.isnan (fl 6) = true) ->
        rows pointsY !! i = rows pointsY0 !! i) /\
    (F64.isnan (fl 6) = false ->
     last (rows pointsY) = Some (replicate (ncols pointsY0) (fl 6))) /\
    (F64.isnan (fl 5) = false ->
     F64.isnan (fl 6) = true \/ (1 < nrows pointsY0)%nat ->
     head (rows pointsY) = Some (replicate (ncols pointsY0) (fl 5))).
Proof.
  do 2 eexists.
  assert (Hrun : read_points_from_hdf5 "db.hdf5" F64.nan F64.nan 0 0
                   (fl 5) (fl 6) ex_fs = (inr _, _))
    by (vm_compute; reflexivity).
  destruct (exchange_frame ex_fs "db.hdf5" ex_pointsY ex_pointsZ F64.nan F64.nan
              0 0 (fl 5) (fl 6) _ _ eq_refl eq_refl Hrun)
    as (pts0 & Y0 & Z0 & Y1 & H).
  exists pts0, Y0, Z0, Y1. split; [exact Hrun | exact H].
Defined.

(** ** NaN as the unset value *)

(** C10. NaN is the unset value at the public interface. For every NaN
    [v], passing [v] for [addValBot], [addValTop], [exchangeValBot] or
    [exchangeValTop] of the points reader, or for [addValBot] or
    [addValTop] of the velocity reader, is the same call as omitting the
    argument; and the padding and exchange blocks given [v] return the
    arrays as they are, so that no row is added or exchanged. *)
Theorem nan_is_unset (v : float) :
  F64.isnan v = true ->
  (forall p aB aT eB eT xB xT,
      read_points_from_hdf5_kw p (Some v) aT eB eT xB xT
      = read_points_from_hdf5_kw p None aT eB eT xB xT /\
      read_points_from_hdf5_kw p aB (Some v) eB eT xB xT
      = read_points_from_hdf5_kw p aB None eB eT xB xT /\
      read_points_from_hdf5_kw p aB aT eB eT (Some v) xT
      = read_points_from_hdf5_kw p aB aT eB eT None xT /\
      read_points_from_hdf5_kw p aB aT eB eT xB (Some v)
      = read_points_from_hdf5_kw p aB aT eB eT xB None) /\
  (forall p aB aT eB eT iB iT,
      read_velocity_from_hdf5_kw p (Some v) aT eB eT iB iT
      = read_velocity_from_hdf5_kw p None aT eB eT iB iT /\
      read_velocity_from_hdf5_kw p aB (Some v) eB eT iB iT
      = read_velocity_from_hdf5_kw p aB None eB eT iB iT) /\
  (forall n pts,
      add_bot v n pts = ret pts /\ add_top v n pts = ret pts /\
      exchange_bot v pts = ret pts /\ exchange_top v pts = ret pts) /\
  (forall n u, add_bot_u v n u = ret u /\ add_top_u v n u = ret u).
Proof.
  intros Hv. apply isnan_eq in Hv as ->.
  split; [| split; [| split]].
  - intros. repeat split.
  - intros. repeat split.
  - intros n [pointsY pointsZ]. repeat split.
  - intros n [[uX uY] uZ]. split; reflexivity.
Qed.

Lemma nan_is_unset_witness :
  (forall n pts,
      add_bot F64.nan n pts = ret pts /\ add_top F64.nan n pts = ret pts /\
      exchange_bot F64.nan pts = ret pts /\ exchange_top F64.nan pts = ret pts) /\
  read_points_from_hdf5_kw "db.hdf5" (Some F64.nan) None None None None None ex_fs
  = (inr (Dataset "db.hdf5" PointsY, Dataset "db.hdf5" PointsZ), ex_fs).
Proof.
  destruct (nan_is_unset F64.nan eq_refl) as (Hp & _ & Hb & _).
  split; [exact Hb |].
  rewrite (proj1 (Hp "db.hdf5"%string None None None None None None)).
  vm_compute. reflexivity.
Defined.

(** ** The store under the points reader *)

(** C4, at a failing input. The points reader opens the file in mode 'a'
    and keeps the dataset handles; with [exchangeValBot = 0] and neither
    padding nor exclusion, [pointsY[0, :] = exchangeValBot] is an
    assignment to the dataset: after the call the stored [pointsY] has a
    first row of zeros. *)
Lemma points_exchange_writes_store :
  let run := read_points_from_hdf5 "db.hdf5" F64.nan F64.nan 0 0
               F64.zero F64.nan ex_fs in
  fst run = inr (Dataset "db.hdf5" PointsY, Dataset "db.hdf5" PointsZ) /\
  stored_points ex_fs "db.hdf5" PointsY
  = Some (mk_ndarray 2 [[fl 1; fl 1]; [fl 2; fl 2]; [fl 3; fl 3]]) /\
  stored_points (snd run) "db.hdf5" PointsY
  = Some (mk_ndarray 2 [[F64.zero; F64.zero]; [fl 2; fl 2]; [fl 3; fl 3]]) /\
  snd run <> ex_fs.
Proof.
  intros run.
  assert (H : stored_points (snd run) "db.hdf5" PointsY
              = Some (mk_ndarray 2 [[F64.zero; F64.zero]; [fl 2; fl 2];
                                    [fl 3; fl 3]]))
    by (vm_compute; reflexivity).
  split; [vm_compute; reflexivity |].
  split; [vm_compute; reflexivity |].
  split; [exact H |].
  intros Heq. rewrite Heq in H. vm_compute in H. discriminate.
Qed.

(** The velocity closure, its sibling, never changes the store: it opens
    the file in mode 'r' and loads each slab into memory. *)
Lemma velocity_store_unchanged p aB aT eB eT iB iT t fs :
  snd (call (read_velocity_from_hdf5 p aB aT eB eT iB iT) t fs) = fs.
Proof. apply readonly_read. Qed.

(** ** Failures *)

(** The velocity closure lets the error of the storage layer through and
    leaves the store as it was: a missing path, a missing group or dataset,
    an index out of range. *)
Lemma read_failures p aB aT eB eT iB iT t fs :
  (fs !! p = None ->
   read p aB aT eB eT iB iT t fs = (inl OSError, fs)) /\
  (is_Some (fs !! p) -> stored_velocity fs p UX = None ->
   read p aB aT eB eT iB iT t fs = (inl KeyError, fs)) /\
  (forall slabs, stored_velocity fs p UX = Some slabs ->
                 py_index (length slabs) t = None ->
                 read p aB aT eB eT iB iT t fs = (inl IndexError, fs)).
Proof.
  repeat apply conj.
  - intros Hf. unfold read, bind, h5py_File. now rewrite Hf.
  - intros [f Hf] Hs. unfold read. unfold bind at 1. unfold h5py_File.
    rewrite Hf. unfold bind at 1. unfold velocity_getitem. now rewrite Hs.
  - intros slabs Hs Hi. unfold read. unfold bind at 1. unfold h5py_File.
    destruct (fs !! p) as [f |] eqn:Hf.
    + unfold bind at 1. unfold velocity_getitem. now rewrite Hs, Hi.
    + unfold stored_velocity in Hs. rewrite Hf in Hs. discriminate.
Qed.

(** C8, at a failing input. On a path that does not exist the points
    reader, which opens the file in mode 'a', first creates an empty file
    there and then raises [KeyError] at [dbFile["points"]]: the failed call
    leaves a new file behind. The velocity closure on the same path raises
    the error of the open and leaves nothing. *)
Lemma points_missing_path_creates_file :
  ex_fs !! "missing.hdf5"%string = None /\
  read_points_from_hdf5 "missing.hdf5" F64.nan F64.nan 0 0 F64.nan F64.nan ex_fs
  = (inl KeyError, <["missing.hdf5"%string := empty_h5file]> ex_fs) /\
  (<["missing.hdf5"%string := empty_h5file]> ex_fs) !! "missing.hdf5"%string
  = Some empty_h5file /\
  read "missing.hdf5" F64.nan F64.nan 0 0 false false 0 ex_fs
  = (inl OSError, ex_fs).
Proof.
  assert (H : ex_fs !! "missing.hdf5"%string = None) by (vm_compute; reflexivity).
  split; [exact H |]. split; [| split].
  - unfold read_points_from_hdf5, bind, h5py_File. rewrite H.
    unfold points_getitem, stored_points. now rewrite lookup_insert_eq.
  - apply lookup_insert_eq.
  - now apply read_failures.
Qed.

(** * Further properties of the two readers *)

(** ** The points reader: where its variables live *)

Ltac run_cases :=
  repeat match goal with
         | H : context [match ?x with _ => _ end] |- _ =>
             let E := fresh "E" in destruct x eqn:E
         | H : (_, _) = (_, _) |- _ => injection H as ? ?
         | H : inr _ = inr _ |- _ => injection H as ?
         | H : inl _ = inr _ |- _ => discriminate H
         | H : inr _ = inl _ |- _ => discriminate H
         end; subst.

Lemma np_append_inr r1 r2 fs x fs' :
  np_append r1 r2 fs = (inr x, fs') -> exists c, x = Ndarray c.
Proof.
  unfold np_append, bind, lift, ret, raise. intros H. run_cases. eauto.
Qed.

Lemma ref_rows_upto_inr r k fs x fs' :
  ref_rows_upto r k fs = (inr x, fs') -> exists c, x = Ndarray c.
Proof.
  unfold ref_rows_upto, bind, ret. intros H. run_cases. eauto.
Qed.

Lemma ref_rows_from_inr r k fs x fs' :
  ref_rows_from r k fs = (inr x, fs') -> exists c, x = Ndarray c.
Proof.
  unfold ref_rows_from, bind, ret. intros H. run_cases. eauto.
Qed.

Lemma add_bot_in_memory v n pts fs pts' fs' :
  add_bot v n pts fs = (inr pts', fs') ->
  F64.isnan v = false \/ in_memory pts -> in_memory pts'.
Proof.
  destruct pts as [rY rZ]. unfold add_bot.
  destruct (F64.isnan v); cbn [negb].
  - intros [= <- <-] [? | ?]; [discriminate | assumption].
  - unfold bind, ret. intros H _.
    destruct (np_append _ rY fs) as [[e | y] fs1] eqn:E1; [discriminate |].
    destruct (ref_getrow rZ 0 fs1) as [[e | z0] fs2]; [discriminate |].
    destruct (np_append _ rZ fs2) as [[e | z] fs3] eqn:E3; [discriminate |].
    injection H as <- <-.
    apply np_append_inr in E1 as [a ->]. apply np_append_inr in E3 as [b ->].
    now exists a, b.
Qed.

Lemma add_top_in_memory v n pts fs pts' fs' :
  add_top v n pts fs = (inr pts', fs') ->
  F64.isnan v = false \/ in_memory pts -> in_memory pts'.
Proof.
  destruct pts as [rY rZ]. unfold add_top.
  destruct (F64.isnan v); cbn [negb].
  - intros [= <- <-] [? | ?]; [discriminate | assumption].
  - unfold bind, ret. intros H _.
    destruct (np_append rY _ fs) as [[e | y] fs1] eqn:E1; [discriminate |].
    destruct (ref_getrow rZ 0 fs1) as [[e | z0] fs2]; [discriminate |].
    destruct (np_append rZ _ fs2) as [[e | z] fs3] eqn:E3; [discriminate |].
    injection H as <- <-.
    apply np_append_inr in E1 as [a ->]. apply np_append_inr in E3 as [b ->].
    now exists a, b.
Qed.

Lemma cap_top_in_memory e n pts fs pts' fs' :
  cap_top e n pts fs = (inr pts', fs') ->
  e <> 0 \/ in_memory pts -> in_memory pts'.
Proof.
  destruct pts as [rY rZ]. unfold cap_top.
  destruct (Z.eqb_spec e 0) as [-> | Hne]; cbn [negb].
  - intros [= <- <-] [? | ?]; [congruence | assumption].
  - unfold bind, ret. intros H _.
    destruct (ref_rows_upto rY _ fs) as [[e1 | y] fs1] eqn:E1; [discriminate |].
    destruct (ref_rows_upto rZ _ fs1) as [[e3 | z] fs3] eqn:E3; [discriminate |].
    injection H as <- <-.
    apply ref_rows_upto_inr in E1 as [a ->].
    apply ref_rows_upto_inr in E3 as [b ->]. now exists a, b.
Qed.

Lemma cap_bot_in_memory e pts fs pts' fs' :
  cap_bot e pts fs = (inr pts', fs') ->
  e <> 0 \/ in_memory pts -> in_memory pts'.
Proof.
  destruct pts as [rY rZ]. unfold cap_bot.
  destruct (Z.eqb_spec e 0) as [-> | Hne]; cbn [negb].
  - intros [= <- <-] [? | ?]; [congruence | assumption].
  - unfold bind, ret. intros H _.
    destruct (ref_rows_from rY _ fs) as [[e1 | y] fs1] eqn:E1; [discriminate |].
    destruct (ref_rows_from rZ _ fs1) as [[e3 | z] fs3] eqn:E3; [discriminate |].
    injection H as <- <-.
    apply ref_rows_from_inr in E1 as [a ->].
    apply ref_rows_from_inr in E3 as [b ->]. now exists a, b.
Qed.

(** The exchange blocks on arrays in memory: no access to the store. *)
Lemma exchange_in_memory xB xT a b fs :
  (let* pts := exchange_bot xB (Ndarray a, Ndarray b) in
   let* pts := exchange_top xT pts in ret pts) fs
  = (match rbind (exchange_bot_arr xB (a, b)) (exchange_top_arr xT) with
     | inr (a', b') => inr (Ndarray a', Ndarray b')
     | inl e => inl e
     end, fs).
Proof.
  unfold exchange_bot, exchange_top, exchange_bot_arr, exchange_top_arr.
  cbn [fst snd].
  destruct (F64.isnan xB), (F64.isnan xT); cbn [negb rbind];
    unfold bind, ref_setrow_scalar, bind, lift, ret, raise; cbn [fst snd];
    repeat (match goal with
            | |- context [setrow_scalar ?x ?i ?v] =>
                destruct (setrow_scalar x i v); cbn [rbind fst snd]
            end); reflexivity.
Qed.

(** The reader in two phases, on a file that has both datasets. The first
    phase (padding and capping) only reads, and agrees with [capped_arr];
    it leaves the variables in memory as soon as one of its blocks is
    active, and as the two dataset handles otherwise. The second phase is
    the two exchange blocks. *)
Lemma read_points_split fs p aY aZ aB aT eB eT xB xT :
  stored_points fs p PointsY = Some aY ->
  stored_points fs p PointsZ = Some aZ ->
  exists r4 : result (array_ref * array_ref),
    read_points_from_hdf5 p aB aT eB eT xB xT fs
    = match r4 with
      | inl e => (inl e, fs)
      | inr pts4 =>
          (let* pts := exchange_bot xB pts4 in
           let* pts := exchange_top xT pts in ret pts) fs
      end /\
    match r4, capped_arr aB aT eB eT (aY, aZ) with
    | inr pts4, inr q =>
        views fs pts4 q /\
        (F64.isnan aB = false \/ F64.isnan aT = false \/ eT <> 0 \/ eB <> 0 ->
         in_memory pts4) /\
        (F64.isnan aB = true -> F64.isnan aT = true -> eT = 0 -> eB = 0 ->
         pts4 = (Dataset p PointsY, Dataset p PointsZ))
    | inl e, inl e' => e = e'
    | _, _ => False
    end.
Proof.
  intros HY HZ.
  destruct (stored_points_inv _ _ _ _ HY) as (f & g & Hf & _).
  unfold read_points_from_hdf5.
  unfold bind at 1. unfold h5py_File. rewrite Hf.
  unfold bind at 1. unfold points_getitem at 1. rewrite HY.
  unfold bind at 1. unfold points_getitem at 1. rewrite HZ.
  unfold bind at 1. rewrite (ref_shape_run fs (Dataset p PointsY) aY HY).
  cbn [shape fst snd].
  set (pts0 := (Dataset p PointsY, Dataset p PointsZ)).
  assert (H0 : views fs pts0 (aY, aZ)) by (repeat split; assumption).
  unfold capped_arr, padded_arr. cbn [fst].
  (* padding below *)
  pose proof (add_bot_sim aB fs (ncols aY) _ _ H0) as S1.
  pose proof (readonly_add_bot aB (ncols aY) pts0 fs) as R1.
  unfold sim in S1. unfold bind at 1.
  destruct (add_bot aB (ncols aY) pts0 fs) as [[e | pts1] fs1] eqn:E1;
    cbn in R1; subst fs1;
    destruct (add_bot_arr aB (ncols aY) (aY, aZ)) as [e' | p1];
    try contradiction.
  { exists (inl e). split; [reflexivity | exact S1]. }
  cbn [rbind].
  (* padding above *)
  pose proof (add_top_sim aT fs (ncols aY) _ _ S1) as S2.
  pose proof (readonly_add_top aT (ncols aY) pts1 fs) as R2.
  unfold sim in S2. unfold bind at 1.
  destruct (add_top aT (ncols aY) pts1 fs) as [[e | pts2] fs2] eqn:E2;
    cbn in R2; subst fs2;
    destruct (add_top_arr aT (ncols aY) p1) as [e' | p2];
    try contradiction.
  { exists (inl e). split; [reflexivity | exact S2]. }
  cbn [rbind].
  unfold bind at 1. rewrite (ref_shape_run fs _ (fst p2) (proj1 S2)).
  cbn [shape fst snd].
  (* capping above *)
  pose proof (cap_top_sim eT fs (nrows (fst p2)) _ _ S2) as S3.
  pose proof (readonly_cap_top eT (nrows (fst p2)) pts2 fs) as R3.
  unfold sim in S3. unfold bind at 1.
  destruct (cap_top eT (nrows (fst p2)) pts2 fs) as [[e | pts3] fs3] eqn:E3;
    cbn in R3; subst fs3; [contradiction |].
  (* capping below *)
  pose proof (cap_bot_sim eB fs _ _ S3) as S4.
  pose proof (readonly_cap_bot eB pts3 fs) as R4.
  unfold sim in S4. unfold bind at 1.
  destruct (cap_bot eB pts3 fs) as [[e | pts4] fs4] eqn:E4;
    cbn in R4; subst fs4; [contradiction |].
  exists (inr pts4). split; [reflexivity |]. split; [exact S4 |]. split.
  - intros Hact.
    apply (cap_bot_in_memory _ _ _ _ _ E4).
    destruct (Z.eq_dec eB 0) as [HB | HB]; [right | now left].
    apply (cap_top_in_memory _ _ _ _ _ _ E3).
    destruct (Z.eq_dec eT 0) as [HT | HT]; [right | now left].
    apply (add_top_in_memory _ _ _ _ _ _ E2).
    destruct (F64.isnan aT) eqn:HaT; [right | now left].
    apply (add_bot_in_memory _ _ _ _ _ _ E1).
    left. destruct Hact as [? | [? | [? | ?]]]; congruence.
  - intros HaB HaT -> ->.
    unfold add_bot in E1. unfold add_top in E2. unfold cap_top in E3.
    unfold cap_bot in E4. unfold pts0 in E1.
    rewrite HaB in E1. cbn in E1. injection E1 as <-.
    rewrite HaT in E2. cbn in E2. injection E2 as <-.
    cbn in E3. injection E3 as <-. cbn in E4. injection E4 as <-.
    reflexivity.
Qed.

(** ** The store under [with_pointsY] *)

Lemma write_pointsY_eq fs p a a' :
  stored_points fs p PointsY = Some a ->
  write_points p PointsY a' fs = (inr tt, with_pointsY fs p a').
Proof.
  intros H. apply stored_points_inv in H as (f & g & Hf & Hg & _).
  unfold write_points, with_pointsY. now rewrite Hf, Hg.
Qed.

Lemma stored_with_pointsY fs p a a' :
  stored_points fs p PointsY = Some a ->
  stored_points (with_pointsY fs p a') p PointsY = Some a'.
Proof.
  intros H. apply stored_points_inv in H as (f & g & Hf & Hg & _).
  unfold with_pointsY. rewrite Hf, Hg. unfold stored_points.
  now rewrite lookup_insert_eq.
Qed.

Lemma with_pointsY_other fs p a' q :
  q <> p -> with_pointsY fs p a' !! q = fs !! q.
Proof.
  intros Hne. unfold with_pointsY.
  destruct (fs !! p) as [f |]; [| reflexivity].
  destruct (f_points f); [| reflexivity].
  now rewrite lookup_insert_ne.
Qed.

Lemma stored_with_pointsY_Z fs p a' q :
  stored_points (with_pointsY fs p a') q PointsZ = stored_points fs q PointsZ.
Proof.
  destruct (decide (q = p)) as [-> | Hne].
  - unfold with_pointsY. destruct (fs !! p) as [f |] eqn:Hf; [| reflexivity].
    destruct (f_points f) as [g |] eqn:Hg; [| reflexivity].
    unfold stored_points. rewrite lookup_insert_eq, Hf. simpl. now rewrite Hg.
  - unfold stored_points. now rewrite with_pointsY_other.
Qed.

Lemma stored_velocity_with_pointsY fs p a' q d :
  stored_velocity (with_pointsY fs p a') q d = stored_velocity fs q d.
Proof.
  destruct (decide (q = p)) as [-> | Hne].
  - unfold with_pointsY. destruct (fs !! p) as [f |] eqn:Hf; [| reflexivity].
    destruct (f_points f) as [g |] eqn:Hg; [| reflexivity].
    unfold stored_velocity. now rewrite lookup_insert_eq, Hf.
  - unfold stored_velocity. now rewrite with_pointsY_other.
Qed.

Lemma with_pointsY_twice fs p a b :
  with_pointsY (with_pointsY fs p a) p b = with_pointsY fs p b.
Proof.
  unfold with_pointsY at 2 3.
  destruct (fs !! p) as [f |] eqn:Hf.
  - destruct (f_points f) as [g |] eqn:Hg.
    + unfold with_pointsY. rewrite lookup_insert_eq. cbn.
      now rewrite insert_insert_eq.
    + unfold with_pointsY. now rewrite Hf, Hg.
  - unfold with_pointsY. now rewrite Hf.
Qed.

Lemma with_pointsY_same fs p a :
  stored_points fs p PointsY = Some a -> with_pointsY fs p a = fs.
Proof.
  intros H. apply stored_points_inv in H as (f & g & Hf & Hg & Ha).
  unfold with_pointsY. rewrite Hf, Hg. apply insert_id. rewrite Hf. f_equal.
  destruct f as [fp fv], g as [gy gz]. cbn in *. congruence.
Qed.

(** The exchange blocks on the two dataset handles: the rows are changed
    in the file, and only [pointsY] of that file is replaced. *)
Lemma exchange_on_datasets fs p aY aZ xB xT :
  stored_points fs p PointsY = Some aY ->
  stored_points fs p PointsZ = Some aZ ->
  (let* pts := exchange_bot xB (Dataset p PointsY, Dataset p PointsZ) in
   let* pts := exchange_top xT pts in ret pts) fs
  = match rbind (exchange_bot_arr xB (aY, aZ)) (exchange_top_arr xT) with
    | inr (Y', _) =>
        (inr (Dataset p PointsY, Dataset p PointsZ),
         if F64.isnan xB && F64.isnan xT then fs else with_pointsY fs p Y')
    | inl e => (inl e, fs)
    end.
Proof.
  intros HY HZ.
  assert (Hset : forall fs0 a i v,
             stored_points fs0 p PointsY = Some a ->
             ref_setrow_scalar (Dataset p PointsY) i v fs0
             = match setrow_scalar a i v with
               | inr a' => (inr (Dataset p PointsY), with_pointsY fs0 p a')
               | inl e => (inl e, fs0)
               end).
  { intros fs0 a i v Ha. unfold ref_setrow_scalar, bind.
    rewrite (sim_as_array fs0 (Dataset p PointsY) a Ha).
    destruct (setrow_scalar a i v) as [e | a']; [reflexivity |].
    cbn [lift ret]. now rewrite (write_pointsY_eq fs0 p a a' Ha). }
  unfold exchange_bot, exchange_top, exchange_bot_arr, exchange_top_arr.
  cbn [fst snd].
  destruct (F64.isnan xB) eqn:EB, (F64.isnan xT) eqn:ET;
    cbn [negb rbind andb fst snd].
  - reflexivity.
  - unfold bind, ret. cbv beta iota.
    rewrite (Hset fs aY (-1) xT HY).
    now destruct (setrow_scalar aY (-1) xT).
  - unfold bind, ret. cbv beta iota.
    rewrite (Hset fs aY 0 xB HY).
    now destruct (setrow_scalar aY 0 xB).
  - unfold bind, ret. cbv beta iota.
    rewrite (Hset fs aY 0 xB HY).
    destruct (setrow_scalar aY 0 xB) as [e | a1] eqn:E1; [reflexivity |].
    cbn [rbind fst snd].
    rewrite (Hset _ a1 (-1) xT (stored_with_pointsY fs p aY a1 HY)).
    apply setrow_scalar_inv in E1 as (j & _ & Hj & _ & Hr).
    assert (Hn : (0 < nrows a1)%nat).
    { unfold nrows in *. rewrite Hr, length_insert. lia. }
    unfold setrow_scalar, setrow. rewrite py_index_minus_one by exact Hn.
    cbn [rbind]. now rewrite with_pointsY_twice.
Qed.

(** ** Errors of the readers *)

(** X1. The velocity closure lets the first failing access through and
    leaves the store as it was: [OSError] for a path that does not exist;
    otherwise, for the first of [uX], [uY], [uZ] that does not load,
    [KeyError] when the dataset (or the group) is missing and [IndexError]
    when [timeIndex] is out of its range. *)
Theorem read_errors p aB aT eB eT iB iT t fs :
  let load_error d :=
    if stored_velocity fs p d is Some _ then IndexError else KeyError in
  (fs !! p = None ->
   read p aB aT eB eT iB iT t fs = (inl OSError, fs)) /\
  (is_Some (fs !! p) -> slab fs p UX t = None ->
   read p aB aT eB eT iB iT t fs = (inl (load_error UX), fs)) /\
  (is_Some (slab fs p UX t) -> slab fs p UY t = None ->
   read p aB aT eB eT iB iT t fs = (inl (load_error UY), fs)) /\
  (is_Some (slab fs p UX t) -> is_Some (slab fs p UY t) ->
   slab fs p UZ t = None ->
   read p aB aT eB eT iB iT t fs = (inl (load_error UZ), fs)).
Proof.
  intros load_error. repeat apply conj.
  - intros Hf. unfold read, bind, h5py_File. now rewrite Hf.
  - intros [f Hf] HX. unfold read. unfold bind at 1. unfold h5py_File.
    rewrite Hf. unfold bind at 1. now rewrite velocity_getitem_run, HX.
  - intros [uX HX] HY. destruct (slab_file _ _ _ _ _ HX) as [f Hf].
    unfold read. unfold bind at 1. unfold h5py_File.
    rewrite Hf. unfold bind at 1. rewrite velocity_getitem_run, HX.
    unfold bind at 1. now rewrite velocity_getitem_run, HY.
  - intros [uX HX] [uY HY] HZ. destruct (slab_file _ _ _ _ _ HX) as [f Hf].
    unfold read. unfold bind at 1. unfold h5py_File.
    rewrite Hf. unfold bind at 1. rewrite velocity_getitem_run, HX.
    unfold bind at 1. rewrite velocity_getitem_run, HY.
    unfold bind at 1. now rewrite velocity_getitem_run, HZ.
Qed.

(** A time index past the two stored steps, and a path without a file. *)
Lemma read_errors_witness :
  read "nofile.hdf5" F64.nan F64.nan 0 0 false false 0 ex_fs
  = (inl OSError, ex_fs) /\
  read "db.hdf5" F64.nan F64.nan 0 0 false false 2 ex_fs
  = (inl IndexError, ex_fs).
Proof.
  split.
  - apply (proj1 (read_errors "nofile.hdf5" F64.nan F64.nan 0 0 false false 0
                    ex_fs)).
    vm_compute. reflexivity.
  - apply (proj1 (proj2 (read_errors "db.hdf5" F64.nan F64.nan 0 0 false false 2
                           ex_fs))).
    + eexists. vm_compute. reflexivity.
    + vm_compute. reflexivity.
Defined.

Lemma read_points_no_dataset fs p aB aT eB eT xB xT :
  is_Some (fs !! p) ->
  stored_points fs p PointsY = None \/ stored_points fs p PointsZ = None ->
  read_points_from_hdf5 p aB aT eB eT xB xT fs = (inl KeyError, fs).
Proof.
  intros [f Hf] Hmiss. unfold read_points_from_hdf5.
  unfold bind at 1. unfold h5py_File. rewrite Hf.
  unfold bind at 1. unfold points_getitem at 1.
  destruct (stored_points fs p PointsY) as [aY |] eqn:HY; [| reflexivity].
  unfold bind at 1. unfold points_getitem at 1.
  destruct Hmiss as [? | ->]; [discriminate | reflexivity].
Qed.

(** X2. On a file that exists but lacks the group [points] or one of its
    two datasets, the points reader raises [KeyError] and leaves the store
    as it was, whatever the options. *)
Theorem points_missing_dataset fs p aB aT eB eT xB xT :
  is_Some (fs !! p) ->
  stored_points fs p PointsY = None \/ stored_points fs p PointsZ = None ->
  read_points_from_hdf5 p aB aT eB eT xB xT fs = (inl KeyError, fs).
Proof. apply read_points_no_dataset. Qed.

Lemma points_missing_dataset_witness :
  read_points_from_hdf5 "v.hdf5" F64.nan (fl 1) 0 2 F64.nan F64.nan
    {[ "v.hdf5"%string := empty_h5file ]}
  = (inl KeyError, {[ "v.hdf5"%string := empty_h5file ]}).
Proof.
  apply (points_missing_dataset {[ "v.hdf5"%string := empty_h5file ]} "v.hdf5").
  - eexists. vm_compute. reflexivity.
  - left. vm_compute. reflexivity.
Defined.

(** ** When the points reader writes, and when it does not *)

Lemma read_points_copy fs p aB aT eB eT xB xT :
  is_Some (fs !! p) ->
  F64.isnan aB = false \/ F64.isnan aT = false \/ eT <> 0 \/ eB <> 0 ->
  snd (read_points_from_hdf5 p aB aT eB eT xB xT fs) = fs /\
  forall pts, fst (read_points_from_hdf5 p aB aT eB eT xB xT fs) = inr pts ->
              in_memory pts.
Proof.
  intros Hf Hact.
  destruct (stored_points fs p PointsY) as [aY |] eqn:HY.
  2:{ rewrite read_points_no_dataset by auto. split; [reflexivity |].
      intros pts [=]. }
  destruct (stored_points fs p PointsZ) as [aZ |] eqn:HZ.
  2:{ rewrite read_points_no_dataset by auto. split; [reflexivity |].
      intros pts [=]. }
  destruct (read_points_split fs p aY aZ aB aT eB eT xB xT HY HZ)
    as (r4 & -> & Hr4).
  destruct r4 as [e | pts4].
  { split; [reflexivity |]. intros pts [=]. }
  destruct (capped_arr aB aT eB eT (aY, aZ)) as [e' | q]; [contradiction |].
  destruct Hr4 as (_ & Hmem & _). destruct (Hmem Hact) as (a & b & ->).
  rewrite exchange_in_memory. split; [reflexivity |]. cbn [fst].
  destruct (rbind _ _) as [e | [a' b']]; intros pts [= <-].
  now exists a', b'.
Qed.

(** X3. As soon as an add value is set or a count is not zero, the points
    reader works on copies in memory: on a path that exists it leaves the
    store as it was, whatever the exchange values and whether or not it
    raises, and what it returns are arrays in memory, not dataset
    handles. *)
Theorem points_copy_keeps_store fs p aB aT eB eT xB xT :
  is_Some (fs !! p) ->
  F64.isnan aB = false \/ F64.isnan aT = false \/ eT <> 0 \/ eB <> 0 ->
  snd (read_points_from_hdf5 p aB aT eB eT xB xT fs) = fs /\
  forall pts, fst (read_points_from_hdf5 p aB aT eB eT xB xT fs) = inr pts ->
              in_memory pts.
Proof. apply read_points_copy. Qed.

Lemma points_copy_keeps_store_witness :
  snd (read_points_from_hdf5 "db.hdf5" F64.nan F64.nan 0 1 (fl 5) (fl 6) ex_fs)
  = ex_fs /\
  forall pts,
    fst (read_points_from_hdf5 "db.hdf5" F64.nan F64.nan 0 1 (fl 5) (fl 6) ex_fs)
    = inr pts -> in_memory pts.
Proof.
  apply (points_copy_keeps_store ex_fs "db.hdf5" F64.nan F64.nan 0 1 (fl 5) (fl 6)).
  - eexists. vm_compute. reflexivity.
  - right. right. left. lia.
Defined.

Lemma capped_arr_inactive p :
  capped_arr F64.nan F64.nan 0 0 p = inr p.
Proof. now destruct p. Qed.

(** X4. With no add value and no count, an exchange value reaches the
    file: on stored arrays with at least one row the reader returns the two
    dataset handles, and afterwards the stored [pointsY] has row 0 filled
    with [exchangeValBot] and its last row filled with [exchangeValTop]
    (each when set), with its other rows and its shape as before. Nothing
    else is written: [pointsZ], the velocity datasets and the other files
    are as before. *)
Theorem points_exchange_write_back fs p aY aZ xB xT :
  stored_points fs p PointsY = Some aY ->
  stored_points fs p PointsZ = Some aZ ->
  (0 < nrows aY)%nat ->
  F64.isnan xB = false \/ F64.isnan xT = false ->
  let rows1 := if F64.isnan xB then rows aY
               else <[0%nat := replicate (ncols aY) xB]> (rows aY) in
  let rows2 := if F64.isnan xT then rows1
               else <[(nrows aY - 1)%nat := replicate (ncols aY) xT]> rows1 in
  exists fs',
    read_points_from_hdf5 p F64.nan F64.nan 0 0 xB xT fs
    = (inr (Dataset p PointsY, Dataset p PointsZ), fs') /\
    stored_points fs' p PointsY = Some (mk_ndarray (ncols aY) rows2) /\
    (forall q, stored_points fs' q PointsZ = stored_points fs q PointsZ) /\
    (forall q d, stored_velocity fs' q d = stored_velocity fs q d) /\
    (forall q, q <> p -> fs' !! q = fs !! q).
Proof.
  intros HY HZ Hpos Hset rows1 rows2.
  destruct (read_points_split fs p aY aZ F64.nan F64.nan 0 0 xB xT HY HZ)
    as (r4 & Hrun & Hr4).
  rewrite capped_arr_inactive in Hr4.
  destruct r4 as [e | pts4]; [contradiction |].
  destruct Hr4 as (_ & _ & Hds). rewrite (Hds eq_refl eq_refl eq_refl eq_refl) in Hrun.
  rewrite (exchange_on_datasets fs p aY aZ xB xT HY HZ) in Hrun.
  assert (Harr : rbind (exchange_bot_arr xB (aY, aZ)) (exchange_top_arr xT)
                 = inr (mk_ndarray (ncols aY) rows2, aZ)).
  { unfold exchange_bot_arr, exchange_top_arr, setrow_scalar, setrow.
    cbn [fst snd]. unfold rows2, rows1.
    destruct (F64.isnan xB), (F64.isnan xT); cbn [negb rbind fst snd].
    - now rewrite ndarray_eta'.
    - now rewrite py_index_minus_one.
    - now rewrite py_index_nonneg by lia.
    - rewrite py_index_nonneg by lia. cbn [rbind fst snd ncols rows].
      unfold nrows at 1. cbn [rows]. rewrite length_insert.
      fold (nrows aY). now rewrite py_index_minus_one. }
  rewrite Harr in Hrun.
  assert (Hnn : F64.isnan xB && F64.isnan xT = false)
    by (destruct Hset as [-> | ->]; [reflexivity | apply andb_false_r]).
  rewrite Hnn in Hrun.
  eexists. split; [exact Hrun |]. split; [| split; [| split]].
  - now apply (stored_with_pointsY fs p aY).
  - intros q. apply stored_with_pointsY_Z.
  - intros q d. apply stored_velocity_with_pointsY.
  - intros q Hq. now apply with_pointsY_other.
Qed.

Lemma points_exchange_write_back_witness :
  exists fs',
    read_points_from_hdf5 "db.hdf5" F64.nan F64.nan 0 0 (fl 5) (fl 6) ex_fs
    = (inr (Dataset "db.hdf5" PointsY, Dataset "db.hdf5" PointsZ), fs') /\
    stored_points fs' "db.hdf5" PointsY
    = Some (mk_ndarray 2
              (<[2%nat := replicate 2 (fl 6)]>
                 (<[0%nat := replicate 2 (fl 5)]> (rows ex_pointsY)))) /\
    (forall q, stored_points fs' q PointsZ = stored_points ex_fs q PointsZ) /\
    (forall q d, stored_velocity fs' q d = stored_velocity ex_fs q d) /\
    (forall q, q <> "db.hdf5"%string -> fs' !! q = ex_fs !! q).
Proof.
  apply (points_exchange_write_back ex_fs "db.hdf5" ex_pointsY ex_pointsZ
           (fl 5) (fl 6)).
  - reflexivity.
  - reflexivity.
  - vm_compute. lia.
  - left. reflexivity.
Defined.

Lemma length_exchange_rows xB xT a : length (exchange_rows xB xT a) = nrows a.
Proof.
  unfold exchange_rows, nrows.
  destruct (F64.isnan xB), (F64.isnan xT); now rewrite ?length_insert.
Qed.

Lemma exchange_arr_eq xB xT aY aZ q :
  rbind (exchange_bot_arr xB (aY, aZ)) (exchange_top_arr xT) = inr q ->
  q = (mk_ndarray (ncols aY) (exchange_rows xB xT aY), aZ) /\
  (F64.isnan xB && F64.isnan xT = false -> (0 < nrows aY)%nat).
Proof.
  destruct (exchange_bot_arr xB (aY, aZ)) as [e | [Y5 Z5]] eqn:E5;
    [discriminate |]. cbn [rbind]. destruct q as [Y6 Z6]. intros E6.
  apply exchange_bot_arr_inv in E5 as (-> & C5 & R5 & P5).
  pose proof (exchange_top_arr_shape _ _ _ E6) as [S6 _].
  apply exchange_top_arr_inv in E6 as (-> & C6 & R6 & P6).
  assert (N5 : nrows Y5 = nrows aY).
  { unfold nrows. rewrite R5. destruct (F64.isnan xB); [reflexivity |].
    apply length_insert. }
  split.
  - f_equal. apply ndarray_eta; [congruence |].
    unfold exchange_rows. rewrite R6, R5, N5, C5. reflexivity.
  - intros Hnn. destruct (F64.isnan xB); [| now apply P5].
    destruct (F64.isnan xT); [discriminate |]. rewrite <- N5. now apply P6.
Qed.

Lemma exchange_arr_returns xB xT aY aZ :
  (F64.isnan xB && F64.isnan xT = false -> (0 < nrows aY)%nat) ->
  rbind (exchange_bot_arr xB (aY, aZ)) (exchange_top_arr xT)
  = inr (mk_ndarray (ncols aY) (exchange_rows xB xT aY), aZ).
Proof.
  intros Hpos.
  unfold exchange_bot_arr, exchange_top_arr, setrow_scalar, setrow, exchange_rows.
  cbn [fst snd].
  destruct (F64.isnan xB), (F64.isnan xT); cbn [negb rbind fst snd].
  - now rewrite ndarray_eta'.
  - now rewrite py_index_minus_one by auto.
  - now rewrite py_index_nonneg by (specialize (Hpos eq_refl); lia).
  - rewrite py_index_nonneg by (specialize (Hpos eq_refl); lia).
    cbn [rbind fst snd ncols rows].
    unfold nrows at 1. cbn [rows]. rewrite length_insert.
    fold (nrows aY). now rewrite py_index_minus_one by auto.
Qed.

(** Exchanging again changes nothing. *)
Lemma exchange_rows_twice xB xT a :
  exchange_rows xB xT (mk_ndarray (ncols a) (exchange_rows xB xT a))
  = exchange_rows xB xT a.
Proof.
  unfold exchange_rows at 1. cbn [rows ncols]. unfold nrows at 1. cbn [rows].
  rewrite length_exchange_rows. unfold exchange_rows.
  destruct (F64.isnan xB), (F64.isnan xT); try reflexivity.
  - apply list_insert_insert_eq.
  - apply list_insert_insert_eq.
  - destruct (decide ((nrows a - 1)%nat = 0%nat)) as [-> | Hne].
    + now rewrite !list_insert_insert_eq.
    + rewrite (list_insert_insert_ne _ 0%nat (nrows a - 1)%nat) by auto.
      now rewrite !list_insert_insert_eq.
Qed.

Lemma read_points_missing_path fs p aB aT eB eT xB xT :
  fs !! p = None ->
  read_points_from_hdf5 p aB aT eB eT xB xT fs
  = (inl KeyError, <[p := empty_h5file]> fs).
Proof.
  intros Hf. unfold read_points_from_hdf5, bind, h5py_File. rewrite Hf.
  unfold points_getitem, stored_points. now rewrite lookup_insert_eq.
Qed.

(** X5. A call of the points reader that returns can be repeated: made
    again in the store that the first call left, the same call returns the
    same values and leaves that store as it is, also when the first call
    wrote an exchange value into the file. *)
Theorem points_reader_repeat fs p aB aT eB eT xB xT pts fs' :
  read_points_from_hdf5 p aB aT eB eT xB xT fs = (inr pts, fs') ->
  read_points_from_hdf5 p aB aT eB eT xB xT fs' = (inr pts, fs').
Proof.
  intros Hrun.
  destruct (fs !! p) as [f |] eqn:Hf;
    [| rewrite read_points_missing_path in Hrun by exact Hf; discriminate].
  destruct (stored_points fs p PointsY) as [aY |] eqn:HY;
    [| rewrite read_points_no_dataset in Hrun by eauto; discriminate].
  destruct (stored_points fs p PointsZ) as [aZ |] eqn:HZ;
    [| rewrite read_points_no_dataset in Hrun by eauto; discriminate].
  assert (Hcase : (F64.isnan aB = false \/ F64.isnan aT = false \/
                   eT <> 0 \/ eB <> 0) \/
                  (F64.isnan aB = true /\ F64.isnan aT = true /\
                   eT = 0 /\ eB = 0)).
  { destruct (F64.isnan aB), (F64.isnan aT), (Z.eq_dec eT 0), (Z.eq_dec eB 0);
      auto 10. }
  destruct Hcase as [Hact | (HaB & HaT & -> & ->)].
  - destruct (read_points_copy fs p aB aT eB eT xB xT) as [Hfs _];
      [eauto | exact Hact |].
    rewrite Hrun in Hfs. cbn in Hfs. now subst fs'.
  - apply isnan_eq in HaB as ->. apply isnan_eq in HaT as ->.
    assert (Hds : forall fs0 bY,
               stored_points fs0 p PointsY = Some bY ->
               stored_points fs0 p PointsZ = Some aZ ->
               read_points_from_hdf5 p F64.nan F64.nan 0 0 xB xT fs0
               = match rbind (exchange_bot_arr xB (bY, aZ)) (exchange_top_arr xT) with
                 | inr (Y', _) =>
                     (inr (Dataset p PointsY, Dataset p PointsZ),
                      if F64.isnan xB && F64.isnan xT then fs0
                      else with_pointsY fs0 p Y')
                 | inl e => (inl e, fs0)
                 end).
    { intros fs0 bY H1 H2.
      destruct (read_points_split fs0 p bY aZ F64.nan F64.nan 0 0 xB xT H1 H2)
        as (r4 & Hr & Hr4).
      rewrite capped_arr_inactive in Hr4.
      destruct r4 as [e | pts4]; [contradiction |].
      destruct Hr4 as (_ & _ & Hd).
      rewrite (Hd eq_refl eq_refl eq_refl eq_refl) in Hr.
      now rewrite Hr, (exchange_on_datasets fs0 p bY aZ xB xT H1 H2). }
    rewrite (Hds fs aY HY HZ) in Hrun.
    destruct (rbind (exchange_bot_arr xB (aY, aZ)) (exchange_top_arr xT))
      as [e | [Y' Z']] eqn:Harr; [discriminate |].
    injection Hrun as <- <-.
    apply exchange_arr_eq in Harr as [[= -> ->] Hpos].
    destruct (F64.isnan xB && F64.isnan xT) eqn:Hnn.
    + rewrite (Hds fs aY HY HZ).
      rewrite exchange_arr_returns by (rewrite ?Hnn; discriminate).
      rewrite ?Hnn. reflexivity.
    + set (Y' := mk_ndarray (ncols aY) (exchange_rows xB xT aY)).
      assert (HY' : stored_points (with_pointsY fs p Y') p PointsY = Some Y')
        by (now apply (stored_with_pointsY fs p aY)).
      assert (HZ' : stored_points (with_pointsY fs p Y') p PointsZ = Some aZ)
        by (now rewrite stored_with_pointsY_Z).
      rewrite (Hds _ Y' HY' HZ').
      rewrite exchange_arr_returns.
      * rewrite ?Hnn. subst Y'. cbn [ncols]. rewrite exchange_rows_twice.
        now rewrite with_pointsY_twice.
      * intros _. unfold nrows, Y'. cbn [rows].
        rewrite length_exchange_rows. auto.
Qed.

Lemma points_reader_repeat_witness :
  exists fs',
    read_points_from_hdf5 "db.hdf5" F64.nan F64.nan 0 0 (fl 5) (fl 6) ex_fs
    = (inr (Dataset "db.hdf5" PointsY, Dataset "db.hdf5" PointsZ), fs') /\
    read_points_from_hdf5 "db.hdf5" F64.nan F64.nan 0 0 (fl 5) (fl 6) fs'
    = (inr (Dataset "db.hdf5" PointsY, Dataset "db.hdf5" PointsZ), fs').
Proof.
  eexists.
  assert (H : read_points_from_hdf5 "db.hdf5" F64.nan F64.nan 0 0 (fl 5) (fl 6)
                ex_fs = (inr (Dataset "db.hdf5" PointsY, Dataset "db.hdf5" PointsZ), _))
    by (vm_compute; reflexivity).
  split; [exact H |].
  exact (points_reader_repeat ex_fs "db.hdf5" F64.nan F64.nan 0 0 (fl 5) (fl 6)
           _ _ H).
Defined.

(** An assignment through a variable that raises has written nothing. *)
Lemma ref_setrow_scalar_inl r i v fs e fs' :
  ref_setrow_scalar r i v fs = (inl e, fs') -> fs' = fs.
Proof.
  destruct r as [p d | a]; unfold ref_setrow_scalar, bind, lift, ret, raise.
  - pose proof (readonly_as_array (Dataset p d) fs) as Hro.
    destruct (as_array (Dataset p d) fs) as [[e1 | a] fs1]; cbn in Hro;
      subst fs1; [now intros [= _ <-] |].
    destruct (setrow_scalar a i v) as [e2 | a']; [now intros [= _ <-] |].
    unfold write_points. destruct (fs !! p) as [f |]; [| now intros [= _ <-]].
    destruct (f_points f); [discriminate | now intros [= _ <-]].
  - destruct (setrow_scalar a i v); [now intros [= _ <-] | discriminate].
Qed.

Lemma read_points_inl_store fs p aB aT eB eT xB xT e fs' :
  is_Some (fs !! p) ->
  read_points_from_hdf5 p aB aT eB eT xB xT fs = (inl e, fs') ->
  fs' = fs.
Proof.
  intros Hf Hrun.
  destruct (stored_points fs p PointsY) as [aY |] eqn:HY;
    [| rewrite read_points_no_dataset in Hrun by auto; now injection Hrun].
  destruct (stored_points fs p PointsZ) as [aZ |] eqn:HZ;
    [| rewrite read_points_no_dataset in Hrun by auto; now injection Hrun].
  destruct (read_points_split fs p aY aZ aB aT eB eT xB xT HY HZ)
    as (r4 & Hr & Hr4).
  rewrite Hr in Hrun. clear Hr.
  destruct r4 as [e4 | pts4]; [now injection Hrun |].
  destruct (capped_arr aB aT eB eT (aY, aZ)) as [e' | q]; [contradiction |].
  destruct Hr4 as (Hv & _).
  unfold bind at 1 in Hrun.
  pose proof (exchange_bot_sim xB fs pts4 q Hv) as S5. unfold sim in S5.
  destruct (exchange_bot xB pts4 fs) as [[e5 | pts5] fs5] eqn:E5.
  - injection Hrun as _ <-.
    destruct pts4 as [rY rZ]. unfold exchange_bot in E5.
    destruct (negb (F64.isnan xB)); [| discriminate].
    unfold bind in E5.
    destruct (ref_setrow_scalar rY 0 xB fs) as [[e6 | y] fs6] eqn:E6;
      [| discriminate].
    injection E5 as _ <-. now apply ref_setrow_scalar_inl in E6.
  - destruct (exchange_bot_arr xB q) as [e5 | q5] eqn:A5; [contradiction |].
    unfold bind at 1 in Hrun.
    pose proof (exchange_top_sim xT fs5 pts5 q5 S5) as S6. unfold sim in S6.
    destruct (exchange_top xT pts5 fs5) as [[e6 | pts6] fs6] eqn:E6;
      [| discriminate].
    injection Hrun as _ <-.
    assert (fs6 = fs5) as ->.
    { destruct pts5 as [rY rZ]. unfold exchange_top in E6.
      destruct (negb (F64.isnan xT)); [| discriminate].
      unfold bind in E6.
      destruct (ref_setrow_scalar rY (-1) xT fs5) as [[e7 | y] fs7] eqn:E7;
        [| discriminate].
      injection E6 as _ <-. now apply ref_setrow_scalar_inl in E7. }
    (* the top exchange raised: the bottom one was not set *)
    destruct (exchange_top_arr xT q5) as [e7 | q6] eqn:A6; [| contradiction].
    destruct q as [Y4 Z4], q5 as [Y5 Z5].
    apply exchange_bot_arr_inv in A5 as (_ & _ & R5 & P5).
    destruct (F64.isnan xB) eqn:EB.
    + destruct pts4 as [rY rZ]. unfold exchange_bot in E5. rewrite EB in E5.
      cbn in E5. now injection E5.
    + exfalso. specialize (P5 eq_refl).
      unfold exchange_top_arr, setrow_scalar, setrow in A6. cbn [fst snd] in A6.
      destruct (negb (F64.isnan xT)); [| discriminate].
      rewrite py_index_minus_one in A6; [discriminate |].
      unfold nrows in *. rewrite R5, length_insert. exact P5.
Qed.

(** X6. On a path that exists, a call of the points reader that raises has
    not touched the store, whatever the options: the only write is the
    assignment of an exchange value, and none is made before the last
    possible error. *)
Theorem points_error_keeps_store fs p aB aT eB eT xB xT e fs' :
  is_Some (fs !! p) ->
  read_points_from_hdf5 p aB aT eB eT xB xT fs = (inl e, fs') ->
  fs' = fs.
Proof. apply read_points_inl_store. Qed.

Lemma points_error_keeps_store_witness :
  exists e fs',
    read_points_from_hdf5 "db.hdf5" F64.nan F64.nan 0 0 (fl 5) F64.nan
      ex_empty_fs = (inl e, fs') /\ fs' = ex_empty_fs.
Proof.
  do 2 eexists.
  assert (H : read_points_from_hdf5 "db.hdf5" F64.nan F64.nan 0 0 (fl 5)
                F64.nan ex_empty_fs = (inl _, _)) by (vm_compute; reflexivity).
  split; [exact H |].
  refine (points_error_keeps_store ex_empty_fs "db.hdf5" F64.nan F64.nan 0 0
            (fl 5) F64.nan _ _ _ H).
  eexists. vm_compute. reflexivity.
Defined.

(** ** What the points reader returns *)

Lemma length_padded_rows vB vT rB rT l :
  length (padded_rows vB vT rB rT l) = (length l + pad_count vB vT)%nat.
Proof.
  unfold padded_rows, pad_count. rewrite !length_app.
  rewrite (length_boundary vB rB []), (length_boundary vT rT []). lia.
Qed.

(** Without exchange values the reader returns the padded arrays through
    the two caps, and leaves the store as it was. *)
Lemma read_points_capped fs p aY aZ aB aT eB eT pts fs' :
  stored_points fs p PointsY = Some aY ->
  stored_points fs p PointsZ = Some aZ ->
  F64.is_binary64 aB = true -> F64.is_binary64 aT = true ->
  read_points_from_hdf5 p aB aT eB eT F64.nan F64.nan fs = (inr pts, fs') ->
  let Y2 := mk_ndarray (ncols aY)
              (padded_rows aB aT (replicate (ncols aY) aB)
                 (replicate (ncols aY) aT) (rows aY)) in
  let Z2 := mk_ndarray (ncols aZ)
              (padded_rows aB aT (row_at aZ 0) (row_at aZ 0) (rows aZ)) in
  fs' = fs /\
  contents fs (fst pts)
  = Some (cap_bot_c eB (cap_top_c eT (Z.of_nat (nrows Y2) - eT) Y2)) /\
  contents fs (snd pts)
  = Some (cap_bot_c eB (cap_top_c eT (Z.of_nat (nrows Y2) - eT) Z2)).
Proof.
  intros HY HZ HbB HbT Hrun Y2 Z2.
  destruct (stored_points_inv _ _ _ _ HY) as (f & _ & Hf & _).
  pose proof (read_points_readonly fs p f aB aT eB eT Hf) as Hfs.
  rewrite Hrun in Hfs. cbn in Hfs. subst fs'. split; [reflexivity |].
  destruct (read_points_inr _ _ _ _ _ _ _ _ _ _ _ _ HY HZ Hrun)
    as ([Y4 Z4] & Hq & HvY & HvZ & _). cbn [fst snd] in HvY, HvZ.
  rewrite points_arr_no_exchange in Hq.
  apply capped_arr_inv in Hq as (Y2' & Z2' & H2 & -> & ->).
  apply padded_arr_inv in H2 as [-> ->]; try assumption.
  split; assumption.
Qed.

Lemma nrows_padded aB aT rB rT c l :
  nrows (mk_ndarray c (padded_rows aB aT rB rT l))
  = (length l + pad_count aB aT)%nat.
Proof. unfold nrows. cbn [rows]. apply length_padded_rows. Qed.

(** X7. With counts in range ([0 <= excludeTop], [0 <= excludeBot],
    [excludeTop + excludeBot <= n] for the padded row count [n]) and no
    exchange value, what the points reader returns is the padded array
    without its first [excludeBot] and its last [excludeTop] rows: the rows
    that remain are the stored rows and the added boundary rows, unchanged
    and in order, with the stored column count; the store is left as it
    was. *)
Theorem points_kept_rows fs p aY aZ aB aT eB eT pts fs' :
  stored_points fs p PointsY = Some aY ->
  stored_points fs p PointsZ = Some aZ ->
  nrows aZ = nrows aY ->
  F64.is_binary64 aB = true -> F64.is_binary64 aT = true ->
  0 <= eT -> 0 <= eB ->
  eT + eB <= Z.of_nat (nrows aY + pad_count aB aT) ->
  read_points_from_hdf5 p aB aT eB eT F64.nan F64.nan fs = (inr pts, fs') ->
  let n := (nrows aY + pad_count aB aT)%nat in
  fs' = fs /\
  contents fs (fst pts)
  = Some (mk_ndarray (ncols aY)
            (drop (Z.to_nat eB)
               (take (n - Z.to_nat eT)
                  (padded_rows aB aT (replicate (ncols aY) aB)
                     (replicate (ncols aY) aT) (rows aY))))) /\
  contents fs (snd pts)
  = Some (mk_ndarray (ncols aZ)
            (drop (Z.to_nat eB)
               (take (n - Z.to_nat eT)
                  (padded_rows aB aT (row_at aZ 0) (row_at aZ 0) (rows aZ))))).
Proof.
  intros HY HZ Hn HbB HbT HT HB Hsum Hrun n.
  destruct (read_points_capped fs p aY aZ aB aT eB eT pts fs' HY HZ HbB HbT Hrun)
    as (-> & HcY & HcZ).
  split; [reflexivity |].
  set (Y2 := mk_ndarray (ncols aY) _) in *.
  set (Z2 := mk_ndarray (ncols aZ) _) in *.
  assert (HnY : nrows Y2 = n) by apply nrows_padded.
  assert (HnZ : nrows Z2 = n).
  { unfold Z2. rewrite nrows_padded. unfold nrows in Hn. unfold n, nrows. lia. }
  rewrite HcY, HcZ. unfold cap_bot_c, cap_top_c.
  destruct (rows_capped Y2 eB eT HT HB) as (C1 & R1 & _); [lia |].
  destruct (rows_capped Z2 eB eT HT HB) as (C2 & R2 & _); [lia |].
  cbn zeta in C1, R1, C2, R2. rewrite HnZ in C2, R2. rewrite HnY in *.
  split; f_equal; apply ndarray_eta; assumption.
Qed.

Lemma points_kept_rows_witness :
  exists pts,
    read_points_from_hdf5 "db.hdf5" (fl 7) F64.nan 2 1 F64.nan F64.nan ex_fs
    = (inr pts, ex_fs) /\
    contents ex_fs (fst pts)
    = Some (mk_ndarray 2 [[fl 2; fl 2]]) /\
    contents ex_fs (snd pts)
    = Some (mk_ndarray 2 [[fl 11; fl 21]]).
Proof.
  eexists.
  assert (H : read_points_from_hdf5 "db.hdf5" (fl 7) F64.nan 2 1 F64.nan F64.nan
                ex_fs = (inr _, ex_fs)) by (vm_compute; reflexivity).
  split; [exact H |].
  refine (proj2 (points_kept_rows ex_fs "db.hdf5" ex_pointsY ex_pointsZ
                   (fl 7) F64.nan 2 1 _ ex_fs eq_refl eq_refl eq_refl eq_refl
                   eq_refl _ _ _ H)).
  - lia.
  - lia.
  - vm_compute. discriminate.
Defined.

(** ** Counts out of range in the points reader *)

Lemma capped_empty (a : ndarray) (eB eT : Z) :
  0 <= eT <= Z.of_nat (nrows a) -> 0 <= eB ->
  Z.of_nat (nrows a) <= eT + eB ->
  rows (cap_bot_c eB (cap_top_c eT (Z.of_nat (nrows a) - eT) a)) = [].
Proof.
  intros HT HB Hsum. unfold cap_bot_c, cap_top_c.
  set (a1 := if negb (eT =? 0) then _ else a).
  assert (H1 : rows a1 = take (nrows a - Z.to_nat eT) (rows a))
    by (apply rows_cap_top; lia).
  assert (Hn1 : nrows a1 = (nrows a - Z.to_nat eT)%nat).
  { unfold nrows at 1. rewrite H1, length_take. unfold nrows. lia. }
  destruct (Z.eqb_spec eB 0) as [-> | Hne]; cbn [negb].
  - apply length_zero_iff_nil. fold (nrows a1). lia.
  - unfold rows_from. cbn [rows]. apply length_zero_iff_nil.
    rewrite length_drop. fold (nrows a1). unfold py_slice_bound.
    destruct (Z.ltb_spec eB 0); lia.
Qed.

(** X8. When the counts take every row away ([0 <= excludeTop <= n],
    [0 <= excludeBot], [excludeTop + excludeBot >= n]), the points reader
    without exchange values returns two arrays with no rows, and the same
    call with an exchange value raises [IndexError], since there is no row
    to assign to, and leaves the store as it was. *)
Theorem points_all_rows_excluded fs p aY aZ aB aT eB eT pts fs' :
  stored_points fs p PointsY = Some aY ->
  stored_points fs p PointsZ = Some aZ ->
  nrows aZ = nrows aY ->
  F64.is_binary64 aB = true -> F64.is_binary64 aT = true ->
  0 <= eT <= Z.of_nat (nrows aY + pad_count aB aT) -> 0 <= eB ->
  Z.of_nat (nrows aY + pad_count aB aT) <= eT + eB ->
  read_points_from_hdf5 p aB aT eB eT F64.nan F64.nan fs = (inr pts, fs') ->
  contents fs (fst pts) = Some (mk_ndarray (ncols aY) []) /\
  contents fs (snd pts) = Some (mk_ndarray (ncols aZ) []) /\
  forall xB xT,
    F64.isnan xB = false \/ F64.isnan xT = false ->
    read_points_from_hdf5 p aB aT eB eT xB xT fs = (inl IndexError, fs).
Proof.
  intros HY HZ Hn HbB HbT HT HB Hsum Hrun.
  destruct (read_points_capped fs p aY aZ aB aT eB eT pts fs' HY HZ HbB HbT Hrun)
    as (-> & HcY & HcZ).
  set (Y2 := mk_ndarray (ncols aY) _) in *.
  set (Z2 := mk_ndarray (ncols aZ) _) in *.
  assert (HnY : nrows Y2 = (nrows aY + pad_count aB aT)%nat) by apply nrows_padded.
  assert (HnZ : nrows Z2 = nrows Y2).
  { unfold Z2. rewrite HnY, nrows_padded. unfold nrows in *. lia. }
  assert (EY : cap_bot_c eB (cap_top_c eT (Z.of_nat (nrows Y2) - eT) Y2)
               = mk_ndarray (ncols aY) []).
  { apply ndarray_eta; [| apply capped_empty; lia].
    unfold cap_bot_c, cap_top_c. now rewrite ncols_if_from, ncols_if_upto. }
  assert (EZ : cap_bot_c eB (cap_top_c eT (Z.of_nat (nrows Y2) - eT) Z2)
               = mk_ndarray (ncols aZ) []).
  { apply ndarray_eta; [| rewrite <- HnZ; apply capped_empty; lia].
    unfold cap_bot_c, cap_top_c. now rewrite ncols_if_from, ncols_if_upto. }
  rewrite HcY, HcZ, EY, EZ. split; [reflexivity |]. split; [reflexivity |].
  intros xB xT Hset.
  destruct (read_points_inr _ _ _ _ _ _ _ _ _ _ _ _ HY HZ Hrun)
    as ([Y4 Z4] & Hq & HvY & HvZ & _). cbn [fst snd] in HvY, HvZ.
  rewrite points_arr_no_exchange in Hq.
  assert (Y4 = mk_ndarray (ncols aY) []) as -> by congruence.
  pose proof (read_points_sim aB aT eB eT xB xT fs p aY aZ HY HZ) as Hsim.
  unfold sim in Hsim.
  assert (Harr : points_arr aB aT eB eT xB xT (aY, aZ) = inl IndexError).
  { unfold points_arr. rewrite Hq. cbn [rbind].
    unfold exchange_bot_arr, exchange_top_arr, setrow_scalar, setrow.
    cbn [fst snd]. unfold nrows. cbn [rows length].
    rewrite !py_index_empty.
    destruct (F64.isnan xB), (F64.isnan xT); cbn [negb rbind]; try reflexivity.
    destruct Hset; discriminate. }
  rewrite Harr in Hsim.
  destruct (read_points_from_hdf5 p aB aT eB eT xB xT fs) as [[e | x] fs1] eqn:E;
    [| contradiction].
  subst e. f_equal.
  destruct (stored_points_inv _ _ _ _ HY) as (f & _ & Hf & _).
  apply (read_points_inl_store fs p aB aT eB eT xB xT IndexError fs1); eauto.
Qed.

Lemma points_all_rows_excluded_witness :
  exists pts,
    read_points_from_hdf5 "db.hdf5" (fl 7) F64.nan 3 1 F64.nan F64.nan ex_fs
    = (inr pts, ex_fs) /\
    contents ex_fs (fst pts) = Some (mk_ndarray 2 []) /\
    contents ex_fs (snd pts) = Some (mk_ndarray 2 []) /\
    forall xB xT,
      F64.isnan xB = false \/ F64.isnan xT = false ->
      read_points_from_hdf5 "db.hdf5" (fl 7) F64.nan 3 1 xB xT ex_fs
      = (inl IndexError, ex_fs).
Proof.
  eexists.
  assert (H : read_points_from_hdf5 "db.hdf5" (fl 7) F64.nan 3 1 F64.nan F64.nan
                ex_fs = (inr _, ex_fs)) by (vm_compute; reflexivity).
  split; [exact H |].
  refine (points_all_rows_excluded ex_fs "db.hdf5" ex_pointsY ex_pointsZ
            (fl 7) F64.nan 3 1 _ ex_fs eq_refl eq_refl eq_refl eq_refl eq_refl
            _ _ _ H).
  - vm_compute. split; discriminate.
  - lia.
  - vm_compute. discriminate.
Defined.

Lemma cap_top_c_active (a : ndarray) (eT k : Z) :
  eT <> 0 ->
  cap_top_c eT k a
  = mk_ndarray (ncols a) (take (py_slice_bound (nrows a) k) (rows a)).
Proof.
  intros H. unfold cap_top_c, rows_upto.
  now destruct (Z.eqb_spec eT 0).
Qed.

Lemma cap_bot_c_active (a : ndarray) (eB : Z) :
  eB <> 0 ->
  cap_bot_c eB a
  = mk_ndarray (ncols a) (drop (py_slice_bound (nrows a) eB) (rows a)).
Proof.
  intros H. unfold cap_bot_c, rows_from.
  now destruct (Z.eqb_spec eB 0).
Qed.

(** X9. An [excludeTop] larger than the padded row count [n] does not
    empty the arrays: the slice bound [n - excludeTop] is then negative and
    counts from the end, so the points reader keeps the first
    [2*n - excludeTop] rows (none once [excludeTop >= 2*n]). *)
Theorem points_exclude_top_wraps fs p aY aZ aB aT eT pts fs' :
  stored_points fs p PointsY = Some aY ->
  stored_points fs p PointsZ = Some aZ ->
  nrows aZ = nrows aY ->
  F64.is_binary64 aB = true -> F64.is_binary64 aT = true ->
  Z.of_nat (nrows aY + pad_count aB aT) < eT ->
  read_points_from_hdf5 p aB aT 0 eT F64.nan F64.nan fs = (inr pts, fs') ->
  let n := Z.of_nat (nrows aY + pad_count aB aT) in
  contents fs (fst pts)
  = Some (mk_ndarray (ncols aY)
            (take (Z.to_nat (2 * n - eT))
               (padded_rows aB aT (replicate (ncols aY) aB)
                  (replicate (ncols aY) aT) (rows aY)))) /\
  contents fs (snd pts)
  = Some (mk_ndarray (ncols aZ)
            (take (Z.to_nat (2 * n - eT))
               (padded_rows aB aT (row_at aZ 0) (row_at aZ 0) (rows aZ)))).
Proof.
  intros HY HZ Hn HbB HbT Hbig Hrun n.
  destruct (read_points_capped fs p aY aZ aB aT 0 eT pts fs' HY HZ HbB HbT Hrun)
    as (-> & HcY & HcZ).
  set (Y2 := mk_ndarray (ncols aY) _) in *.
  set (Z2 := mk_ndarray (ncols aZ) _) in *.
  assert (HnY : Z.of_nat (nrows Y2) = n) by (unfold Y2; now rewrite nrows_padded).
  assert (HnZ : nrows Z2 = nrows Y2).
  { unfold Z2, Y2. rewrite !nrows_padded. unfold nrows in *. lia. }
  assert (Hb : py_slice_bound (nrows Y2) (Z.of_nat (nrows Y2) - eT)
               = Z.to_nat (2 * n - eT)).
  { unfold py_slice_bound. destruct (Z.ltb_spec (Z.of_nat (nrows Y2) - eT) 0); lia. }
  rewrite HcY, HcZ. unfold cap_bot_c. cbn [Z.eqb negb].
  rewrite !cap_top_c_active by lia. rewrite HnZ, Hb. split; reflexivity.
Qed.

Lemma points_exclude_top_wraps_witness :
  exists pts,
    read_points_from_hdf5 "db.hdf5" F64.nan F64.nan 0 4 F64.nan F64.nan ex_fs
    = (inr pts, ex_fs) /\
    contents ex_fs (fst pts)
    = Some (mk_ndarray 2 [[fl 1; fl 1]; [fl 2; fl 2]]) /\
    contents ex_fs (snd pts)
    = Some (mk_ndarray 2 [[fl 10; fl 20]; [fl 11; fl 21]]).
Proof.
  eexists.
  assert (H : read_points_from_hdf5 "db.hdf5" F64.nan F64.nan 0 4 F64.nan F64.nan
                ex_fs = (inr _, ex_fs)) by (vm_compute; reflexivity).
  split; [exact H |].
  refine (points_exclude_top_wraps ex_fs "db.hdf5" ex_pointsY ex_pointsZ
            F64.nan F64.nan 4 _ ex_fs eq_refl eq_refl eq_refl eq_refl eq_refl
            _ H).
  vm_compute. reflexivity.
Defined.

(** X10. A negative [excludeTop] removes nothing: without exchange values
    the points reader returns the same contents as with [excludeTop = 0],
    for every [excludeBot]. *)
Theorem points_negative_exclude_top fs p aY aZ aB aT eB eT pts fs' :
  stored_points fs p PointsY = Some aY ->
  stored_points fs p PointsZ = Some aZ ->
  nrows aZ = nrows aY ->
  F64.is_binary64 aB = true -> F64.is_binary64 aT = true ->
  eT < 0 ->
  read_points_from_hdf5 p aB aT eB eT F64.nan F64.nan fs = (inr pts, fs') ->
  exists pts0,
    read_points_from_hdf5 p aB aT eB 0 F64.nan F64.nan fs = (inr pts0, fs) /\
    contents fs (fst pts) = contents fs (fst pts0) /\
    contents fs (snd pts) = contents fs (snd pts0).
Proof.
  intros HY HZ Hn HbB HbT Hneg Hrun.
  destruct (read_points_inr _ _ _ _ _ _ _ _ _ _ _ _ HY HZ Hrun)
    as (q & Hq & _).
  rewrite points_arr_no_exchange in Hq.
  destruct q as [Y4 Z4].
  apply capped_arr_inv in Hq as (Y2' & Z2' & H2 & _).
  assert (H0 : exists q0, points_arr aB aT eB 0 F64.nan F64.nan (aY, aZ) = inr q0).
  { rewrite points_arr_no_exchange. unfold capped_arr. rewrite H2.
    cbn [rbind]. eauto. }
  destruct H0 as (q0 & H0).
  destruct (read_points_of_arr fs p aY aZ _ _ _ _ _ _ q0 HY HZ H0)
    as (pts0 & fs0 & Hr0 & _).
  destruct (read_points_capped fs p aY aZ aB aT eB eT pts fs' HY HZ HbB HbT Hrun)
    as (-> & HcY & HcZ).
  destruct (read_points_capped fs p aY aZ aB aT eB 0 pts0 fs0 HY HZ HbB HbT Hr0)
    as (-> & HcY0 & HcZ0).
  exists pts0. split; [exact Hr0 |].
  set (Y2 := mk_ndarray (ncols aY) _) in *.
  set (Z2 := mk_ndarray (ncols aZ) _) in *.
  assert (HnZ : nrows Z2 = nrows Y2).
  { unfold Z2, Y2. rewrite !nrows_padded. unfold nrows in *. lia. }
  assert (Hall : forall a, nrows a = nrows Y2 ->
                   cap_top_c eT (Z.of_nat (nrows Y2) - eT) a
                   = cap_top_c 0 (Z.of_nat (nrows Y2) - 0) a).
  { intros a Ha. rewrite cap_top_c_active by lia. unfold cap_top_c at 1.
    cbn [Z.eqb negb]. rewrite Ha.
    assert (Hb : py_slice_bound (nrows Y2) (Z.of_nat (nrows Y2) - eT) = nrows Y2).
    { unfold py_slice_bound.
      destruct (Z.ltb_spec (Z.of_nat (nrows Y2) - eT) 0); lia. }
    rewrite Hb, <- Ha. unfold nrows. rewrite firstn_all. apply ndarray_eta'. }
  rewrite HcY, HcZ, HcY0, HcZ0, (Hall Y2 eq_refl), (Hall Z2 HnZ).
  split; reflexivity.
Qed.

Lemma points_negative_exclude_top_witness :
  exists pts pts0,
    read_points_from_hdf5 "db.hdf5" (fl 7) F64.nan 1 (-2) F64.nan F64.nan ex_fs
    = (inr pts, ex_fs) /\
    read_points_from_hdf5 "db.hdf5" (fl 7) F64.nan 1 0 F64.nan F64.nan ex_fs
    = (inr pts0, ex_fs) /\
    contents ex_fs (fst pts) = contents ex_fs (fst pts0) /\
    contents ex_fs (snd pts) = contents ex_fs (snd pts0).
Proof.
  eexists.
  assert (H : read_points_from_hdf5 "db.hdf5" (fl 7) F64.nan 1 (-2) F64.nan
                F64.nan ex_fs = (inr _, ex_fs)) by (vm_compute; reflexivity).
  destruct (points_negative_exclude_top ex_fs "db.hdf5" ex_pointsY ex_pointsZ
              (fl 7) F64.nan 1 (-2) _ ex_fs eq_refl eq_refl eq_refl eq_refl
              eq_refl eq_refl H) as (pts0 & H0).
  exists pts0. split; [exact H | exact H0].
Defined.

(** X11. A negative [excludeBot = -k] does not exclude from the bottom: the
    slice [a[-k:]] keeps the last [k] rows. Without exchange values and with
    [excludeTop = 0] the points reader returns the last [k] rows of the
    padded arrays (all of them once [k] exceeds the row count). *)
Theorem points_negative_exclude_bot fs p aY aZ aB aT eB pts fs' :
  stored_points fs p PointsY = Some aY ->
  stored_points fs p PointsZ = Some aZ ->
  nrows aZ = nrows aY ->
  F64.is_binary64 aB = true -> F64.is_binary64 aT = true ->
  eB < 0 ->
  read_points_from_hdf5 p aB aT eB 0 F64.nan F64.nan fs = (inr pts, fs') ->
  let n := (nrows aY + pad_count aB aT)%nat in
  contents fs (fst pts)
  = Some (mk_ndarray (ncols aY)
            (drop (n - Z.to_nat (- eB))
               (padded_rows aB aT (replicate (ncols aY) aB)
                  (replicate (ncols aY) aT) (rows aY)))) /\
  contents fs (snd pts)
  = Some (mk_ndarray (ncols aZ)
            (drop (n - Z.to_nat (- eB))
               (padded_rows aB aT (row_at aZ 0) (row_at aZ 0) (rows aZ)))).
Proof.
  intros HY HZ Hn HbB HbT Hneg Hrun n.
  destruct (read_points_capped fs p aY aZ aB aT eB 0 pts fs' HY HZ HbB HbT Hrun)
    as (-> & HcY & HcZ).
  set (Y2 := mk_ndarray (ncols aY) _) in *.
  set (Z2 := mk_ndarray (ncols aZ) _) in *.
  assert (HnY : nrows Y2 = n) by apply nrows_padded.
  assert (HnZ : nrows Z2 = n).
  { unfold Z2. rewrite nrows_padded. unfold n, nrows in *. lia. }
  assert (Hb : py_slice_bound n eB = (n - Z.to_nat (- eB))%nat).
  { unfold py_slice_bound. destruct (Z.ltb_spec eB 0); lia. }
  rewrite HcY, HcZ. unfold cap_top_c. cbn [Z.eqb negb].
  rewrite !cap_bot_c_active by lia. rewrite HnY, HnZ, Hb. split; reflexivity.
Qed.

Lemma points_negative_exclude_bot_witness :
  exists pts,
    read_points_from_hdf5 "db.hdf5" F64.nan F64.nan (-1) 0 F64.nan F64.nan ex_fs
    = (inr pts, ex_fs) /\
    contents ex_fs (fst pts) = Some (mk_ndarray 2 [[fl 3; fl 3]]) /\
    contents ex_fs (snd pts) = Some (mk_ndarray 2 [[fl 12; fl 22]]).
Proof.
  eexists.
  assert (H : read_points_from_hdf5 "db.hdf5" F64.nan F64.nan (-1) 0 F64.nan
                F64.nan ex_fs = (inr _, ex_fs)) by (vm_compute; reflexivity).
  split; [exact H |].
  refine (points_negative_exclude_bot ex_fs "db.hdf5" ex_pointsY ex_pointsZ
            F64.nan F64.nan (-1) _ ex_fs eq_refl eq_refl eq_refl eq_refl eq_refl
            eq_refl H).
Defined.

(** ** The velocity closure after its three loads *)

(** Once the slabs are loaded the closure is a chain of blocks on the three
    components, and the store plays no part. *)
Lemma read_run fs p aB aT eB eT iB iT t uX uY uZ :
  slab fs p UX t = Some uX -> slab fs p UY t = Some uY ->
  slab fs p UZ t = Some uZ ->
  read p aB aT eB eT iB iT t fs
  = (rbind (on_components (add_bot_c aB (ncols uX)) (uX, uY, uZ)) (fun u1 =>
     rbind (on_components (add_top_c aT (ncols uX)) u1) (fun u2 =>
     let top := Z.of_nat (nrows (fst (fst u2))) - eT in
     rbind (on_components (interp_top_c iT eT top) u2) (fun u3 =>
     rbind (on_components (interp_bot_c iB eB) u3) (fun u4 =>
     inr (cap_bot_u eB (cap_top_u eT top u4)))))), fs).
Proof.
  intros HX HY HZ. destruct (slab_file _ _ _ _ _ HX) as [f Hf].
  unfold read. unfold bind at 1. unfold h5py_File. rewrite Hf.
  unfold bind at 1. rewrite velocity_getitem_run, HX.
  unfold bind at 1. rewrite velocity_getitem_run, HY.
  unfold bind at 1. rewrite velocity_getitem_run, HZ.
  cbn [shape fst snd].
  unfold bind at 1. rewrite add_bot_u_run.
  destruct (on_components (add_bot_c aB (ncols uX)) (uX, uY, uZ)) as [e | u1];
    [reflexivity |]. cbn [rbind].
  unfold bind at 1. rewrite add_top_u_run.
  destruct (on_components (add_top_c aT (ncols uX)) u1) as [e | u2];
    [reflexivity |]. cbn [rbind]. cbn zeta.
  unfold bind at 1. rewrite interp_top_run.
  destruct (on_components (interp_top_c iT eT _) u2) as [e | u3];
    [reflexivity |]. cbn [rbind].
  unfold bind at 1. rewrite interp_bot_run.
  destruct (on_components (interp_bot_c iB eB) u3) as [e | u4];
    reflexivity.
Qed.

Lemma on_components_inl f u e :
  on_components f u = inl e ->
  exists c, (c = fst (fst u) \/ c = snd (fst u) \/ c = snd u) /\ f c = inl e.
Proof.
  destruct u as [[uX uY] uZ]. unfold on_components. cbn [fst snd].
  destruct (f uX) as [e1 | x] eqn:EX; cbn [rbind].
  { intros [= ->]. eauto. }
  destruct (f uY) as [e2 | y] eqn:EY; cbn [rbind].
  { intros [= ->]. eauto 6. }
  destruct (f uZ) as [e3 | z] eqn:EZ; cbn [rbind]; [| discriminate].
  intros [= ->]. eauto 6.
Qed.

Lemma getrow_inl a i e : getrow a i = inl e -> e = IndexError.
Proof.
  unfold getrow. destruct (py_index (nrows a) i) as [j |]; [| now intros [=]].
  destruct (rows a !! j); [discriminate | now intros [=]].
Qed.

(** An interpolation only ever raises [IndexError]. *)
Lemma interpolate_inl u d i j e : interpolate u d i j = inl e -> e = IndexError.
Proof.
  unfold interpolate.
  destruct (getrow u i) as [e1 | ri] eqn:E1;
    [intros [= <-]; now apply getrow_inl in E1 |].
  destruct (getrow u j) as [e2 | rj] eqn:E2;
    [intros [= <-]; now apply getrow_inl in E2 |].
  unfold setrow. destruct (py_index (nrows u) d); [discriminate | now intros [=]].
Qed.

Lemma interpolate_nrows u d i j u' :
  interpolate u d i j = inr u' -> nrows u' = nrows u.
Proof.
  unfold interpolate.
  destruct (getrow u i) as [e1 | ri]; [discriminate |].
  destruct (getrow u j) as [e2 | rj]; [discriminate |].
  intros H. apply setrow_shape in H. now apply shape_eq in H.
Qed.

Lemma getrow_past_end a i :
  Z.of_nat (nrows a) <= i -> getrow a i = inl IndexError.
Proof.
  intros H. unfold getrow, py_index.
  destruct (Z.ltb_spec i 0); [lia |].
  destruct (Z.ltb_spec i (Z.of_nat (nrows a))); [lia |].
  now rewrite andb_false_r.
Qed.

(** ** Errors in the velocity pipeline *)

(** X12. The column count of the added rows is taken from [uX]. When an
    add value is set and [uY] or [uZ] has another column count than [uX],
    [np.append] raises [ValueError]; the store is left as it was. *)
Theorem velocity_column_mismatch fs p aB aT eB eT iB iT t uX uY uZ :
  slab fs p UX t = Some uX -> slab fs p UY t = Some uY ->
  slab fs p UZ t = Some uZ ->
  F64.isnan aB = false \/ F64.isnan aT = false ->
  ncols uY <> ncols uX \/ ncols uZ <> ncols uX ->
  read p aB aT eB eT iB iT t fs = (inl ValueError, fs).
Proof.
  intros HX HY HZ Hset Hmis.
  rewrite (read_run fs p aB aT eB eT iB iT t uX uY uZ HX HY HZ). f_equal.
  assert (Happ : forall a b, ncols a <> ncols b -> append_rows a b = inl ValueError).
  { intros a b H. unfold append_rows. now destruct (decide (ncols a = ncols b)). }
  unfold on_components at 1, add_bot_c.
  destruct (F64.isnan aB) eqn:EB; cbn [negb rbind].
  - destruct Hset as [? | ET]; [discriminate |].
    unfold on_components at 1, add_top_c. rewrite ET. cbn [negb].
    rewrite append_rows_same by reflexivity. cbn [rbind].
    destruct (decide (ncols uY = ncols uX)) as [EY | NY].
    + rewrite (append_rows_same uY) by exact EY. cbn [rbind].
      rewrite (Happ uZ); [reflexivity |]. cbn. destruct Hmis; congruence.
    + now rewrite (Happ uY).
  - rewrite append_rows_same by reflexivity. cbn [rbind].
    destruct (decide (ncols uY = ncols uX)) as [EY | NY].
    + rewrite (append_rows_same _ uY) by (cbn; congruence). cbn [rbind].
      rewrite (Happ _ uZ); [reflexivity |]. cbn. destruct Hmis; congruence.
    + rewrite (Happ _ uY); [reflexivity |]. cbn. congruence.
Qed.

Lemma velocity_column_mismatch_witness :
  read "db.hdf5" (fl 7) F64.nan 0 0 false false 0 ex_mismatch_fs
  = (inl ValueError, ex_mismatch_fs).
Proof.
  eapply (velocity_column_mismatch ex_mismatch_fs "db.hdf5" (fl 7) F64.nan 0 0
            false false 0).
  - vm_compute. reflexivity.
  - vm_compute. reflexivity.
  - vm_compute. reflexivity.
  - left. reflexivity.
  - left. vm_compute. lia.
Defined.

Lemma padded_components aB aT uX uY uZ :
  ncols uY = ncols uX -> ncols uZ = ncols uX ->
  exists aX aY aZ,
    rbind (on_components (add_bot_c aB (ncols uX)) (uX, uY, uZ))
      (on_components (add_top_c aT (ncols uX))) = inr (aX, aY, aZ) /\
    padded_c aB aT (ncols uX) uX = inr aX /\
    padded_c aB aT (ncols uX) uY = inr aY /\
    padded_c aB aT (ncols uX) uZ = inr aZ.
Proof.
  intros HcY HcZ.
  assert (Hpad : forall u, ncols u = ncols uX ->
             exists b a, add_bot_c aB (ncols uX) u = inr b /\
                         add_top_c aT (ncols uX) b = inr a).
  { intros u Hc. unfold add_bot_c, add_top_c.
    destruct (F64.isnan aB), (F64.isnan aT); cbn [negb].
    - eauto.
    - exists u. eexists. split; [reflexivity |].
      now apply append_rows_same.
    - eexists. eexists. split; [| reflexivity].
      apply append_rows_same. now rewrite Hc.
    - eexists. eexists. split.
      + apply append_rows_same. now rewrite Hc.
      + now apply append_rows_same. }
  destruct (Hpad uX eq_refl) as (bX & aX & BX & TX).
  destruct (Hpad uY HcY) as (bY & aY & BY & TY).
  destruct (Hpad uZ HcZ) as (bZ & aZ & BZ & TZ).
  exists aX, aY, aZ.
  assert (E1 : on_components (add_bot_c aB (ncols uX)) (uX, uY, uZ)
               = inr (bX, bY, bZ)) by (now apply on_components_inr).
  assert (E2 : on_components (add_top_c aT (ncols uX)) (bX, bY, bZ)
               = inr (aX, aY, aZ)) by (now apply on_components_inr).
  rewrite E1. cbn [rbind]. split; [exact E2 |].
  unfold padded_c. rewrite BX, BY, BZ. cbn [rbind]. auto.
Qed.

(** X13. An interpolation needs its two rows. With [interpValTop] and a
    negative [excludeTop], or with [interpValBot] and a positive
    [excludeBot] of at least the padded row count, a call of the velocity
    closure raises [IndexError] and leaves the store as it was. *)
Theorem velocity_interpolation_out_of_range
    fs p aB aT eB eT iB iT t uX uY uZ :
  slab fs p UX t = Some uX -> slab fs p UY t = Some uY ->
  slab fs p UZ t = Some uZ ->
  ncols uY = ncols uX -> ncols uZ = ncols uX ->
  (iT = true /\ eT < 0) \/
  (iB = true /\ 0 < eB /\ Z.of_nat (nrows uX + pad_count aB aT) <= eB) ->
  read p aB aT eB eT iB iT t fs = (inl IndexError, fs).
Proof.
  intros HX HY HZ HcY HcZ Hcase.
  rewrite (read_run fs p aB aT eB eT iB iT t uX uY uZ HX HY HZ). f_equal.
  destruct (padded_components aB aT uX uY uZ HcY HcZ)
    as (aX & aY & aZ & Hpad & PX & _).
  apply padded_c_shape in PX as [_ NX].
  unfold rbind in Hpad.
  destruct (on_components (add_bot_c aB (ncols uX)) (uX, uY, uZ)) as [e | u1];
    [discriminate |]. cbn [rbind]. rewrite Hpad. cbn [rbind fst]. cbn zeta.
  set (top := Z.of_nat (nrows aX) - eT).
  destruct (on_components (interp_top_c iT eT top) (aX, aY, aZ))
    as [e | [[cX cY] cZ]] eqn:E3; cbn [rbind].
  - f_equal. apply on_components_inl in E3 as (c & _ & Hc).
    unfold interp_top_c in Hc.
    destruct (iT && negb (eT =? 0)); [| discriminate].
    now apply interpolate_inl in Hc.
  - apply on_components_inr in E3 as (E3X & _).
    destruct Hcase as [[-> Hneg] | (-> & Hpos & Hbig)].
    + exfalso. unfold interp_top_c in E3X.
      destruct (Z.eqb_spec eT 0) as [-> | _]; [lia |]. cbn [andb negb] in E3X.
      unfold interpolate in E3X.
      assert (Hge : Z.of_nat (nrows aX) <= top - 1) by (unfold top; lia).
      rewrite (getrow_past_end aX (top - 1) Hge) in E3X. discriminate.
    + assert (NC : nrows cX = nrows aX).
      { unfold interp_top_c in E3X.
        destruct (iT && negb (eT =? 0)); [| now injection E3X as <-].
        now apply interpolate_nrows in E3X. }
      assert (EX : interp_bot_c true eB cX = inl IndexError).
      { unfold interp_bot_c.
        destruct (Z.eqb_spec eB 0) as [-> | _]; [lia |]. cbn [andb negb].
        unfold interpolate.
        destruct (getrow cX (eB - 1)) as [e1 | r1] eqn:G1.
        - f_equal. now apply getrow_inl in G1.
        - now rewrite getrow_past_end by lia. }
      unfold on_components. now rewrite EX.
Qed.

Lemma velocity_interpolation_out_of_range_witness :
  read "db.hdf5" F64.nan F64.nan 5 0 true false 0 ex_fs
  = (inl IndexError, ex_fs).
Proof.
  eapply (velocity_interpolation_out_of_range ex_fs "db.hdf5" F64.nan F64.nan
            5 0 true false 0).
  - vm_compute. reflexivity.
  - vm_compute. reflexivity.
  - vm_compute. reflexivity.
  - reflexivity.
  - reflexivity.
  - right. split; [reflexivity |]. split; [lia |]. vm_compute. discriminate.
Defined.

(** ** What the velocity closure returns *)

Lemma finished_c_kept (eB eT : Z) (iB iT : bool) (a r : ndarray) :
  0 <= eT -> 0 <= eB -> eT + eB < Z.of_nat (nrows a) ->
  finished_c eB eT iB iT (nrows a) a = inr r ->
  ncols r = ncols a /\
  Z.of_nat (nrows r) = Z.of_nat (nrows a) - eT - eB /\
  kept_rows (iB && negb (eB =? 0)) (iT && negb (eT =? 0)) eB (rows a) (rows r).
Proof.
  intros HT HB Hsum Hr.
  destruct (finished_c_in_range eB eT iB iT a HT HB Hsum)
    as (r' & Hr' & Hc & Hrows & Hn).
  rewrite Hr in Hr'. injection Hr' as <-.
  split; [exact Hc |]. split; [exact Hn |].
  intros i Hi Hfirst Hlast. cbn zeta in Hrows.
  assert (Hlen : length (rows r) = (nrows a - Z.to_nat eT - Z.to_nat eB)%nat)
    by (unfold nrows in *; lia).
  rewrite Hlen in Hi, Hlast. rewrite Hrows, lookup_drop.
  rewrite lookup_take_lt by lia.
  set (top := Z.of_nat (nrows a) - eT) in *.
  assert (H1 : (if iT && negb (eT =? 0)
                then <[Z.to_nat (top - 1) :=
                         interp_rows (row_at a (top - 1)) (row_at a top)]> (rows a)
                else rows a) !! (Z.to_nat eB + i)%nat
               = rows a !! (Z.to_nat eB + i)%nat).
  { destruct (iT && negb (eT =? 0)) eqn:Ec; [| reflexivity].
    apply list_lookup_insert_ne. intros Heq.
    assert (i = (nrows a - Z.to_nat eT - Z.to_nat eB - 1)%nat)
      by (unfold top in Heq; lia).
    specialize (Hlast H). discriminate. }
  destruct (iB && negb (eB =? 0)) eqn:Ec; [| exact H1].
  rewrite list_lookup_insert_ne; [exact H1 |].
  intros Heq. assert (i = 0%nat) by lia. specialize (Hfirst H). discriminate.
Qed.

(** X14. With counts in range and the three slabs of one shape, a call of
    the velocity closure returns, leaves the store as it was, and each
    returned component keeps the stored column count and consists of rows
    [excludeBot .. n - excludeTop) of the padded slab, unchanged and in
    order; only the first returned row (when the bottom interpolation is
    active) and the last one (when the top interpolation is active) may
    differ from the padded slab. *)
Theorem velocity_kept_rows fs p aB aT eB eT iB iT t uX uY uZ :
  slab fs p UX t = Some uX -> slab fs p UY t = Some uY ->
  slab fs p UZ t = Some uZ ->
  shape uY = shape uX -> shape uZ = shape uX ->
  F64.is_binary64 aB = true -> F64.is_binary64 aT = true ->
  0 <= eT -> 0 <= eB ->
  eT + eB < Z.of_nat (nrows uX + pad_count aB aT) ->
  exists rX rY rZ,
    read p aB aT eB eT iB iT t fs = (inr (rX, rY, rZ), fs) /\
    component_kept aB aT eB eT iB iT uX rX /\
    component_kept aB aT eB eT iB iT uY rY /\
    component_kept aB aT eB eT iB iT uZ rZ.
Proof.
  intros HX HY HZ HsY HsZ HbB HbT HT HB Hsum.
  destruct (read_returns fs p aB aT eB eT iB iT t uX uY uZ HX HY HZ HsY HsZ
              HT HB Hsum) as (rX & rY & rZ & Hrun).
  exists rX, rY, rZ. split; [exact Hrun |].
  apply read_inr in Hrun
    as (_ & uX' & uY' & uZ' & aX & aY & aZ & HX' & HY' & HZ' & PX & PY & PZ & FX & FY & FZ).
  assert (uX' = uX) as -> by congruence.
  assert (uY' = uY) as -> by congruence.
  assert (uZ' = uZ) as -> by congruence.
  apply shape_eq in HsY as [HnY HcY]. apply shape_eq in HsZ as [HnZ HcZ].
  assert (Hcomp : forall u a r,
             ncols u = ncols uX -> nrows u = nrows uX ->
             padded_c aB aT (ncols uX) u = inr a ->
             finished_c eB eT iB iT (nrows aX) a = inr r ->
             component_kept aB aT eB eT iB iT u r).
  { intros u a r Hc Hn Pa Fa.
    pose proof (padded_c_shape _ _ _ _ _ Pa) as [Ca Na].
    pose proof (padded_c_shape _ _ _ _ _ PX) as [_ NaX].
    apply padded_c_inv in Pa as [_ Ra].
    rewrite !scaled_row in Ra by assumption. rewrite <- Hc in Ra.
    assert (Ena : nrows aX = nrows a) by lia. rewrite Ena in Fa.
    destruct (finished_c_kept eB eT iB iT a r) as (C & N & K);
      [lia | lia | lia | exact Fa |].
    unfold component_kept, padded_rows. rewrite <- Ra.
    split; [congruence |]. split; [lia | exact K]. }
  split; [| split].
  - apply (Hcomp uX aX rX); auto.
  - apply (Hcomp uY aY rY); auto.
  - apply (Hcomp uZ aZ rZ); auto.
Qed.

Lemma velocity_kept_rows_witness :
  exists rX rY rZ,
    read "db.hdf5" (fl 7) F64.nan 1 1 true true 0 ex_fs
      = (inr (rX, rY, rZ), ex_fs) /\
    component_kept (fl 7) F64.nan 1 1 true true
      (mk_ndarray 1 [[fl 1]; [fl 2]; [fl 4]; [fl 8]; [fl 16]]) rX /\
    component_kept (fl 7) F64.nan 1 1 true true
      (mk_ndarray 1 [[fl 3]; [fl 6]; [fl 12]; [fl 24]; [fl 48]]) rY /\
    component_kept (fl 7) F64.nan 1 1 true true
      (mk_ndarray 1 [[fl 5]; [fl 10]; [fl 20]; [fl 40]; [fl 80]]) rZ.
Proof.
  apply (velocity_kept_rows ex_fs "db.hdf5" (fl 7) F64.nan 1 1 true true 0).
  - vm_compute. reflexivity.
  - vm_compute. reflexivity.
  - vm_compute. reflexivity.
  - reflexivity.
  - reflexivity.
  - reflexivity.
  - reflexivity.
  - lia.
  - lia.
  - vm_compute. reflexivity.
Defined.
